(** * PyLambdAPI: event normalisation, routing and middleware dispatch

    A shallow embedding of [PyLambdAPI/lambda_flask.py]: the classes
    [Response], [MethodHandler], [Route], [RequestInfo], [utills] and
    [LambdaFlask], followed by the properties of the dispatch pipeline.

    - Python values are a small universe of JSON-like data, [bytes] and
      [Response] instances; a function that can raise returns a [result].
    - Handlers and middleware are arbitrary functions that may change a
      world state and may raise; every call of one is recorded in a trace.
    - [Route] objects live in a heap and the route table holds their
      addresses, so that registration through a returned Route is seen by
      every holder of it.
    - [json.dumps], [json.loads] and [base64.b64decode] are parameters of the
      development; a reference implementation runs the examples. *)

From Stdlib Require Import List String Ascii ZArith Bool Lia.
From Stdlib.Strings Require Import Byte.
From Stdlib Require Import DecimalString.
Import ListNotations.
Open Scope string_scope.

(** ** Python values

    The values that flow through the pipeline: JSON-like data (the host
    delivers decoded JSON events, so every mapping is keyed by strings;
    numbers are integers, floats are outside the model), [bytes] for decoded
    base64 bodies, and instances of [Response].  A [VDict] holds its items
    in insertion order, with distinct keys. *)

#[warnings="-register-all"]
Inductive pyval : Type :=
| VNone
| VBool (b : bool)
| VInt (z : Z)
| VStr (s : string)
| VBytes (bs : list byte)
| VList (l : list pyval)
| VDict (d : list (string * pyval))
| VResponse (r : ResponseObj)
with ResponseObj : Type :=
| MkResponse (statusCode body body_encoded headers isApiGatewayEvent : pyval).

Definition dict := list (string * pyval).

(** ** Exceptions and results

    [exn_is_Exception] tells whether the exception's class derives from
    [Exception] (as opposed to [BaseException] only: [SystemExit],
    [KeyboardInterrupt], [GeneratorExit]); [exn_str] is [str(e)]. *)

Record exn : Type := MkExn {
  exn_class : string;
  exn_str : string;
  exn_is_Exception : bool
}.

Inductive result (A : Type) : Type :=
| Return (a : A)
| Raise (e : exn).
Arguments Return {A} a.
Arguments Raise {A} e.

Definition rbind {A B} (r : result A) (k : A -> result B) : result B :=
  match r with
  | Return a => k a
  | Raise e => Raise e
  end.

Declare Scope py_scope.
Delimit Scope py_scope with py.
Notation "'let*' x ':=' e 'in' k" := (rbind e (fun x => k))
  (at level 10, x name, e at level 100, k at level 200) : py_scope.
Open Scope py_scope.

Module Py.

Definition TypeError (msg : string) : exn := MkExn "TypeError" msg true.
Definition KeyError (msg : string) : exn := MkExn "KeyError" msg true.
Definition AttributeError (msg : string) : exn := MkExn "AttributeError" msg true.
Definition ValueError (msg : string) : exn := MkExn "ValueError" msg true.

(** [type(v).__name__] *)
Definition type_name (v : pyval) : string :=
  match v with
  | VNone => "NoneType"
  | VBool _ => "bool"
  | VInt _ => "int"
  | VStr _ => "str"
  | VBytes _ => "bytes"
  | VList _ => "list"
  | VDict _ => "dict"
  | VResponse _ => "Response"
  end.

(** [bool(v)]; a [Response] instance defines neither [__bool__] nor
    [__len__] and is therefore true. *)
Definition truthy (v : pyval) : bool :=
  match v with
  | VNone => false
  | VBool b => b
  | VInt z => negb (Z.eqb z 0)
  | VStr s => negb (String.eqb s "")
  | VBytes bs => match bs with [] => false | _ => true end
  | VList l => match l with [] => false | _ => true end
  | VDict d => match d with [] => false | _ => true end
  | VResponse _ => true
  end.

(** [isinstance(v, str)], [isinstance(v, Response)] *)
Definition is_str (v : pyval) : bool :=
  match v with VStr _ => true | _ => false end.
Definition is_Response (v : pyval) : bool :=
  match v with VResponse _ => true | _ => false end.
Definition is_dict (v : pyval) : bool :=
  match v with VDict _ => true | _ => false end.

(** [repr] of a key that is one of the identifiers the source subscripts
    with; such a key needs no escaping. *)
Definition repr_key (k : string) : string := "'" ++ k ++ "'".

(** *** Dictionaries with string keys *)

Fixpoint lookup {A} (k : string) (d : list (string * A)) : option A :=
  match d with
  | [] => None
  | (k', v) :: rest => if String.eqb k k' then Some v else lookup k rest
  end.

(** [d[k] = v]: an existing key keeps its position, a new key is added
    at the end. *)
Fixpoint setitem {A} (k : string) (v : A) (d : list (string * A))
  : list (string * A) :=
  match d with
  | [] => [(k, v)]
  | (k', v') :: rest =>
      if String.eqb k k' then (k, v) :: rest
      else (k', v') :: setitem k v rest
  end.

(** [d.update(items)] *)
Definition update {A} (d items : list (string * A)) : list (string * A) :=
  fold_left (fun acc kv => setitem (fst kv) (snd kv) acc) items d.

Definition keys {A} (d : list (string * A)) : list string := map fst d.

(** Any hashable value can be probed against a dictionary; lists and
    dictionaries are unhashable. *)
Definition hashable (v : pyval) : bool :=
  match v with
  | VList _ | VDict _ => false
  | _ => true
  end.

Definition unhashable (v : pyval) : exn :=
  TypeError ("unhashable type: '" ++ type_name v ++ "'").

(** [d[k] if k in d else <absent>] for a dictionary [d] whose keys are
    all strings: hashing an unhashable probe raises, a hashable probe that
    is not a string equals no key, and [d[k]] after a successful [k in d]
    cannot fail. *)
Definition find {A} (k : pyval) (d : list (string * A)) : result (option A) :=
  if hashable k then
    Return (match k with
            | VStr s => lookup s d
            | _ => None
            end)
  else Raise (unhashable k).

(** [v[k]] for an arbitrary value [v] and a string key [k]. *)
Definition getitem (v : pyval) (k : string) : result pyval :=
  match v with
  | VDict d =>
      match lookup k d with
      | Some x => Return x
      | None => Raise (KeyError (repr_key k))
      end
  | VStr _ => Raise (TypeError "string indices must be integers, not 'str'")
  | VBytes _ =>
      Raise (TypeError "byte indices must be integers or slices, not str")
  | VList _ =>
      Raise (TypeError "list indices must be integers or slices, not str")
  | _ => Raise (TypeError ("'" ++ type_name v ++ "' object is not subscriptable"))
  end.

Definition get_or {A} (d : list (string * A)) (k : string) (default : A) : A :=
  match lookup k d with
  | Some x => x
  | None => default
  end.

(** [v.get(k, default)]: only dictionaries have a [get] method. *)
Definition get (v : pyval) (k : string) (default : pyval) : result pyval :=
  match v with
  | VDict d => Return (get_or d k default)
  | _ => Raise (AttributeError
                  ("'" ++ type_name v ++ "' object has no attribute 'get'"))
  end.

(** The operand of [**v] inside a dictionary display. *)
Definition mapping_items (v : pyval) : result dict :=
  match v with
  | VDict d => Return d
  | _ => Raise (TypeError ("'" ++ type_name v ++ "' object is not a mapping"))
  end.

End Py.

(** ** The runtime outside the repository

    The standard-library functions the source calls ([json.dumps],
    [json.loads], [base64.b64decode]) and the state of the world that
    user-supplied handlers and middleware may read and change. *)

Class Runtime : Type := {
  World : Type;
  json_dumps : pyval -> result string;
  json_loads : pyval -> result pyval;
  b64decode : pyval -> result (list byte)
}.

(** A Python callable of one argument: it may change the world, and it
    either returns a value or raises. *)
Definition callable {rt : Runtime} : Type :=
  pyval -> World -> World * result pyval.

(** Every invocation of user code is recorded: a middleware by its position
    in the chain, the handler function as such, each with its argument. *)
Inductive call : Type :=
| CallMiddleware (pos : nat) (arg : pyval)
| CallHandler (arg : pyval).

Section Machine.
Context {rt : Runtime}.

Record machine : Type := MkMachine {
  world : World;
  trace : list call
}.

(** Computations that invoke user code. *)
Definition M (A : Type) : Type := machine -> machine * result A.

Definition lift {A} (r : result A) : M A := fun s => (s, r).

Definition bind {A B} (m : M A) (k : A -> M B) : M B :=
  fun s =>
    match m s with
    | (s', Return a) => k a s'
    | (s', Raise e) => (s', Raise e)
    end.

(** [try: body / except Exception as e: handler(e)] *)
Definition try_except_Exception {A} (body : M A) (handler : exn -> M A) : M A :=
  fun s =>
    match body s with
    | (s', Return a) => (s', Return a)
    | (s', Raise e) =>
        if exn_is_Exception e then handler e s' else (s', Raise e)
    end.

Definition invoke (site : pyval -> call) (f : callable) (arg : pyval) : M pyval :=
  fun s =>
    let (w, r) := f arg (world s) in
    (MkMachine w (trace s ++ [site arg]), r).

End Machine.

Notation "x <- e ;; k" := (bind e (fun x => k))
  (at level 61, e at next level, right associativity) : py_scope.

(** ** class Response *)

Module Response.

Definition t : Type := ResponseObj.

(** [__init__(self, statusCode, body, headers=None, isBase64Encoded=False,
    isApiGatewayEvent=False)] *)
Definition init (statusCode body headers isBase64Encoded isApiGatewayEvent : pyval)
  : t :=
  MkResponse statusCode body isBase64Encoded headers isApiGatewayEvent.

Definition statusCode (self : t) : pyval :=
  let '(MkResponse sc _ _ _ _) := self in sc.
Definition body (self : t) : pyval :=
  let '(MkResponse _ b _ _ _) := self in b.
Definition isApiGatewayEvent (self : t) : pyval :=
  let '(MkResponse _ _ _ _ g) := self in g.

Definition envelope (statusCode body : pyval) : pyval :=
  VDict [("statusCode", statusCode); ("body", body)].

Section Methods.
Context {rt : Runtime}.

Definition json (self : t) : result pyval :=
  if Py.truthy (isApiGatewayEvent self) then
    let* b := (if Py.is_str (body self) then Return (body self)
               else let* s := json_dumps (body self) in Return (VStr s)) in
    Return (envelope (statusCode self) b)
  else
    Return (envelope (statusCode self) (body self)).

End Methods.

End Response.

(** ** class MethodHandler *)

Module MethodHandler.

(** What a caller may hand to [use_middleware]. *)
Inductive candidate {rt : Runtime} : Type :=
| IsMiddleware (process_request : callable)
| NotMiddleware
| NoProcessRequest (cls : string)
| NotCallable.

Section Methods.
Context {rt : Runtime}.

Record t : Type := mk {
  func : callable;
  middlewares : list callable
}.

Definition init (func : callable) : t := mk func [].

Definition use_middleware (self : t) (middleware : candidate) : result t :=
  match middleware with
  | NotMiddleware =>
      Raise (Py.ValueError "Middleware must be a subclass of Middleware")
  | NoProcessRequest cls =>
      Raise (Py.AttributeError
               ("'" ++ cls ++ "' object has no attribute 'process_request'"))
  | NotCallable => Raise (Py.ValueError "Middleware must be callable")
  | IsMiddleware process_request =>
      Return (mk (func self) (middlewares self ++ [process_request]))
  end.

(** The [for] loop of [execute] from chain position [pos] on, followed
    by the call of the handler function. *)
Fixpoint run (pos : nat) (chain : list callable) (func : callable)
         (req_params : pyval) : M pyval :=
  match chain with
  | [] => invoke CallHandler func req_params
  | middleware :: rest =>
      req_params <- invoke (CallMiddleware pos) middleware req_params ;;
      match req_params with
      | VResponse r => lift (Response.json r)
      | _ => run (S pos) rest func req_params
      end
  end.

Definition execute (self : t) (req_params : pyval) : M pyval :=
  run 0 (middlewares self) (func self) req_params.

End Methods.

End MethodHandler.

(** ** class Route

    Paths and method names are strings, as every caller in the source
    passes them. *)

Module Route.

Section Methods.
Context {rt : Runtime}.

Record t : Type := mk {
  path : string;
  http_methods : list string;
  methods : list (string * MethodHandler.t)
}.

(** [__init__(self, path, http_methods=None)]; [http_methods or ['GET']]
    replaces both [None] and the empty list. *)
Definition init (path : string) (http_methods : option (list string)) : t :=
  mk path
     (match http_methods with
      | Some (m :: ms) => m :: ms
      | _ => ["GET"]
      end)
     [].

Definition route (self : t) (http_method : string) (func : callable) : t :=
  mk (path self) (http_methods self)
     (Py.setitem http_method (MethodHandler.init func) (methods self)).

Definition use_middleware (self : t) (http_method : string)
           (middleware : MethodHandler.candidate) : result t :=
  match Py.lookup http_method (methods self) with
  | None => Raise (Py.ValueError ("No method registered for " ++ http_method))
  | Some handler =>
      let* handler' := MethodHandler.use_middleware handler middleware in
      Return (mk (path self) (http_methods self)
                 (Py.setitem http_method handler' (methods self)))
  end.

Definition method_not_allowed : Response.t :=
  Response.init (VInt 405) (VStr "Method Not Allowed")
                VNone (VBool false) (VBool false).

Definition handle_request (self : t) (method req_params : pyval) : M pyval :=
  found <- lift (Py.find method (methods self)) ;;
  match found with
  | Some handler => MethodHandler.execute handler req_params
  | None => lift (Response.json method_not_allowed)
  end.

End Methods.

End Route.

(** ** class RequestInfo *)

Module RequestInfo.

Record t : Type := mk {
  path : pyval;
  http_method : pyval;
  req_params : pyval;
  identity : pyval
}.

Section Methods.
Context {rt : Runtime}.

Definition _aggregate_params
           (query_string_params body headers is_base64_encoded : pyval)
  : result pyval :=
  let* body :=
    (if Py.truthy body && Py.truthy is_base64_encoded then
       let* file := b64decode body in
       Return (VDict [("base64", VBool true); ("file", VBytes file)])
     else if Py.truthy body then
       (if Py.truthy body then json_loads body else Return (VDict []))
     else Return body) in
  let* q := Py.mapping_items query_string_params in
  let* b := Py.mapping_items body in
  let params := Py.update (Py.update [] q) b in
  Return (VDict (Py.setitem "headers" headers params)).

(** [__init__]; [aggregate] defaults to [True], [identity] to [None]. *)
Definition init (path http_method query_string_params body headers
                 is_base64_encoded : pyval) (aggregate : bool)
           (identity : pyval) : result t :=
  let* req_params :=
    (if aggregate then
       _aggregate_params query_string_params body headers is_base64_encoded
     else
       Return (VDict [("queryStringParameters", query_string_params);
                      ("body", body);
                      ("headers", headers);
                      ("isBase64Encoded", is_base64_encoded)])) in
  Return (mk path http_method req_params identity).

(** [log(self, logger)] emits a log record when the logger is enabled for
    INFO; it computes nothing and does not raise. *)
Definition log (self : t) (logger_INFO : bool) : unit := tt.

Definition route (self : t) : pyval := path self.
Definition method (self : t) : pyval := http_method self.
Definition params (self : t) : pyval := req_params self.

End Methods.

End RequestInfo.

(** ** class utills *)

Module utills.

Section Methods.
Context {rt : Runtime}.

Definition _process_function_url_event (event : pyval)
  : result RequestInfo.t :=
  let* path :=
    (let* rc := Py.getitem event "requestContext" in
     let* http := Py.getitem rc "http" in
     Py.getitem http "path") in
  let* method :=
    (let* rc := Py.getitem event "requestContext" in
     let* http := Py.getitem rc "http" in
     Py.getitem http "method") in
  let* query_params := Py.get event "queryStringParameters" (VDict []) in
  let* body := Py.get event "body" (VDict []) in
  let* isBase64Encoded := Py.get event "isBase64Encoded" (VBool false) in
  let* headers := Py.get event "headers" (VDict []) in
  RequestInfo.init path method query_params body headers isBase64Encoded
                   true VNone.

Definition _process_api_url_event (event : pyval) : result RequestInfo.t :=
  let* path := Py.getitem event "path" in
  let* method := Py.getitem event "httpMethod" in
  let* query_params :=
    (let* probe := Py.get event "queryStringParameters" VNone in
     if Py.truthy probe then Py.get event "queryStringParameters" VNone
     else Return (VDict [])) in
  let* body :=
    (let* probe := Py.get event "body" VNone in
     if Py.truthy probe then Py.get event "body" VNone
     else Return (VDict [])) in
  let* isBase64Encoded := Py.get event "isBase64Encoded" (VBool false) in
  let* headers := Py.get event "headers" (VDict []) in
  let* identity :=
    (let* rc := Py.get event "requestContext" (VDict []) in
     Py.get rc "identity" (VDict [])) in
  RequestInfo.init path method query_params body headers isBase64Encoded
                   true identity.

Definition process_event (event : pyval) (type : string)
  : result RequestInfo.t :=
  if String.eqb type "function_url" then
    _process_function_url_event event
  else if String.eqb type "api_gateway_proxy" then
    _process_api_url_event event
  else Raise (Py.ValueError "Invalid Type").

End Methods.

End utills.

(** ** class LambdaFlask *)

Definition ALLOWED_SOURCES : list string := ["function_url"; "api_gateway_proxy"].

Module LambdaFlask.

Section Methods.
Context {rt : Runtime}.

(** [routes] maps a path to the address of its [Route] object in
    [heap]; callers of [route] hold such addresses, so a change made
    through one of them is seen through the table and through every
    other holder.  [logger_INFO] is [self.logger.isEnabledFor(logging.INFO)]. *)
Record t : Type := mk {
  routes : list (string * nat);
  heap : list Route.t;
  enable_request_logging : bool;
  enable_response_logging : bool;
  source : string;
  isApiGatewayEvent : bool;
  logger_INFO : bool
}.

(** [__init__(self, source='function_url', enable_request_logging=True,
    enable_response_logging=True)] *)
Definition init (source : string)
           (enable_request_logging enable_response_logging logger_INFO : bool)
  : result t :=
  if negb (existsb (String.eqb source) ALLOWED_SOURCES) then
    Raise (Py.ValueError "Source Not Allowed")
  else
    Return (mk [] [] enable_request_logging enable_response_logging source
               (String.eqb source "api_gateway_proxy") logger_INFO).

(** The object at an address.  Every address in [routes], and every
    address [route] returns, is below [length heap] (see [wf]), so the
    default is never what a caller gets. *)
Definition deref (self : t) (l : nat) : Route.t :=
  nth l (heap self) (Route.init "" None).

Fixpoint assign_nth {A} (l : nat) (x : A) (xs : list A) : list A :=
  match xs, l with
  | [], _ => []
  | _ :: rest, O => x :: rest
  | y :: rest, S l' => y :: assign_nth l' x rest
  end.

(** In-place change of the object at address [l]. *)
Definition mutate (self : t) (l : nat) (r : Route.t) : t :=
  mk (routes self) (assign_nth l r (heap self))
     (enable_request_logging self) (enable_response_logging self)
     (source self) (isApiGatewayEvent self) (logger_INFO self).

Definition route (self : t) (path : string)
           (http_methods : option (list string)) : t * nat :=
  match Py.lookup path (routes self) with
  | Some l => (self, l)
  | None =>
      let l := List.length (heap self) in
      (mk (Py.setitem path l (routes self))
          (heap self ++ [Route.init path http_methods])
          (enable_request_logging self) (enable_response_logging self)
          (source self) (isApiGatewayEvent self) (logger_INFO self),
       l)
  end.

Definition not_found (self : t) : Response.t :=
  Response.init (VInt 404) (VStr "Route Not Found")
                VNone (VBool false) (VBool (isApiGatewayEvent self)).

Definition server_error (self : t) (e : exn) : Response.t :=
  Response.init (VInt 500) (VDict [("error", VStr (exn_str e))])
                VNone (VBool false) (VBool (isApiGatewayEvent self)).

(** The body of the [try] statement. *)
Definition try_body (self : t) (event : pyval) : M pyval :=
  req_info <- lift (utills.process_event event (source self)) ;;
  let _ := if enable_request_logging self
           then RequestInfo.log req_info (logger_INFO self) else tt in
  found <- lift (Py.find (RequestInfo.route req_info) (routes self)) ;;
  match found with
  | Some l =>
      Route.handle_request (deref self l)
                           (RequestInfo.method req_info)
                           (RequestInfo.params req_info)
  | None => lift (Response.json (not_found self))
  end.

Definition log_response (self : t) (response : pyval) : result unit :=
  if logger_INFO self then
    let* statusCode := Py.get response "statusCode" (VInt 500) in
    let* body := Py.get response "body" (VStr "No Body Recieved in Response") in
    Return tt
  else Return tt.

(** The [return] statement of [process_request]. *)
Definition final_envelope (self : t) (response : pyval) : result pyval :=
  let* statusCode := Py.get response "statusCode" (VInt 500) in
  let* body := Py.get response "body" (VDict []) in
  let* headers := Py.get response "headers" (VDict []) in
  let* isBase64Encoded := Py.get response "isBase64Encoded" (VBool false) in
  Response.json (Response.init statusCode body headers isBase64Encoded
                               (VBool (isApiGatewayEvent self))).

Definition process_request (self : t) (event : pyval) : M pyval :=
  response <- try_except_Exception
                (try_body self event)
                (fun e => lift (Response.json (server_error self e))) ;;
  _ <- lift (if enable_response_logging self
             then log_response self response else Return tt) ;;
  lift (final_envelope self response).

(** The [for middleware in middlewares] loop of [route_decorator] on the
    route object [r]; on an exception the changes made so far stay. *)
Fixpoint attach_all (r : Route.t) (http_method : string)
         (middlewares : list MethodHandler.candidate)
  : Route.t * result unit :=
  match middlewares with
  | [] => (r, Return tt)
  | middleware :: rest =>
      match Route.use_middleware r http_method middleware with
      | Return r' => attach_all r' http_method rest
      | Raise e => (r, Raise e)
      end
  end.

(** The [for http_method in http_methods] loop of [route_decorator]. *)
Fixpoint bind_all (r : Route.t) (http_methods : list string)
         (middlewares : list MethodHandler.candidate) (func : callable)
  : Route.t * result unit :=
  match http_methods with
  | [] => (r, Return tt)
  | http_method :: rest =>
      match attach_all (Route.route r http_method func)
                       http_method middlewares with
      | (r', Return _) => bind_all r' rest middlewares func
      | (r', Raise e) => (r', Raise e)
      end
  end.

(** [route_decorator(path, http_methods, middlewares)(func)]: the route
    object is changed in place, through the address [route] returned. *)
Definition route_decorator (path : string)
           (http_methods : option (list string))
           (middlewares : list MethodHandler.candidate)
           (func : callable) (self : t) : t * result unit :=
  let (self, l) := route self path http_methods in
  match http_methods with
  | None => (self, Raise (Py.TypeError "'NoneType' object is not iterable"))
  | Some ms =>
      let (r, outcome) := bind_all (deref self l) ms middlewares func in
      (mutate self l r, outcome)
  end.

(** Every address in the route table points into the heap. *)
Definition wf (self : t) : Prop :=
  forall p l, Py.lookup p (routes self) = Some l -> l < List.length (heap self).

End Methods.

End LambdaFlask.

(** ** A reference runtime

    Executable versions of the three library functions on the value model
    above, used to run the pipeline on concrete events.  Characters are code
    points below 256; JSON numbers with a fraction or an exponent denote
    floats, which the value model does not have, and are rejected. *)

Module Ref.

Definition JSONDecodeError (msg : string) : exn := MkExn "JSONDecodeError" msg true.
Definition binascii_Error (msg : string) : exn := MkExn "binascii.Error" msg true.

Definition string_of_Z (z : Z) : string := NilZero.string_of_int (Z.to_int z).

Definition dquote : ascii := ascii_of_N 34.
Definition backslash : ascii := ascii_of_N 92.

Definition hex_digit (n : N) : ascii :=
  match String.get (N.to_nat n) "0123456789abcdef" with
  | Some c => c
  | None => "0"%char
  end.

(** [json.encoder.py_encode_basestring_ascii] on one character *)
Definition escape_char (c : ascii) : string :=
  let n := N_of_ascii c in
  if Ascii.eqb c dquote then String backslash (String dquote EmptyString)
  else if Ascii.eqb c backslash then String backslash (String backslash EmptyString)
  else if N.eqb n 10 then "\n"
  else if N.eqb n 13 then "\r"
  else if N.eqb n 9 then "\t"
  else if N.eqb n 8 then "\b"
  else if N.eqb n 12 then "\f"
  else if (N.leb 32 n && N.leb n 126)%bool then String c EmptyString
  else String backslash (String "u"%char (String "0"%char (String "0"%char
         (String (hex_digit (N.div n 16))
            (String (hex_digit (N.modulo n 16)) EmptyString))))).

Fixpoint escape (s : string) : string :=
  match s with
  | EmptyString => EmptyString
  | String c rest => escape_char c ++ escape rest
  end.

Definition quote (s : string) : string :=
  String dquote (escape s ++ String dquote EmptyString).

Fixpoint join (sep : string) (parts : list string) : string :=
  match parts with
  | [] => ""
  | [p] => p
  | p :: rest => p ++ sep ++ join sep rest
  end.

Definition not_serializable (v : pyval) : exn :=
  Py.TypeError ("Object of type " ++ Py.type_name v ++ " is not JSON serializable").

(** [json.dumps] with its default separators *)
Fixpoint json_dumps (v : pyval) : result string :=
  match v with
  | VNone => Return "null"
  | VBool true => Return "true"
  | VBool false => Return "false"
  | VInt z => Return (string_of_Z z)
  | VStr s => Return (quote s)
  | VList l =>
      let* parts :=
        (fix each (l : list pyval) : result (list string) :=
           match l with
           | [] => Return []
           | x :: rest =>
               let* p := json_dumps x in
               let* ps := each rest in
               Return (p :: ps)
           end) l in
      Return ("[" ++ join ", " parts ++ "]")
  | VDict d =>
      let* parts :=
        (fix each (d : list (string * pyval)) : result (list string) :=
           match d with
           | [] => Return []
           | (k, x) :: rest =>
               let* p := json_dumps x in
               let* ps := each rest in
               Return ((quote k ++ ": " ++ p) :: ps)
           end) d in
      Return ("{" ++ join ", " parts ++ "}")
  | VBytes _ | VResponse _ => Raise (not_serializable v)
  end.

(** *** [json.loads] *)

Definition is_ws (c : ascii) : bool :=
  let n := N_of_ascii c in
  (N.eqb n 32 || N.eqb n 9 || N.eqb n 10 || N.eqb n 13)%bool.

Definition digit_of (c : ascii) : option Z :=
  let n := N_of_ascii c in
  if (N.leb 48 n && N.leb n 57)%bool then Some (Z.of_N n - 48)%Z else None.

Definition hex_of (c : ascii) : option N :=
  let n := N_of_ascii c in
  if (N.leb 48 n && N.leb n 57)%bool then Some (n - 48)%N
  else if (N.leb 97 n && N.leb n 102)%bool then Some (n - 87)%N
  else if (N.leb 65 n && N.leb n 70)%bool then Some (n - 55)%N
  else None.

Fixpoint skip_ws (s : string) : string :=
  match s with
  | String c rest => if is_ws c then skip_ws rest else s
  | EmptyString => s
  end.

Fixpoint scan_digits (acc : Z) (s : string) : Z * string :=
  match s with
  | String c rest =>
      match digit_of c with
      | Some d => scan_digits (10 * acc + d)%Z rest
      | None => (acc, s)
      end
  | EmptyString => (acc, s)
  end.

(** A JSON integer: [0], or a non-zero digit followed by digits; a
    following [.], [e] or [E] would make it a float. *)
Definition scan_int (s : string) : option (Z * string) :=
  match s with
  | String c rest =>
      match digit_of c with
      | Some d =>
          let '(n, rest') := if Z.eqb d 0 then (0%Z, rest) else scan_digits d rest in
          match rest' with
          | String c' _ =>
              if (Ascii.eqb c' "."%char || Ascii.eqb c' "e"%char
                  || Ascii.eqb c' "E"%char)%bool then None
              else Some (n, rest')
          | EmptyString => Some (n, rest')
          end
      | None => None
      end
  | EmptyString => None
  end.

(** The characters of a string literal after its opening quote. *)
Fixpoint scan_string (s : string) : option (string * string) :=
  match s with
  | EmptyString => None
  | String c rest =>
      if Ascii.eqb c dquote then Some (EmptyString, rest)
      else if Ascii.eqb c backslash then
        match rest with
        | String e rest' =>
            let plain (c : ascii) :=
              match scan_string rest' with
              | Some (str, tail) => Some (String c str, tail)
              | None => None
              end in
            if Ascii.eqb e dquote then plain dquote
            else if Ascii.eqb e backslash then plain backslash
            else if Ascii.eqb e "/"%char then plain "/"%char
            else if Ascii.eqb e "b"%char then plain (ascii_of_N 8)
            else if Ascii.eqb e "f"%char then plain (ascii_of_N 12)
            else if Ascii.eqb e "n"%char then plain (ascii_of_N 10)
            else if Ascii.eqb e "r"%char then plain (ascii_of_N 13)
            else if Ascii.eqb e "t"%char then plain (ascii_of_N 9)
            else if Ascii.eqb e "u"%char then
              match rest' with
              | String h1 (String h2 (String h3 (String h4 rest''))) =>
                  match hex_of h1, hex_of h2, hex_of h3, hex_of h4 with
                  | Some a, Some b, Some c, Some d =>
                      let n := (((a * 16 + b) * 16 + c) * 16 + d)%N in
                      if N.ltb n 256 then
                        match scan_string rest'' with
                        | Some (str, tail) => Some (String (ascii_of_N n) str, tail)
                        | None => None
                        end
                      else None
                  | _, _, _, _ => None
                  end
              | _ => None
              end
            else None
        | EmptyString => None
        end
      else if N.ltb (N_of_ascii c) 32 then None
      else
        match scan_string rest with
        | Some (str, tail) => Some (String c str, tail)
        | None => None
        end
  end.

Definition expect (prefix : string) (v : pyval) (s : string)
  : option (pyval * string) :=
  if String.prefix prefix s
  then Some (v, substring (String.length prefix)
                          (String.length s - String.length prefix) s)
  else None.

Fixpoint scan_value (fuel : nat) (s : string) : option (pyval * string) :=
  match fuel with
  | O => None
  | S fuel =>
      match skip_ws s with
      | EmptyString => None
      | String c rest as s' =>
          if Ascii.eqb c "{"%char then
            match skip_ws rest with
            | String "}"%char tail => Some (VDict [], tail)
            | _ =>
                match scan_members fuel rest [] with
                | Some (d, tail) => Some (VDict d, tail)
                | None => None
                end
            end
          else if Ascii.eqb c "["%char then
            match skip_ws rest with
            | String "]"%char tail => Some (VList [], tail)
            | _ =>
                match scan_elements fuel rest [] with
                | Some (l, tail) => Some (VList l, tail)
                | None => None
                end
            end
          else if Ascii.eqb c dquote then
            match scan_string rest with
            | Some (str, tail) => Some (VStr str, tail)
            | None => None
            end
          else if Ascii.eqb c "-"%char then
            match scan_int rest with
            | Some (n, tail) => Some (VInt (- n), tail)
            | None => None
            end
          else if Ascii.eqb c "t"%char then expect "true" (VBool true) s'
          else if Ascii.eqb c "f"%char then expect "false" (VBool false) s'
          else if Ascii.eqb c "n"%char then expect "null" VNone s'
          else
            match scan_int s' with
            | Some (n, tail) => Some (VInt n, tail)
            | None => None
            end
      end
  end
with scan_elements (fuel : nat) (s : string) (acc : list pyval)
     : option (list pyval * string) :=
  match fuel with
  | O => None
  | S fuel =>
      match scan_value fuel s with
      | Some (v, tail) =>
          match skip_ws tail with
          | String ","%char tail' => scan_elements fuel tail' (acc ++ [v])%list
          | String "]"%char tail' => Some ((acc ++ [v])%list, tail')
          | _ => None
          end
      | None => None
      end
  end
with scan_members (fuel : nat) (s : string) (acc : list (string * pyval))
     : option (list (string * pyval) * string) :=
  match fuel with
  | O => None
  | S fuel =>
      match skip_ws s with
      | String c rest =>
          if Ascii.eqb c dquote then
            match scan_string rest with
            | Some (k, tail) =>
                match skip_ws tail with
                | String ":"%char tail' =>
                    match scan_value fuel tail' with
                    | Some (v, tail'') =>
                        match skip_ws tail'' with
                        | String ","%char t =>
                            scan_members fuel t (Py.setitem k v acc)
                        | String "}"%char t => Some (Py.setitem k v acc, t)
                        | _ => None
                        end
                    | None => None
                    end
                | _ => None
                end
            | None => None
            end
          else None
      | EmptyString => None
      end
  end.

Definition json_loads (v : pyval) : result pyval :=
  let parse (s : string) :=
    match scan_value (2 * String.length s + 2) s with
    | Some (x, tail) =>
        match skip_ws tail with
        | EmptyString => Return x
        | _ => Raise (JSONDecodeError "Extra data")
        end
    | None => Raise (JSONDecodeError "Expecting value")
    end in
  match v with
  | VStr s => parse s
  | VBytes bs => parse (string_of_list_byte bs)
  | _ => Raise (Py.TypeError
                  ("the JSON object must be str, bytes or bytearray, not "
                     ++ Py.type_name v))
  end.

(** *** [base64.b64decode] (non-strict mode of [binascii.a2b_base64]) *)

Definition b64_value (c : ascii) : option N :=
  let n := N_of_ascii c in
  if (N.leb 65 n && N.leb n 90)%bool then Some (n - 65)%N
  else if (N.leb 97 n && N.leb n 122)%bool then Some (n - 71)%N
  else if (N.leb 48 n && N.leb n 57)%bool then Some (n + 4)%N
  else if N.eqb n 43 then Some 62%N
  else if N.eqb n 47 then Some 63%N
  else None.

Definition byte_of_N (n : N) : byte :=
  match Byte.of_N (N.modulo n 256) with
  | Some b => b
  | None => x00
  end.

(** The decoding loop: [quad_pos] is the position in the current group of
    four, [leftchar] the bits not yet written, [pads] the padding
    characters just seen, [out] the bytes written so far. *)
Fixpoint a2b_loop (s : string) (quad_pos : nat) (leftchar : N) (pads : nat)
         (out : list byte) : result (list byte) :=
  match s with
  | EmptyString =>
      match quad_pos with
      | 0 => Return out
      | 1 =>
          Raise (binascii_Error
                   ("Invalid base64-encoded string: number of data characters ("
                      ++ string_of_Z (Z.of_nat (List.length out / 3 * 4 + 1))
                      ++ ") cannot be 1 more than a multiple of 4"))
      | _ => Raise (binascii_Error "Incorrect padding")
      end
  | String c rest =>
      if Ascii.eqb c "="%char then
        if (Nat.leb 2 quad_pos && Nat.leb 4 (quad_pos + S pads))%bool
        then Return out
        else a2b_loop rest quad_pos leftchar
                      (if Nat.leb 2 quad_pos then S pads else pads) out
      else
        match b64_value c with
        | None => a2b_loop rest quad_pos leftchar pads out
        | Some v =>
            match quad_pos with
            | 0 => a2b_loop rest 1 v 0 out
            | 1 => a2b_loop rest 2 (N.land v 15) 0
                     (out ++ [byte_of_N (N.lor (N.shiftl leftchar 2) (N.shiftr v 4))])%list
            | 2 => a2b_loop rest 3 (N.land v 3) 0
                     (out ++ [byte_of_N (N.lor (N.shiftl leftchar 4) (N.shiftr v 2))])%list
            | _ => a2b_loop rest 0 0 0
                     (out ++ [byte_of_N (N.lor (N.shiftl leftchar 6) v)])%list
            end
        end
  end.

Definition b64decode (v : pyval) : result (list byte) :=
  match v with
  | VStr s =>
      if forallb (fun c => N.ltb (N_of_ascii c) 128) (list_ascii_of_string s)
      then a2b_loop s 0 0 0 []
      else Raise (Py.ValueError
                    "string argument should contain only ASCII characters")
  | VBytes bs => a2b_loop (string_of_list_byte bs) 0 0 0 []
  | _ => Raise (Py.TypeError
                  ("argument should be a bytes-like object or ASCII string, not '"
                     ++ Py.type_name v ++ "'"))
  end.

(** The reference runtime: the world is a counter that user code may
    advance. *)
Definition runtime : Runtime := Build_Runtime nat json_dumps json_loads b64decode.

End Ref.

(** ** Vocabulary of the properties *)

Section Vocabulary.
Context {rt : Runtime}.

(** The middlewares of [chain], run in order from the params [p] in the
    world [w], all return normally and none returns a [Response]: the
    values they return, in order, and the world they leave. *)
Fixpoint thread (chain : list callable) (p : pyval) (w : World)
  : option (list pyval * World) :=
  match chain with
  | [] => Some ([], w)
  | middleware :: rest =>
      match middleware p w with
      | (w1, Return p1) =>
          if Py.is_Response p1 then None
          else match thread rest p1 w1 with
               | Some (ps, w') => Some (p1 :: ps, w')
               | None => None
               end
      | (_, Raise _) => None
      end
  end.

(** One call per argument of [inputs], to the middlewares at positions
    [pos], [pos + 1], ... *)
Fixpoint calls_from (pos : nat) (inputs : list pyval) : list call :=
  match inputs with
  | [] => []
  | p :: rest => CallMiddleware pos p :: calls_from (S pos) rest
  end.

(** The calls are to the middlewares at positions [pos], [pos + 1], ...,
    each once and in this order, followed by at most one call of the
    handler, after which nothing is called. *)
Fixpoint single_pass (pos : nat) (calls : list call) : bool :=
  match calls with
  | [] => true
  | CallMiddleware j _ :: rest => Nat.eqb j pos && single_pass (S pos) rest
  | CallHandler _ :: rest => match rest with [] => true | _ => false end
  end.

(** The body of the envelope for a response body [body]: under
    gateway-proxy a body that is not a string is serialised. *)
Definition emitted_body (gateway : bool) (body : pyval) : result pyval :=
  if gateway then
    if Py.is_str body then Return body
    else let* s := json_dumps body in Return (VStr s)
  else Return body.

(** What the [try] statement hands on can be encoded: a mapping, or an
    exception that [except Exception] catches. *)
Definition encodable (outcome : result pyval) : bool :=
  match outcome with
  | Return v => Py.is_dict v
  | Raise e => exn_is_Exception e
  end.

(** The status code the last statement of [process_request] encodes. *)
Definition pending_status (outcome : result pyval) : pyval :=
  match outcome with
  | Return (VDict d) => Py.get_or d "statusCode" (VInt 500)
  | _ => VInt 500
  end.

(** The response body the last statement of [process_request] encodes. *)
Definition pending_body (outcome : result pyval) : pyval :=
  match outcome with
  | Return (VDict d) => Py.get_or d "body" (VDict [])
  | Return _ => VNone
  | Raise e => VDict [("error", VStr (exn_str e))]
  end.

(** The handler function a route has bound under a method string, if any. *)
Definition bound (r : Route.t) (k : string) : option callable :=
  option_map MethodHandler.func (Py.lookup k (Route.methods r)).

(** Every handler function bound in the configuration returns a mapping
    whenever it returns. *)
Definition handlers_return_mappings (app : LambdaFlask.t) : Prop :=
  forall l m handler p w w' v,
    Py.lookup m (Route.methods (LambdaFlask.deref app l)) = Some handler ->
    MethodHandler.func handler p w = (w', Return v) ->
    Py.is_dict v = true.

(** A result that, if it is an exception, is one that [except Exception]
    catches. *)
Definition catchable {A} (r : result A) : Prop :=
forall e, r = Raise e -> exn_is_Exception e = true.

(** The library functions raise only exceptions deriving from [Exception]
    (as [json] and [base64] do: [TypeError], [ValueError] and subclasses). *)
Definition runtime_catchable : Prop :=
(forall v, catchable (json_dumps v))
/\ (forall v, catchable (json_loads v))
/\ (forall v, catchable (b64decode v)).

Definition callable_catchable (f : callable) : Prop :=
forall p w, catchable (snd (f p w)).

(** Every handler function and middleware bound in the configuration
    raises only exceptions deriving from [Exception]. *)
Definition user_code_catchable (app : LambdaFlask.t) : Prop :=
forall l m handler,
  Py.lookup m (Route.methods (LambdaFlask.deref app l)) = Some handler ->
  callable_catchable (MethodHandler.func handler)
  /\ Forall callable_catchable (MethodHandler.middlewares handler).

End Vocabulary.

(** ** An example configuration

    Handlers and middleware over the reference runtime; each call advances
    the world by one. *)

Module Example.

#[local] Existing Instance Ref.runtime.

Definition function_url_event (path method : string) (extra : dict) : pyval :=
  VDict (("requestContext",
          VDict [("http", VDict [("path", VStr path); ("method", VStr method)])])
           :: extra).

Definition gateway_event (path method : string) (extra : dict) : pyval :=
  VDict (("path", VStr path) :: ("httpMethod", VStr method) :: extra).

(** Handlers *)
Definition echo : callable :=
  fun p w => (S w, Return (VDict [("statusCode", VInt 200); ("body", p)])).
Definition greet : callable :=
  fun p w => (S w, Return (VStr "hi")).
Definition bare : callable :=
  fun p w => (S w, Return (VDict [("data", VInt 1)])).
Definition status_only : callable :=
  fun p w => (S w, Return (VDict [("statusCode", VInt 200)])).
Definition binary : callable :=
  fun p w => (S w, Return (VDict [("statusCode", VInt 200);
                                  ("body", VBytes [x68; x69])])).
Definition boom : callable :=
  fun p w => (S w, Raise (MkExn "ValueError" "boom" true)).
Definition quit : callable :=
  fun p w => (S w, Raise (MkExn "SystemExit" "1" false)).

(** Middleware *)
Definition tag : callable :=
  fun p w =>
    (S w, Return (match p with
                  | VDict d => VDict (Py.setitem "user" (VStr "ann") d)
                  | _ => p
                  end)).
Definition unauthorized : Response.t :=
  Response.init (VInt 401) (VDict [("error", VStr "unauthorized")])
                VNone (VBool false) (VBool false).
Definition deny : callable :=
  fun p w => (S w, Return (VResponse unauthorized)).
Definition blob : Response.t :=
  Response.init (VInt 403) (VBytes [x68; x69]) VNone (VBool false) (VBool false).
Definition deny_blob : callable :=
  fun p w => (S w, Return (VResponse blob)).

Definition register (path : string) (http_methods : list string)
           (middlewares : list callable) (func : callable)
           (app : result LambdaFlask.t) : result LambdaFlask.t :=
  let* app := app in
  let (app, outcome) :=
    LambdaFlask.route_decorator path (Some http_methods)
      (map MethodHandler.IsMiddleware middlewares) func app in
  let* _ := outcome in
  Return app.

Definition configure (source : string) : result LambdaFlask.t :=
  register "/blob" ["GET"] [deny_blob] echo
  (register "/binary" ["GET"] [] binary
  (register "/quit" ["GET"] [] quit
    (register "/boom" ["GET"] [tag] boom
       (register "/status" ["GET"] [] status_only
          (register "/bare" ["GET"] [] bare
             (register "/hi" ["GET"] [] greet
                (register "/admin" ["GET"; "POST"] [tag; deny; tag] echo
                   (register "/hello" ["GET"] [tag] echo
                      (LambdaFlask.init source true true true))))))))).

(** A request body: the JSON text of an object with the fields [b] = 2
    and [c] = true. *)
Definition body_text : string :=
  "{" ++ Ref.quote "b" ++ ": 2, " ++ Ref.quote "c" ++ ": true}".

(** The JSON text of the object with the one field [error]. *)
Definition error_text (message : string) : string :=
  "{" ++ Ref.quote "error" ++ ": " ++ Ref.quote message ++ "}".

(** A route that lists GET and DELETE and has a handler bound under PATCH
    only. *)
Definition draft : Route.t :=
  Route.route (Route.init "/draft" (Some ["GET"; "DELETE"])) "PATCH" echo.

Definition unconfigured : LambdaFlask.t :=
  LambdaFlask.mk [] [] true true "function_url" false true.

Definition direct : LambdaFlask.t :=
  match configure "function_url" with
  | Return app => app
  | Raise _ => unconfigured
  end.

Definition gateway : LambdaFlask.t :=
  match configure "api_gateway_proxy" with
  | Return app => app
  | Raise _ => unconfigured
  end.

Definition start : machine := MkMachine (0 : nat) [].

(** The machine after user code has advanced the world to [w], having made
    [calls]. *)
Definition after (w : nat) (calls : list call) : machine := MkMachine w calls.

(** The params of a request without query string and body, and what [tag]
    makes of them. *)
Definition headers_only : pyval := VDict [("headers", VDict [])].
Definition tagged : pyval :=
  VDict [("headers", VDict []); ("user", VStr "ann")].

(** A direct-invocation event with a query string, headers and a body. *)
Definition query : dict := [("a", VStr "1"); ("b", VStr "q")].
Definition host : pyval := VDict [("host", VStr "example.org")].
Definition merge_event : dict :=
  [("requestContext",
    VDict [("http", VDict [("path", VStr "/hello"); ("method", VStr "GET")])]);
   ("queryStringParameters", VDict query);
   ("headers", host);
   ("body", VStr body_text)].

(** Two registrations of one path on a fresh configuration. *)
Definition registered_once : LambdaFlask.t :=
  fst (LambdaFlask.route_decorator "/item" (Some ["GET"])
         [MethodHandler.IsMiddleware tag] echo unconfigured).

Definition registered_twice : LambdaFlask.t :=
  fst (LambdaFlask.route_decorator "/item" (Some ["POST"; "PUT"])
         [] bare registered_once).

(** A [Response] that is itself tagged gateway-proxy and carries a [bytes]
    body, a middleware that returns it, and a direct-invocation
    configuration with the one route [/vault] behind that middleware. *)
Definition tagged_blob : Response.t :=
  Response.init (VInt 403) (VBytes [x68; x69]) VNone (VBool false) (VBool true).
Definition deny_tagged_blob : callable :=
  fun p w => (S w, Return (VResponse tagged_blob)).
Definition vault : LambdaFlask.t :=
  fst (LambdaFlask.route_decorator "/vault" (Some ["GET"])
         [MethodHandler.IsMiddleware deny_tagged_blob] echo unconfigured).
Definition not_serializable : string :=
  "Object of type bytes is not JSON serializable".

End Example.

(** ** class swagger_generator

    The generator reads three attributes off Python objects: [__doc__] and
    [__annotations__] of a handler function, and [__name__] of an
    annotation.  What a handler function carries is given by [reflection];
    an annotation is a class, a dictionary of annotations, or some other
    object.  [print] writes to standard output and computes nothing. *)

Module swagger_generator.

(** [AClass name] is a class called [name] that has no attribute [items]
    ([int], [str], [bool], [list], a user class); [AObject cls] is an
    instance of [cls] that has neither [__name__] nor [items] (the string of
    a postponed annotation, for one). *)
#[warnings="-register-all"]
Inductive annotation : Type :=
| AClass (name : string)
| ADict (items : list (string * annotation))
| AObject (cls : string).

(** [str.lower] on code points below 256: the letters A to Z, and the
    capital letters of Latin-1 (192 to 222, the multiplication sign 215
    apart), move up by 32. *)
Definition lower_char (c : ascii) : ascii :=
  let n := N_of_ascii c in
  if ((N.leb 65 n && N.leb n 90)
      || (N.leb 192 n && N.leb n 222 && negb (N.eqb n 215)))%bool
  then ascii_of_N (n + 32)
  else c.

Fixpoint lower (s : string) : string :=
  match s with
  | EmptyString => EmptyString
  | String c rest => String (lower_char c) (lower rest)
  end.

(** One entry of the [parameters] list. *)
Definition parameter (param_name type_name : string) : pyval :=
  VDict [("name", VStr param_name);
         ("in", VStr "query");
         ("required", VBool true);
         ("description", VStr "");
         ("type", VStr type_name)].

(** [build_swagger_parameters(self, params_dict)]; [params_dict.items()]
    raises unless [params_dict] is a dictionary. *)
Fixpoint build_swagger_parameters (params_dict : annotation) : result (list pyval) :=
  match params_dict with
  | ADict items =>
      (fix loop (items : list (string * annotation)) : result (list pyval) :=
         match items with
         | [] => Return []
         | (param_name, param_type) :: rest =>
             let* here :=
               match param_type with
               | ADict _ => build_swagger_parameters param_type
               | AClass name => Return [parameter param_name name]
               | AObject cls =>
                   Raise (Py.AttributeError
                            ("'" ++ cls ++ "' object has no attribute '__name__'"))
               end in
             let* there := loop rest in
             Return (here ++ there)%list
         end) items
  | AClass name =>
      Raise (Py.AttributeError
               ("type object '" ++ name ++ "' has no attribute 'items'"))
  | AObject cls =>
      Raise (Py.AttributeError ("'" ++ cls ++ "' object has no attribute 'items'"))
  end.

Section Methods.
Context {rt : Runtime}.

(** [func.__doc__] and [func.__annotations__] (a dictionary, in the order
    of the signature, [return] last). *)
Record reflection : Type := MkReflection {
  doc_of : callable -> pyval;
  annotations_of : callable -> list (string * annotation)
}.

(** [paths] is [self.swagger['paths']], the one dictionary both attributes
    name; [self.app] is a reference, so each method below takes the
    application as it is when the method is called. *)
Record t : Type := mk {
  title : pyval;
  version : pyval;
  description : pyval;
  paths : list (string * dict)
}.

Definition init (title version description : pyval) : t :=
  mk title version description [].

(** [self.swagger] *)
Definition swagger (self : t) : pyval :=
  VDict [("swagger", VStr "2.0");
         ("info", VDict [("title", title self);
                         ("version", version self);
                         ("description", description self)]);
         ("schemes", VList [VStr "https"]);
         ("paths", VDict (map (fun entry => (fst entry, VDict (snd entry)))
                              (paths self)));
         ("definitions", VDict [])].

(** The loop over [handler.func.__annotations__]: whether
    [schema['responses']['200']['schema']] has been set, and
    [schema['parameters']]. *)
Fixpoint scan_annotations (annotations : list (string * annotation))
         (has_ref : bool) (parameters : list pyval)
  : result (bool * list pyval) :=
  match annotations with
  | [] => Return (has_ref, parameters)
  | (param, value) :: rest =>
      if String.eqb param "return" then scan_annotations rest true parameters
      else if String.eqb param "req_params" then
        let* parameters := build_swagger_parameters value in
        scan_annotations rest has_ref parameters
      else scan_annotations rest has_ref parameters
  end.

Definition generate_method_schema (reflect : reflection) (method path : string)
           (handler : MethodHandler.t) : result pyval :=
  let* found :=
    scan_annotations (annotations_of reflect (MethodHandler.func handler))
                     false [] in
  Return
    (VDict
       [("tags", VList [VStr path]);
        ("summary", doc_of reflect (MethodHandler.func handler));
        ("consumes", VList [VStr "application/json"]);
        ("produces", VList [VStr "application/json"]);
        ("parameters", VList (snd found));
        ("responses",
         VDict [("200",
                 VDict (("description", VStr "Successful Operation")
                          :: (if fst found
                              then [("schema",
                                     VDict [("$ref", VStr "#/definitions/return")])]
                              else [])))])]).

(** The [for method in route.methods] loop of [add_route] on the entry
    [self.paths[path]]; on an exception what was entered so far stays. *)
Fixpoint document_methods (reflect : reflection) (path : string)
         (methods : list (string * MethodHandler.t)) (entry : dict)
  : dict * result unit :=
  match methods with
  | [] => (entry, Return tt)
  | (method, handler) :: rest =>
      match generate_method_schema reflect method path handler with
      | Return schema =>
          document_methods reflect path rest
                           (Py.setitem (lower method) schema entry)
      | Raise e => (entry, Raise e)
      end
  end.

Definition add_route (reflect : reflection) (self : t) (app : LambdaFlask.t)
           (path : string) : t * result unit :=
  match Py.lookup path (LambdaFlask.routes app), Py.lookup path (paths self) with
  | Some l, None =>
      let (entry, outcome) :=
        document_methods reflect path
                         (Route.methods (LambdaFlask.deref app l)) [] in
      (mk (title self) (version self) (description self)
          (Py.setitem path entry (paths self)),
       outcome)
  | _, _ => (self, Return tt)
  end.

(** The [for path in self.app.routes] loop of [generate]. *)
Fixpoint add_routes (reflect : reflection) (self : t) (app : LambdaFlask.t)
         (route_paths : list string) : t * result unit :=
  match route_paths with
  | [] => (self, Return tt)
  | path :: rest =>
      match add_route reflect self app path with
      | (self', Return _) => add_routes reflect self' app rest
      | (self', Raise e) => (self', Raise e)
      end
  end.

Definition generate (reflect : reflection) (self : t) (app : LambdaFlask.t)
  : t * result pyval :=
  let (self', outcome) :=
    add_routes reflect self app (Py.keys (LambdaFlask.routes app)) in
  (self', let* _ := outcome in Return (swagger self')).

End Methods.

End swagger_generator.

(** ** Vocabulary of the further properties *)

Section FurtherVocabulary.
Context {rt : Runtime}.

(** The same application with other logging settings. *)
Definition with_logging (app : LambdaFlask.t)
           (enable_request_logging enable_response_logging logger_INFO : bool)
  : LambdaFlask.t :=
  LambdaFlask.mk (LambdaFlask.routes app) (LambdaFlask.heap app)
                 enable_request_logging enable_response_logging
                 (LambdaFlask.source app) (LambdaFlask.isApiGatewayEvent app)
                 logger_INFO.

(** What [__init__] leaves: an allowed source, and the gateway flag set
    exactly for [api_gateway_proxy]. *)
Definition source_ok (app : LambdaFlask.t) : Prop :=
  In (LambdaFlask.source app) ALLOWED_SOURCES
  /\ LambdaFlask.isApiGatewayEvent app
     = String.eqb (LambdaFlask.source app) "api_gateway_proxy".

(** The route table is consistent: every address it holds is allocated,
    and the Route stored for a path carries that path. *)
Definition consistent (app : LambdaFlask.t) : Prop :=
  forall p l,
    Py.lookup p (LambdaFlask.routes app) = Some l ->
    l < List.length (LambdaFlask.heap app)
    /\ Route.path (LambdaFlask.deref app l) = p.

(** The error of [{**v}] for a value that is not a mapping. *)
Definition not_a_mapping (v : pyval) : exn :=
  Py.TypeError ("'" ++ Py.type_name v ++ "' object is not a mapping").

(** The body of a 500 response. *)
Definition error_body (message : string) : pyval :=
  VDict [("error", VStr message)].

(** The configurations a program can reach: [__init__], then any number of
    calls of [route] and [route_decorator] (whether they return or raise),
    and of [Route.route] and [Route.use_middleware] on a Route obtained from
    [route]. *)
Inductive built : LambdaFlask.t -> Prop :=
| built_init source request_logging response_logging logger_INFO app :
    LambdaFlask.init source request_logging response_logging logger_INFO
    = Return app ->
    built app
| built_route app path http_methods :
    built app ->
    built (fst (LambdaFlask.route app path http_methods))
| built_decorator app path http_methods middlewares func :
    built app ->
    built (fst (LambdaFlask.route_decorator path http_methods middlewares func app))
| built_bind app path l http_method func :
    built app ->
    Py.lookup path (LambdaFlask.routes app) = Some l ->
    built (LambdaFlask.mutate app l
             (Route.route (LambdaFlask.deref app l) http_method func))
| built_attach app path l http_method middleware r :
    built app ->
    Py.lookup path (LambdaFlask.routes app) = Some l ->
    Route.use_middleware (LambdaFlask.deref app l) http_method middleware
    = Return r ->
    built (LambdaFlask.mutate app l r).

End FurtherVocabulary.

(** ** Further examples *)

Module Scenario.

#[local] Existing Instance Ref.runtime.

(** The base64 text of the two bytes [hi]. *)
Definition encoded_hi : pyval := VStr "aGk=".
Definition hi : list byte := [x68; x69].

(** A gateway-proxy event whose query string and body are null. *)
Definition null_event : dict :=
  [("path", VStr "/hello"); ("httpMethod", VStr "GET");
   ("queryStringParameters", VNone); ("body", VNone)].

(** What the merge event of the examples normalises to. *)
Definition merged : RequestInfo.t :=
  RequestInfo.mk (VStr "/hello") (VStr "GET")
    (VDict [("a", VStr "1"); ("b", VInt 2); ("c", VBool true);
            ("headers", Example.host)])
    VNone.

(** A direct-invocation event whose path is a list, and what it normalises
    to. *)
Definition list_path_event : pyval :=
  VDict [("requestContext",
          VDict [("http", VDict [("path", VList []); ("method", VStr "GET")])])].
Definition list_path : RequestInfo.t :=
  RequestInfo.mk (VList []) (VStr "GET") Example.headers_only VNone.

(** Two handlers: one behind two tagging middlewares, one with a raising
    function between them. *)
Definition two_tags : MethodHandler.t :=
  MethodHandler.mk Example.echo [Example.tag; Example.tag].
Definition failing_chain : MethodHandler.t :=
  MethodHandler.mk Example.echo [Example.tag; Example.boom; Example.tag].
Definition boom_error : exn := MkExn "ValueError" "boom" true.

(** Two response mappings with the same status code and body. *)
Definition rich : dict :=
  [("statusCode", VInt 200); ("body", VStr "ok"); ("headers", Example.host);
   ("isBase64Encoded", VBool false)].
Definition lean : dict := [("body", VStr "ok"); ("statusCode", VInt 200)].

(** A response whose body is a mapping, and the JSON texts of that body and
    of the tagged params. *)
Definition object_response : pyval :=
  VDict [("statusCode", VInt 200); ("body", VDict [("a", VInt 1)])].
Definition object_text : string := "{" ++ Ref.quote "a" ++ ": 1}".
Definition tagged_text : string :=
  "{" ++ Ref.quote "headers" ++ ": {}, " ++ Ref.quote "user" ++ ": "
      ++ Ref.quote "ann" ++ "}".

(** What [use_middleware] raises for a class that does not derive from
    [Middleware]. *)
Definition not_a_subclass : exn :=
  Py.ValueError "Middleware must be a subclass of Middleware".

(** Handler functions as the generator sees them: [plain] gives each a
    docstring, a [req_params] annotation with a nested group, and a return
    annotation; [broken] annotates [req_params] with the class [int]. *)
Definition plain : swagger_generator.reflection :=
  swagger_generator.MkReflection
    (fun _ => VStr "Echo the params.")
    (fun _ =>
       [("req_params",
         swagger_generator.ADict
           [("name", swagger_generator.AClass "str");
            ("page", swagger_generator.ADict
                       [("size", swagger_generator.AClass "int")])]);
        ("return", swagger_generator.AClass "dict")]).
Definition broken : swagger_generator.reflection :=
  swagger_generator.MkReflection
    (fun _ => VNone)
    (fun _ => [("req_params", swagger_generator.AClass "int")]).
Definition no_items : exn :=
  Py.AttributeError "type object 'int' has no attribute 'items'".

Definition generator : swagger_generator.t :=
  swagger_generator.init (VStr "Items") (VStr "1.0") (VStr "").

(** The generator after [generate] on the application with one, and with
    two registrations of [/item]; and after an [add_route] that raised. *)
Definition documented_once : swagger_generator.t :=
  fst (swagger_generator.generate plain generator Example.registered_once).
Definition documented : swagger_generator.t :=
  fst (swagger_generator.generate plain generator Example.registered_twice).
Definition half_documented : swagger_generator.t :=
  fst (swagger_generator.add_route broken generator Example.registered_twice
         "/item").

End Scenario.

(** * Properties *)

Open Scope list_scope.

(** ** Dictionaries *)

Section DictFacts.
Context {A : Type}.
Implicit Types (d items : list (string * A)) (k : string).

Lemma lookup_setitem_eq k (v : A) d :
  Py.lookup k (Py.setitem k v d) = Some v.
Proof.
  induction d as [|[k' v'] d IH]; simpl.
  - now rewrite String.eqb_refl.
  - destruct (String.eqb k k') eqn:E; simpl.
    + now rewrite String.eqb_refl.
    + now rewrite E.
Qed.

Lemma lookup_setitem_neq k k' (v : A) d :
  k <> k' -> Py.lookup k (Py.setitem k' v d) = Py.lookup k d.
Proof.
  intros Hne. induction d as [|[k'' v''] d IH]; simpl.
  - apply String.eqb_neq in Hne. now rewrite Hne.
  - destruct (String.eqb k' k'') eqn:E; simpl.
    + apply String.eqb_eq in E. subst k''.
      apply String.eqb_neq in Hne. now rewrite Hne.
    + destruct (String.eqb k k''); auto.
Qed.

Lemma lookup_setitem k k' (v : A) d :
  Py.lookup k (Py.setitem k' v d)
  = if String.eqb k k' then Some v else Py.lookup k d.
Proof.
  destruct (String.eqb k k') eqn:E.
  - apply String.eqb_eq in E. subst. apply lookup_setitem_eq.
  - apply String.eqb_neq in E. now apply lookup_setitem_neq.
Qed.

Lemma lookup_None_not_key k d :
  Py.lookup k d = None -> ~ In k (Py.keys d).
Proof.
  induction d as [|[k' v'] d IH]; simpl; intros H; [tauto|].
  destruct (String.eqb k k') eqn:E; [discriminate|].
  apply String.eqb_neq in E. intros [->|Hin]; [congruence|]. now apply IH.
Qed.

Lemma not_key_lookup_None k d :
  ~ In k (Py.keys d) -> Py.lookup k d = None.
Proof.
  induction d as [|[k' v'] d IH]; simpl; intros H; [reflexivity|].
  destruct (String.eqb k k') eqn:E.
  - apply String.eqb_eq in E. subst. tauto.
  - apply IH. tauto.
Qed.

Lemma in_keys_lookup k d :
  In k (Py.keys d) -> exists v, Py.lookup k d = Some v.
Proof.
  intros Hin. destruct (Py.lookup k d) as [v|] eqn:E; [eauto|].
  now apply lookup_None_not_key in E.
Qed.

(** After [d.update(items)], where [items] come from a dictionary (their
    keys are distinct), a key has the value [items] give it, and
    otherwise the one it had in [d]. *)
Lemma lookup_update k items : forall d,
  NoDup (Py.keys items) ->
  Py.lookup k (Py.update d items)
  = match Py.lookup k items with
    | Some v => Some v
    | None => Py.lookup k d
    end.
Proof.
  induction items as [|[k' v'] items IH]; intros d Hnd; simpl.
  - reflexivity.
  - inversion Hnd as [|? ? Hnotin Hnd']; subst.
    unfold Py.update in *. simpl. rewrite IH by assumption.
    destruct (String.eqb k k') eqn:E.
    + apply String.eqb_eq in E. subst k'.
      rewrite (not_key_lookup_None _ _ Hnotin). apply lookup_setitem_eq.
    + apply String.eqb_neq in E.
      destruct (Py.lookup k items); [reflexivity|].
      now apply lookup_setitem_neq.
Qed.

End DictFacts.

(** ** Event normalisation *)

Section Normalisation.
Context {rt : Runtime}.

(** C5, as amended.  For a direct-invocation event whose body is a
    non-empty string, not marked base64, that [json.loads] parses to an
    object, normalisation succeeds and the params are the query-string
    parameters overridden by the body's fields, with one more entry: the
    reserved key [headers] holds the event's headers and overrides a query
    or body field of that name. *)
Theorem function_url_params_merge :
  forall (e rc http q b : dict) (path method : pyval) (s : string),
    Py.lookup "requestContext" e = Some (VDict rc) ->
    Py.lookup "http" rc = Some (VDict http) ->
    Py.lookup "path" http = Some path ->
    Py.lookup "method" http = Some method ->
    Py.get_or e "queryStringParameters" (VDict []) = VDict q ->
    Py.lookup "body" e = Some (VStr s) ->
    s <> EmptyString ->
    Py.truthy (Py.get_or e "isBase64Encoded" (VBool false)) = false ->
    json_loads (VStr s) = Return (VDict b) ->
    NoDup (Py.keys q) ->
    NoDup (Py.keys b) ->
    exists params,
      utills.process_event (VDict e) "function_url"
      = Return (RequestInfo.mk path method (VDict params) VNone)
      /\ forall k,
          Py.lookup k params
          = if String.eqb k "headers"
            then Some (Py.get_or e "headers" (VDict []))
            else match Py.lookup k b with
                 | Some v => Some v
                 | None => Py.lookup k q
                 end.
Proof.
  intros e rc http q b path method s Hrc Hhttp Hpath Hmethod Hq Hbody Hs
         Hflag Hjson Hndq Hndb.
  eexists. split.
  - unfold utills.process_event, utills._process_function_url_event. simpl.
    rewrite Hrc. simpl. rewrite Hhttp. simpl. rewrite Hpath, Hmethod. simpl.
    unfold RequestInfo.init, RequestInfo._aggregate_params.
    assert (Hb : Py.get_or e "body" (VDict []) = VStr s).
    { unfold Py.get_or. now rewrite Hbody. }
    assert (Ht : Py.truthy (VStr s) = true).
    { simpl. destruct s; [congruence | reflexivity]. }
    rewrite Hb, Ht, Hflag. simpl. rewrite Hjson. simpl. rewrite Hq. simpl.
    reflexivity.
  - intros k. rewrite lookup_setitem.
    destruct (String.eqb k "headers"); [reflexivity|].
    rewrite lookup_update by assumption.
    destruct (Py.lookup k b); [reflexivity|].
    rewrite lookup_update by assumption. simpl.
    now destruct (Py.lookup k q).
Qed.

End Normalisation.

(** ** Response encoding *)

Section Encoding.
Context {rt : Runtime}.

Lemma json_init statusCode body headers encoded gateway :
  Response.json (Response.init statusCode body headers encoded (VBool gateway))
  = let* b := emitted_body gateway body in
    Return (Response.envelope statusCode b).
Proof.
  unfold Response.json, emitted_body. simpl.
  destruct gateway; [|reflexivity].
  destruct (Py.is_str body); [reflexivity|].
  now destruct (json_dumps body).
Qed.

(** Whatever [Response.json] returns is a mapping with exactly the two
    keys [statusCode] and [body]. *)
Lemma json_returns_envelope (r : Response.t) (v : pyval) :
  Response.json r = Return v ->
  exists b, v = Response.envelope (Response.statusCode r) b.
Proof.
  unfold Response.json.
  destruct (Py.truthy (Response.isApiGatewayEvent r)).
  - destruct (Py.is_str (Response.body r)); simpl.
    + intros [= <-]. eauto.
    + destruct (json_dumps (Response.body r)); simpl; [|discriminate].
      intros [= <-]. eauto.
  - intros [= <-]. eauto.
Qed.

(** Encoding a body that is already encoded changes nothing. *)
Lemma emitted_body_idempotent gateway body b :
  emitted_body gateway body = Return b ->
  emitted_body gateway b = Return b.
Proof.
  unfold emitted_body. destruct gateway; [|congruence].
  destruct (Py.is_str body) eqn:E.
  - intros [= <-]. now rewrite E.
  - destruct (json_dumps body); simpl; [|discriminate].
    now intros [= <-].
Qed.

Lemma final_envelope_dict (app : LambdaFlask.t) (d : dict) :
  LambdaFlask.final_envelope app (VDict d)
  = let* b := emitted_body (LambdaFlask.isApiGatewayEvent app)
                           (Py.get_or d "body" (VDict [])) in
    Return (Response.envelope (Py.get_or d "statusCode" (VInt 500)) b).
Proof.
  unfold LambdaFlask.final_envelope. simpl. apply json_init.
Qed.

Lemma final_envelope_envelope (app : LambdaFlask.t) (statusCode body : pyval) :
  LambdaFlask.final_envelope app (Response.envelope statusCode body)
  = let* b := emitted_body (LambdaFlask.isApiGatewayEvent app) body in
    Return (Response.envelope statusCode b).
Proof. apply final_envelope_dict. Qed.

(** Logging the response never changes what [process_request] returns:
    when [log_response] raises, the response has no [get] method and the
    [return] statement raises the same [AttributeError]. *)
Lemma log_response_transparent (app : LambdaFlask.t) (response : pyval) :
  (let* _ := (if LambdaFlask.enable_response_logging app
              then LambdaFlask.log_response app response else Return tt) in
   LambdaFlask.final_envelope app response)
  = LambdaFlask.final_envelope app response.
Proof.
  destruct (LambdaFlask.enable_response_logging app); [|reflexivity].
  unfold LambdaFlask.log_response.
  destruct (LambdaFlask.logger_INFO app); [|reflexivity].
  destruct response; reflexivity.
Qed.

(** [process_request] is the [try] statement followed by the encoding of
    its outcome; no user code runs after the [try] statement. *)
Lemma process_request_after_try (app : LambdaFlask.t) (event : pyval)
      (s s1 : machine) (outcome : result pyval) :
  LambdaFlask.try_body app event s = (s1, outcome) ->
  LambdaFlask.process_request app event s
  = (s1,
     let* response :=
       match outcome with
       | Return v => Return v
       | Raise e =>
           if exn_is_Exception e
           then Response.json (LambdaFlask.server_error app e)
           else Raise e
       end in
     LambdaFlask.final_envelope app response).
Proof.
  intros Htry.
  assert (Hlog : forall v,
    match (if LambdaFlask.enable_response_logging app
           then LambdaFlask.log_response app v else Return tt) with
    | Return _ => (s1, LambdaFlask.final_envelope app v)
    | Raise e => (s1, Raise e)
    end = (s1, LambdaFlask.final_envelope app v)).
  { intros v.
    destruct (LambdaFlask.enable_response_logging app); [|reflexivity].
    unfold LambdaFlask.log_response.
    destruct (LambdaFlask.logger_INFO app); [|reflexivity].
    destruct v; reflexivity. }
  unfold LambdaFlask.process_request, bind, try_except_Exception, lift.
  rewrite Htry.
  destruct outcome as [v|e].
  - apply Hlog.
  - destruct (exn_is_Exception e); [|reflexivity].
    destruct (Response.json (LambdaFlask.server_error app e)) as [v|e'];
      [apply Hlog | reflexivity].
Qed.

End Encoding.

(** ** Middleware chains *)

Section Chains.
Context {rt : Runtime}.

Lemma last_cons_default {A} (a d : A) (l : list A) : last (a :: l) d = last l a.
Proof.
  revert a d. induction l as [|b l IH]; intros a d; [reflexivity|].
  change (last (a :: b :: l) d) with (last (b :: l) d).
  now rewrite (IH b d), (IH b a).
Qed.

Lemma thread_length chain : forall p w ps w',
  thread chain p w = Some (ps, w') -> List.length ps = List.length chain.
Proof.
  induction chain as [|m chain IH]; simpl; intros p w ps w' H.
  - now inversion H.
  - destruct (m p w) as [w1 [p1|e]]; [|discriminate].
    destruct (Py.is_Response p1); [discriminate|].
    destruct (thread chain p1 w1) as [[ps' w'']|] eqn:E; [|discriminate].
    inversion H; subst. simpl. f_equal. eauto.
Qed.

(** When the middlewares in front of [mk] pass and [mk] returns a
    [Response], the run stops there: the calls are those of the
    middlewares up to [mk], and the result is the encoded [Response]. *)
Lemma run_short_circuit before : forall pos mk after func p w ps w1 w2 r tr,
  thread before p w = Some (ps, w1) ->
  mk (last ps p) w1 = (w2, Return (VResponse r)) ->
  MethodHandler.run pos (before ++ mk :: after) func p (MkMachine w tr)
  = (MkMachine w2 (tr ++ calls_from pos (p :: ps)), Response.json r).
Proof.
  induction before as [|m before IH];
    intros pos mk after func p w ps w1 w2 r tr Hthread Hmk; simpl in *.
  - inversion Hthread; subst. simpl in Hmk.
    unfold bind, invoke, lift. simpl. now rewrite Hmk.
  - destruct (m p w) as [w' [p1|e]] eqn:Hm; [|discriminate].
    destruct (Py.is_Response p1) eqn:Hresp; [discriminate|].
    destruct (thread before p1 w') as [[ps' w'']|] eqn:E; [|discriminate].
    inversion Hthread; subst. rewrite last_cons_default in Hmk.
    unfold bind at 1. unfold invoke at 1. simpl. rewrite Hm.
    specialize (IH (S pos) mk after func p1 w' ps' w1 w2 r
                   (tr ++ [CallMiddleware pos p])%list E Hmk).
    rewrite <- app_assoc in IH. simpl in IH.
    destruct p1; try exact IH. discriminate.
Qed.

(** When every middleware passes, the handler function is called with
    what the last one returned. *)
Lemma run_complete chain : forall pos func p w ps w1 w2 outcome tr,
  thread chain p w = Some (ps, w1) ->
  func (last ps p) w1 = (w2, outcome) ->
  MethodHandler.run pos chain func p (MkMachine w tr)
  = (MkMachine w2 (tr ++ calls_from pos (removelast (p :: ps))
                      ++ [CallHandler (last ps p)]),
     outcome).
Proof.
  induction chain as [|m chain IH];
    intros pos func p w ps w1 w2 outcome tr Hthread Hfunc; simpl in Hthread.
  - inversion Hthread; subst. simpl in *.
    unfold invoke. simpl. now rewrite Hfunc.
  - destruct (m p w) as [w' [p1|e]] eqn:Hm; [|discriminate].
    destruct (Py.is_Response p1) eqn:Hresp; [discriminate|].
    destruct (thread chain p1 w') as [[ps' w'']|] eqn:E; [|discriminate].
    inversion Hthread; subst. rewrite last_cons_default in Hfunc |- *.
    change (removelast (p :: p1 :: ps')) with (p :: removelast (p1 :: ps')).
    cbn [MethodHandler.run calls_from app].
    unfold bind at 1. unfold invoke at 1. cbn [world trace]. rewrite Hm.
    specialize (IH (S pos) func p1 w' ps' w1 w2 outcome
                   (tr ++ [CallMiddleware pos p])%list E Hfunc).
    rewrite <- app_assoc in IH. cbn [app] in IH.
    destruct p1; try exact IH. discriminate.
Qed.

Lemma single_pass_calls_from inputs : forall pos,
  single_pass pos (calls_from pos inputs) = true.
Proof.
  induction inputs as [|p inputs IH]; intros pos; simpl; [reflexivity|].
  now rewrite Nat.eqb_refl, IH.
Qed.

Lemma length_calls_from inputs : forall pos,
  List.length (calls_from pos inputs) = List.length inputs.
Proof.
  induction inputs as [|p inputs IH]; intros pos; simpl; [reflexivity|].
  now rewrite IH.
Qed.

Lemma in_calls_from c inputs : forall pos,
  In c (calls_from pos inputs) ->
  exists j arg, c = CallMiddleware j arg /\ pos <= j < pos + List.length inputs.
Proof.
  induction inputs as [|p inputs IH]; intros pos; simpl; [tauto|].
  intros [<-|Hin].
  - exists pos, p. split; [reflexivity | lia].
  - destruct (IH _ Hin) as (j & arg & -> & Hj). exists j, arg.
    split; [reflexivity | lia].
Qed.

(** Every run of a chain is a single pass: whatever happens, no
    middleware and no handler is called twice, and nothing is called out
    of order. *)
Lemma run_single_pass chain : forall pos func p s s' outcome,
  MethodHandler.run pos chain func p s = (s', outcome) ->
  exists calls, trace s' = trace s ++ calls /\ single_pass pos calls = true.
Proof.
  induction chain as [|m chain IH]; intros pos func p s s' outcome; simpl.
  - unfold invoke. destruct (func p (world s)) as [w r].
    intros [= <- _]. simpl. now exists [CallHandler p].
  - unfold bind at 1. unfold invoke at 1.
    destruct (m p (world s)) as [w [p1|e]].
    + set (s1 := MkMachine w (trace s ++ [CallMiddleware pos p])%list).
      assert (Hcont : forall s'' o,
                 MethodHandler.run (S pos) chain func p1 s1 = (s'', o) ->
                 exists calls, trace s'' = trace s ++ calls
                               /\ single_pass pos calls = true).
      { intros s'' o Hrun. destruct (IH _ _ _ _ _ _ Hrun) as (calls & Htr & Hsp).
        exists (CallMiddleware pos p :: calls). split.
        - rewrite Htr. subst s1. simpl. now rewrite <- app_assoc.
        - simpl. now rewrite Nat.eqb_refl, Hsp. }
      destruct p1; try (intros Hrun; exact (Hcont _ _ Hrun)).
      unfold lift. intros [= <- _]. subst s1. simpl.
      exists [CallMiddleware pos p]. simpl. now rewrite Nat.eqb_refl.
    + intros [= <- _]. simpl.
      exists [CallMiddleware pos p]. simpl. now rewrite Nat.eqb_refl.
Qed.

End Chains.

(** ** Dispatch *)

Section Dispatch.
Context {rt : Runtime}.
Implicit Types (app : LambdaFlask.t) (event : pyval) (s : machine).

Lemma json_spec (r : Response.t) :
  Response.json r
  = let* b := emitted_body (Py.truthy (Response.isApiGatewayEvent r))
                           (Response.body r) in
    Return (Response.envelope (Response.statusCode r) b).
Proof.
  unfold Response.json, emitted_body.
  destruct (Py.truthy (Response.isApiGatewayEvent r)); [|reflexivity].
  destruct (Py.is_str (Response.body r)); [reflexivity|].
  now destruct (json_dumps (Response.body r)).
Qed.

(** A request whose path and method are both bound runs the bound
    handler's chain. *)
Lemma try_body_routed app event req_info l handler s :
  utills.process_event event (LambdaFlask.source app) = Return req_info ->
  Py.find (RequestInfo.route req_info) (LambdaFlask.routes app) = Return (Some l) ->
  Py.find (RequestInfo.method req_info)
          (Route.methods (LambdaFlask.deref app l)) = Return (Some handler) ->
  LambdaFlask.try_body app event s
  = MethodHandler.execute handler (RequestInfo.params req_info) s.
Proof.
  intros Hev Hroute Hmethod.
  unfold LambdaFlask.try_body, Route.handle_request, bind, lift.
  now rewrite Hev, Hroute, Hmethod.
Qed.

(** C1, as amended.  When the k-th middleware of the chain bound to the
    request's path and method returns a [Response] (the k-1 before it
    having passed), then, whatever that [Response] holds, the calls made
    are exactly those of middlewares 1..k, once each and in registration
    order, the first on the request's params and each next one on what the
    previous returned; no later middleware and no handler is called.

    What is returned depends on the encoding of the [Response]'s body,
    which goes through [json.dumps] unless it is a string or neither the
    Dispatcher nor the [Response] is tagged gateway-proxy.  When the
    encoding yields a body, the envelope carries exactly the [Response]'s
    status code and that body: the [Response]'s own body when it is a
    string or nothing is tagged, its JSON serialisation otherwise.  When
    [json.dumps] raises, the [Response]'s status code is not returned: if
    the [Response] itself is tagged, the exception is raised inside the
    [try] statement and, deriving from [Exception], is answered like any
    other with status code 500 and the exception's message; if not, it is
    raised by the [return] statement and leaves [process_request]. *)
Theorem short_circuit_is_terminal :
  forall app event req_info l handler before mk after ps w1 w2 r s,
    utills.process_event event (LambdaFlask.source app) = Return req_info ->
    Py.find (RequestInfo.route req_info) (LambdaFlask.routes app)
    = Return (Some l) ->
    Py.find (RequestInfo.method req_info)
            (Route.methods (LambdaFlask.deref app l)) = Return (Some handler) ->
    MethodHandler.middlewares handler = before ++ mk :: after ->
    thread before (RequestInfo.params req_info) (world s) = Some (ps, w1) ->
    mk (last ps (RequestInfo.params req_info)) w1 = (w2, Return (VResponse r)) ->
    fst (LambdaFlask.process_request app event s)
    = MkMachine w2 (trace s ++ calls_from 0 (RequestInfo.params req_info :: ps))
    /\ List.length (calls_from 0 (RequestInfo.params req_info :: ps))
       = S (List.length before)
    /\ (forall j arg,
          In (CallMiddleware j arg)
             (calls_from 0 (RequestInfo.params req_info :: ps)) ->
          j <= List.length before)
    /\ (forall arg,
          ~ In (CallHandler arg)
               (calls_from 0 (RequestInfo.params req_info :: ps)))
    /\ (forall body',
          emitted_body (LambdaFlask.isApiGatewayEvent app
                        || Py.truthy (Response.isApiGatewayEvent r))
                       (Response.body r) = Return body' ->
          LambdaFlask.process_request app event s
          = (MkMachine w2
               (trace s ++ calls_from 0 (RequestInfo.params req_info :: ps)),
             Return (Response.envelope (Response.statusCode r) body'))
          /\ (LambdaFlask.isApiGatewayEvent app = false ->
              Py.truthy (Response.isApiGatewayEvent r) = false ->
              body' = Response.body r)
          /\ (Py.is_str (Response.body r) = true -> body' = Response.body r))
    /\ (forall e,
          emitted_body (LambdaFlask.isApiGatewayEvent app
                        || Py.truthy (Response.isApiGatewayEvent r))
                       (Response.body r) = Raise e ->
          LambdaFlask.process_request app event s
          = (MkMachine w2
               (trace s ++ calls_from 0 (RequestInfo.params req_info :: ps)),
             if Py.truthy (Response.isApiGatewayEvent r) && exn_is_Exception e
             then let* body' :=
                    emitted_body (LambdaFlask.isApiGatewayEvent app)
                                 (VDict [("error", VStr (exn_str e))]) in
                  Return (Response.envelope (VInt 500) body')
             else Raise e)).
Proof.
  intros app event req_info l handler before mk after ps w1 w2 r s
         Hev Hroute Hmethod Hchain Hthread Hmk.
  assert (Hlen : List.length ps = List.length before)
    by (eapply thread_length; eauto).
  assert (Htry : LambdaFlask.try_body app event s
                 = (MkMachine w2 (trace s ++ calls_from 0
                                     (RequestInfo.params req_info :: ps)),
                    Response.json r)).
  { destruct s as [w tr]. cbn [world trace] in *.
    rewrite (try_body_routed _ _ _ _ _ _ Hev Hroute Hmethod).
    unfold MethodHandler.execute. rewrite Hchain.
    exact (run_short_circuit _ _ _ _ _ _ _ _ _ _ _ _ Hthread Hmk). }
  pose proof (process_request_after_try _ _ _ _ _ Htry) as Hreq.
  split; [now rewrite Hreq|].
  split; [rewrite length_calls_from; simpl; now rewrite Hlen|].
  split.
  { intros j arg Hin. apply in_calls_from in Hin.
    destruct Hin as (j' & arg' & [= -> ->] & Hj). simpl in Hj. lia. }
  split.
  { intros arg Hin. apply in_calls_from in Hin.
    now destruct Hin as (j' & arg' & [=] & _). }
  split.
  - intros body' Hbody. split; [|split].
    + rewrite Hreq. f_equal. rewrite json_spec.
      destruct (Py.truthy (Response.isApiGatewayEvent r)).
      * rewrite orb_true_r in Hbody. rewrite Hbody. cbn [rbind].
        rewrite final_envelope_envelope.
        destruct (LambdaFlask.isApiGatewayEvent app).
        -- now rewrite (emitted_body_idempotent _ _ _ Hbody).
        -- reflexivity.
      * rewrite orb_false_r in Hbody. cbn [emitted_body rbind].
        rewrite final_envelope_envelope. now rewrite Hbody.
    + intros Hgw Hfl. rewrite Hgw, Hfl in Hbody. simpl in Hbody. congruence.
    + intros Hstr. unfold emitted_body in Hbody. rewrite Hstr in Hbody.
      destruct (_ || _); congruence.
  - intros e Hbody. rewrite Hreq. f_equal. rewrite json_spec.
    destruct (Py.truthy (Response.isApiGatewayEvent r)).
    + rewrite orb_true_r in Hbody. rewrite Hbody. cbn [rbind andb].
      destruct (exn_is_Exception e); [|reflexivity].
      unfold LambdaFlask.server_error. rewrite json_init.
      destruct (emitted_body (LambdaFlask.isApiGatewayEvent app)
                             (VDict [("error", VStr (exn_str e))]))
        as [b|e'] eqn:E; [|reflexivity].
      cbn [rbind]. rewrite final_envelope_envelope.
      now rewrite (emitted_body_idempotent _ _ _ E).
    + rewrite orb_false_r in Hbody. cbn [emitted_body rbind andb].
      rewrite final_envelope_envelope. now rewrite Hbody.
Qed.

(** C9, as amended.  When the chain runs through and the handler function
    returns a mapping, the envelope is built from that mapping's
    [statusCode] and [body] entries alone, with 500 and the empty mapping
    as defaults, and the body then goes through the encoder: unchanged
    under direct invocation, serialised by [json.dumps] under gateway-proxy
    unless it is a string.  A mapping with neither key thus yields status
    500 with body [{}] under direct invocation (the serialisation of [{}]
    under gateway-proxy), whatever else the mapping holds. *)
Theorem handler_mapping_is_re_enveloped :
  forall app event req_info l handler ps w1 w2 d body' s,
    utills.process_event event (LambdaFlask.source app) = Return req_info ->
    Py.find (RequestInfo.route req_info) (LambdaFlask.routes app)
    = Return (Some l) ->
    Py.find (RequestInfo.method req_info)
            (Route.methods (LambdaFlask.deref app l)) = Return (Some handler) ->
    thread (MethodHandler.middlewares handler) (RequestInfo.params req_info)
           (world s) = Some (ps, w1) ->
    MethodHandler.func handler (last ps (RequestInfo.params req_info)) w1
    = (w2, Return (VDict d)) ->
    emitted_body (LambdaFlask.isApiGatewayEvent app)
                 (Py.get_or d "body" (VDict [])) = Return body' ->
    LambdaFlask.process_request app event s
    = (MkMachine w2
         (trace s
            ++ calls_from 0 (removelast (RequestInfo.params req_info :: ps))
            ++ [CallHandler (last ps (RequestInfo.params req_info))]),
       Return (Response.envelope (Py.get_or d "statusCode" (VInt 500)) body'))
    /\ (LambdaFlask.isApiGatewayEvent app = false ->
        body' = Py.get_or d "body" (VDict []))
    /\ (Py.lookup "statusCode" d = None -> Py.lookup "body" d = None ->
        Py.get_or d "statusCode" (VInt 500) = VInt 500
        /\ emitted_body (LambdaFlask.isApiGatewayEvent app) (VDict [])
           = Return body').
Proof.
  intros app event req_info l handler ps w1 w2 d body' s
         Hev Hroute Hmethod Hthread Hfunc Hbody.
  split; [|split].
  - destruct s as [w tr]. cbn [world trace] in *.
    assert (Htry := try_body_routed _ _ _ _ _ (MkMachine w tr) Hev Hroute Hmethod).
    unfold MethodHandler.execute in Htry.
    rewrite (run_complete _ _ _ _ _ _ _ _ _ _ Hthread Hfunc) in Htry.
    rewrite (process_request_after_try _ _ _ _ _ Htry). f_equal.
    cbn [rbind]. rewrite final_envelope_dict. now rewrite Hbody.
  - intros Hgw. rewrite Hgw in Hbody. simpl in Hbody. congruence.
  - intros Hstatus Hnobody. unfold Py.get_or in *.
    rewrite Hstatus. now rewrite Hnobody in Hbody.
Qed.

(** Sources of exceptions inside the [try] statement. *)

Lemma normalisation_raise app event e s :
  utills.process_event event (LambdaFlask.source app) = Raise e ->
  LambdaFlask.try_body app event s = (s, Raise e).
Proof.
  intros H. unfold LambdaFlask.try_body, bind, lift. now rewrite H.
Qed.

Lemma run_middleware_raise before : forall pos mk after func p w ps w1 w2 e tr,
  thread before p w = Some (ps, w1) ->
  mk (last ps p) w1 = (w2, Raise e) ->
  MethodHandler.run pos (before ++ mk :: after) func p (MkMachine w tr)
  = (MkMachine w2 (tr ++ calls_from pos (p :: ps)), Raise e).
Proof.
  induction before as [|m before IH];
    intros pos mk after func p w ps w1 w2 e tr Hthread Hmk; simpl in *.
  - inversion Hthread; subst. simpl in Hmk.
    unfold bind, invoke. simpl. now rewrite Hmk.
  - destruct (m p w) as [w' [p1|e']] eqn:Hm; [|discriminate].
    destruct (Py.is_Response p1) eqn:Hresp; [discriminate|].
    destruct (thread before p1 w') as [[ps' w'']|] eqn:E; [|discriminate].
    inversion Hthread; subst. rewrite last_cons_default in Hmk.
    unfold bind at 1. unfold invoke at 1. simpl. rewrite Hm.
    specialize (IH (S pos) mk after func p1 w' ps' w1 w2 e
                   (tr ++ [CallMiddleware pos p]) E Hmk).
    rewrite <- app_assoc in IH. simpl in IH.
    destruct p1; try exact IH. discriminate.
Qed.

Lemma middleware_raise app event req_info l handler before mk after ps w1 w2 e s :
  utills.process_event event (LambdaFlask.source app) = Return req_info ->
  Py.find (RequestInfo.route req_info) (LambdaFlask.routes app) = Return (Some l) ->
  Py.find (RequestInfo.method req_info)
          (Route.methods (LambdaFlask.deref app l)) = Return (Some handler) ->
  MethodHandler.middlewares handler = before ++ mk :: after ->
  thread before (RequestInfo.params req_info) (world s) = Some (ps, w1) ->
  mk (last ps (RequestInfo.params req_info)) w1 = (w2, Raise e) ->
  LambdaFlask.try_body app event s
  = (MkMachine w2 (trace s ++ calls_from 0 (RequestInfo.params req_info :: ps)),
     Raise e).
Proof.
  intros Hev Hroute Hmethod Hchain Hthread Hmk. destruct s as [w tr].
  rewrite (try_body_routed _ _ _ _ _ _ Hev Hroute Hmethod).
  unfold MethodHandler.execute. rewrite Hchain.
  exact (run_middleware_raise _ _ _ _ _ _ _ _ _ _ _ _ Hthread Hmk).
Qed.

Lemma handler_raise app event req_info l handler ps w1 w2 e s :
  utills.process_event event (LambdaFlask.source app) = Return req_info ->
  Py.find (RequestInfo.route req_info) (LambdaFlask.routes app) = Return (Some l) ->
  Py.find (RequestInfo.method req_info)
          (Route.methods (LambdaFlask.deref app l)) = Return (Some handler) ->
  thread (MethodHandler.middlewares handler) (RequestInfo.params req_info)
         (world s) = Some (ps, w1) ->
  MethodHandler.func handler (last ps (RequestInfo.params req_info)) w1
  = (w2, Raise e) ->
  LambdaFlask.try_body app event s
  = (MkMachine w2
       (trace s
          ++ calls_from 0 (removelast (RequestInfo.params req_info :: ps))
          ++ [CallHandler (last ps (RequestInfo.params req_info))]),
     Raise e).
Proof.
  intros Hev Hroute Hmethod Hthread Hfunc. destruct s as [w tr].
  rewrite (try_body_routed _ _ _ _ _ _ Hev Hroute Hmethod).
  exact (run_complete _ _ _ _ _ _ _ _ _ _ Hthread Hfunc).
Qed.

(** The [try] statement makes a single pass over the chain. *)
Lemma try_body_single_pass app event s s1 outcome :
  LambdaFlask.try_body app event s = (s1, outcome) ->
  exists calls, trace s1 = trace s ++ calls /\ single_pass 0 calls = true.
Proof.
  assert (Hnone : forall (r : result pyval),
             (s, r) = (s1, outcome) ->
             exists calls, trace s1 = trace s ++ calls
                           /\ single_pass 0 calls = true).
  { intros r [= <- _]. exists []. now rewrite app_nil_r. }
  unfold LambdaFlask.try_body, Route.handle_request, bind, lift.
  destruct (utills.process_event event (LambdaFlask.source app)) as [ri|e];
    [|apply Hnone].
  destruct (Py.find (RequestInfo.route ri) (LambdaFlask.routes app))
    as [[l|]|e]; try apply Hnone.
  destruct (Py.find (RequestInfo.method ri)
                    (Route.methods (LambdaFlask.deref app l)))
    as [[handler|]|e]; try apply Hnone.
  apply run_single_pass.
Qed.

(** C2, as amended.  The [try] statement is the one place where an
    exception is handled, and it handles those deriving from [Exception]
    only.  When an exception is raised inside it (by normalisation, a
    middleware or the handler):
    - if it derives from [Exception], it is caught: [process_request]
      returns an envelope with status code 500 whose body is the mapping
      from [error] to the exception's message under direct invocation, and
      the JSON serialisation of that mapping under gateway-proxy;
    - if it does not ([SystemExit], [KeyboardInterrupt]), it is not caught:
      it leaves [process_request] as it was raised;
    - either way no user code runs after the exception, and what ran before
      it was a single pass: nothing is retried. *)
Theorem exception_is_caught_once :
  forall app event s s1 e,
    LambdaFlask.try_body app event s = (s1, Raise e) ->
    (exn_is_Exception e = true ->
     forall body',
       emitted_body (LambdaFlask.isApiGatewayEvent app)
                    (VDict [("error", VStr (exn_str e))]) = Return body' ->
       LambdaFlask.process_request app event s
       = (s1, Return (Response.envelope (VInt 500) body'))
       /\ (LambdaFlask.isApiGatewayEvent app = false ->
           body' = VDict [("error", VStr (exn_str e))]))
    /\ (exn_is_Exception e = false ->
        LambdaFlask.process_request app event s = (s1, Raise e))
    /\ (exists calls, trace s1 = trace s ++ calls
                      /\ single_pass 0 calls = true).
Proof.
  intros app event s s1 e Htry.
  pose proof (process_request_after_try _ _ _ _ _ Htry) as Hreq.
  split; [|split].
  - intros Hexn body' Hbody. split.
    + rewrite Hreq. f_equal.
      rewrite Hexn. unfold LambdaFlask.server_error. rewrite json_init, Hbody.
      cbn [rbind]. rewrite final_envelope_envelope.
      now rewrite (emitted_body_idempotent _ _ _ Hbody).
    + intros Hgw. rewrite Hgw in Hbody. simpl in Hbody. congruence.
  - intros Hexn. rewrite Hreq. now rewrite Hexn.
  - eapply try_body_single_pass; eauto.
Qed.

(** C3, as amended.  Whenever the [try] statement ends with a mapping
    (which the 404, 405 and short-circuit paths always produce) or with
    an exception deriving from [Exception], and, under gateway-proxy,
    the body to emit is a string or is accepted by [json.dumps],
    [process_request] returns without raising, and what it returns is a
    mapping with exactly the keys [statusCode] and [body]. *)
Theorem process_request_returns_envelope :
  forall app event s s1 outcome body',
    LambdaFlask.try_body app event s = (s1, outcome) ->
    encodable outcome = true ->
    emitted_body (LambdaFlask.isApiGatewayEvent app) (pending_body outcome)
    = Return body' ->
    LambdaFlask.process_request app event s
    = (s1, Return (Response.envelope (pending_status outcome) body')).
Proof.
  intros app event s s1 outcome body' Htry Henc Hbody.
  rewrite (process_request_after_try _ _ _ _ _ Htry). f_equal.
  destruct outcome as [v|e]; simpl in Henc.
  - destruct v; try discriminate. cbn [rbind pending_status pending_body] in *.
    rewrite final_envelope_dict. now rewrite Hbody.
  - rewrite Henc. cbn [pending_status pending_body] in *.
    unfold LambdaFlask.server_error. rewrite json_init, Hbody.
    cbn [rbind]. rewrite final_envelope_envelope.
    now rewrite (emitted_body_idempotent _ _ _ Hbody).
Qed.

(** C7.  An event that normalises to a request whose path is not a key
    of the route table gets the envelope with status code 404 and body
    [Route Not Found], under either source variant, and the machine is left
    as it was: no handler and no middleware is called. *)
Theorem unknown_path_is_404 :
  forall app event req_info s,
    utills.process_event event (LambdaFlask.source app) = Return req_info ->
    Py.find (RequestInfo.route req_info) (LambdaFlask.routes app) = Return None ->
    LambdaFlask.process_request app event s
    = (s, Return (Response.envelope (VInt 404) (VStr "Route Not Found"))).
Proof.
  intros app event req_info s Hev Hroute.
  assert (Htry : LambdaFlask.try_body app event s
                 = (s, Response.json (LambdaFlask.not_found app))).
  { unfold LambdaFlask.try_body, bind, lift. now rewrite Hev, Hroute. }
  rewrite (process_request_after_try _ _ _ _ _ Htry). f_equal.
  unfold LambdaFlask.not_found. rewrite json_init.
  assert (Hstr : forall g, emitted_body g (VStr "Route Not Found")
                           = Return (VStr "Route Not Found"))
    by (now intros []).
  rewrite Hstr. cbn [rbind]. rewrite final_envelope_envelope. now rewrite Hstr.
Qed.

Lemma unbound_method_is_405 app event req_info l s :
  utills.process_event event (LambdaFlask.source app) = Return req_info ->
  Py.find (RequestInfo.route req_info) (LambdaFlask.routes app) = Return (Some l) ->
  Py.find (RequestInfo.method req_info)
          (Route.methods (LambdaFlask.deref app l)) = Return None ->
  LambdaFlask.process_request app event s
  = (s, Return (Response.envelope (VInt 405) (VStr "Method Not Allowed"))).
Proof.
  intros Hev Hroute Hmethod.
  assert (Htry : LambdaFlask.try_body app event s
                 = (s, Response.json Route.method_not_allowed)).
  { unfold LambdaFlask.try_body, Route.handle_request, bind, lift.
    now rewrite Hev, Hroute, Hmethod. }
  rewrite (process_request_after_try _ _ _ _ _ Htry). f_equal.
  unfold Route.method_not_allowed. rewrite json_init.
  cbn [emitted_body rbind]. rewrite final_envelope_envelope.
  now destruct (LambdaFlask.isApiGatewayEvent app).
Qed.

(** C8, as amended.  Method matching is exact: a request is served by the
    handler bound under its very method string, and when that string is
    not itself a key of the route's method table the answer is 405
    [Method Not Allowed], with no user code called; a handler bound under a
    string that differs in letter case does not serve it. *)
Theorem method_match_is_exact :
  forall app event req_info l m s,
    utills.process_event event (LambdaFlask.source app) = Return req_info ->
    Py.find (RequestInfo.route req_info) (LambdaFlask.routes app)
    = Return (Some l) ->
    RequestInfo.method req_info = VStr m ->
    (forall handler,
        Py.lookup m (Route.methods (LambdaFlask.deref app l)) = Some handler ->
        In m (Py.keys (Route.methods (LambdaFlask.deref app l)))
        /\ LambdaFlask.try_body app event s
           = MethodHandler.execute handler (RequestInfo.params req_info) s)
    /\ (~ In m (Py.keys (Route.methods (LambdaFlask.deref app l))) ->
        LambdaFlask.process_request app event s
        = (s, Return (Response.envelope (VInt 405) (VStr "Method Not Allowed")))).
Proof.
  intros app event req_info l m s Hev Hroute Hm. split.
  - intros handler Hbound. split.
    + destruct (in_dec string_dec m
                 (Py.keys (Route.methods (LambdaFlask.deref app l))))
        as [Hin|Hnot]; [exact Hin|].
      apply not_key_lookup_None in Hnot. congruence.
    + apply (try_body_routed _ _ _ _ _ _ Hev Hroute).
      rewrite Hm. unfold Py.find. cbn [Py.hashable]. now rewrite Hbound.
  - intros Hnot. apply (unbound_method_is_405 _ _ _ _ _ Hev Hroute).
    rewrite Hm. unfold Py.find. cbn [Py.hashable].
    now rewrite (not_key_lookup_None _ _ Hnot).
Qed.

(** C10.  Dispatch never reads [http_methods]: replacing the list stored
    at creation by any other leaves [handle_request] unchanged.  So a
    handler bound under a method string that is not in [http_methods] is
    served, and a method in [http_methods] that was never bound gets 405
    [Method Not Allowed]. *)
Theorem http_methods_never_gate_dispatch :
  forall (route : Route.t) (declared : list string) (req_params : pyval) s,
    (forall method,
        Route.handle_request
          (Route.mk (Route.path route) declared (Route.methods route))
          method req_params s
        = Route.handle_request route method req_params s)
    /\ (forall m handler,
           ~ In m (Route.http_methods route) ->
           Py.lookup m (Route.methods route) = Some handler ->
           Route.handle_request route (VStr m) req_params s
           = MethodHandler.execute handler req_params s)
    /\ (forall m,
           In m (Route.http_methods route) ->
           Py.lookup m (Route.methods route) = None ->
           Route.handle_request route (VStr m) req_params s
           = (s, Return (Response.envelope (VInt 405)
                                           (VStr "Method Not Allowed")))).
Proof.
  intros route declared req_params s. split; [|split].
  - reflexivity.
  - intros m handler _ Hbound.
    unfold Route.handle_request, bind, lift, Py.find. cbn [Py.hashable].
    now rewrite Hbound.
  - intros m _ Hunbound.
    unfold Route.handle_request, bind, lift, Py.find. cbn [Py.hashable].
    now rewrite Hunbound.
Qed.

(** C4, as amended.  When the mapping that reaches the [return] statement
    has no [statusCode], the envelope's status code is 500; when it has no
    [body], the body is the empty mapping, not a failure message (under
    gateway-proxy the empty mapping is serialised like any other body that
    is not a string).  Whenever the statement returns, the envelope has
    both keys. *)
Theorem final_envelope_defaults :
  forall app (d : dict) body',
    emitted_body (LambdaFlask.isApiGatewayEvent app)
                 (Py.get_or d "body" (VDict [])) = Return body' ->
    LambdaFlask.final_envelope app (VDict d)
    = Return (Response.envelope (Py.get_or d "statusCode" (VInt 500)) body')
    /\ (Py.lookup "statusCode" d = None ->
        Py.get_or d "statusCode" (VInt 500) = VInt 500)
    /\ (Py.lookup "body" d = None ->
        emitted_body (LambdaFlask.isApiGatewayEvent app) (VDict [])
        = Return body')
    /\ (Py.lookup "body" d = None ->
        LambdaFlask.isApiGatewayEvent app = false -> body' = VDict []).
Proof.
  intros app d body' Hbody. split; [|split; [|split]].
  - rewrite final_envelope_dict. now rewrite Hbody.
  - intros H. unfold Py.get_or. now rewrite H.
  - intros H. unfold Py.get_or in Hbody. now rewrite H in Hbody.
  - intros H Hgw. unfold Py.get_or in Hbody. rewrite H, Hgw in Hbody.
    simpl in Hbody. congruence.
Qed.

(** Only a handler function can make the [try] statement end with a value
    that is not a mapping: when the handlers of the configuration return
    mappings, so does every path through the [try] statement. *)

Lemma run_returns_mapping chain : forall pos (func : callable) p s s' v,
  (forall p w w' v, func p w = (w', Return v) -> Py.is_dict v = true) ->
  MethodHandler.run pos chain func p s = (s', Return v) ->
  Py.is_dict v = true.
Proof.
  induction chain as [|m chain IH]; intros pos func p s s' v Hfunc; simpl.
  - unfold invoke. destruct (func p (world s)) as [w r] eqn:E.
    intros [= _ ->]. eauto.
  - unfold bind at 1. unfold invoke at 1.
    destruct (m p (world s)) as [w [p1|e]]; [|discriminate].
    destruct p1; try (intros Hrun; exact (IH _ _ _ _ _ _ Hfunc Hrun)).
    unfold lift. intros [= _ Hjson].
    apply json_returns_envelope in Hjson. now destruct Hjson as [b ->].
Qed.

Lemma try_body_returns_mapping app event s s1 v :
  handlers_return_mappings app ->
  LambdaFlask.try_body app event s = (s1, Return v) ->
  Py.is_dict v = true.
Proof.
  intros Hhandlers.
  assert (Hjson : forall r, (s, Response.json r) = (s1, Return v) ->
                            Py.is_dict v = true).
  { intros r [= _ H]. apply json_returns_envelope in H.
    now destruct H as [b ->]. }
  unfold LambdaFlask.try_body, Route.handle_request, bind, lift.
  destruct (utills.process_event event (LambdaFlask.source app)) as [ri|e];
    [|discriminate].
  destruct (Py.find (RequestInfo.route ri) (LambdaFlask.routes app))
    as [[l|]|e]; [|apply Hjson|discriminate].
  destruct (Py.find (RequestInfo.method ri)
                    (Route.methods (LambdaFlask.deref app l)))
    as [[handler|]|e] eqn:Hfind; [|apply Hjson|discriminate].
  apply run_returns_mapping.
  intros p w w' v' Hcall.
  unfold Py.find in Hfind.
  destruct (Py.hashable (RequestInfo.method ri)); [|discriminate].
  destruct (RequestInfo.method ri); try discriminate.
  injection Hfind as Hfind. eapply Hhandlers; eauto.
Qed.

End Dispatch.

(** ** Where exceptions come from *)

Section Catchable.
Context {rt : Runtime}.

Lemma catchable_Return {A} (a : A) : catchable (Return a).
Proof. intros e H. discriminate. Qed.

Lemma catchable_rbind {A B} (r : result A) (k : A -> result B) :
  catchable r -> (forall a, catchable (k a)) -> catchable (rbind r k).
Proof.
  intros Hr Hk e. destruct r as [a|e']; simpl.
  - apply Hk.
  - intros [= ->]. now apply Hr.
Qed.

Lemma catchable_getitem v k : catchable (Py.getitem v k).
Proof.
  intros e. unfold Py.getitem.
  destruct v; try (intros [= <-]; reflexivity).
  destruct (Py.lookup k d); [discriminate|]. now intros [= <-].
Qed.

Lemma catchable_get v k default : catchable (Py.get v k default).
Proof.
  intros e. unfold Py.get. destruct v; intros [= <-]; reflexivity.
Qed.

Lemma catchable_mapping_items v : catchable (Py.mapping_items v).
Proof.
  intros e. unfold Py.mapping_items. destruct v; intros [= <-]; reflexivity.
Qed.

Lemma catchable_find {A} k (d : list (string * A)) : catchable (Py.find k d).
Proof.
  intros e. unfold Py.find.
  destruct (Py.hashable k); [discriminate|]. now intros [= <-].
Qed.

Hypothesis Hruntime : runtime_catchable.

Lemma catchable_json (r : Response.t) : catchable (Response.json r).
Proof.
  unfold Response.json.
  destruct (Py.truthy (Response.isApiGatewayEvent r));
    [|apply catchable_Return].
  apply catchable_rbind; [|intros; apply catchable_Return].
  destruct (Py.is_str (Response.body r)); [apply catchable_Return|].
  apply catchable_rbind; [apply Hruntime | intros; apply catchable_Return].
Qed.

Lemma catchable_aggregate_params q body headers flag :
  catchable (RequestInfo._aggregate_params q body headers flag).
Proof.
  unfold RequestInfo._aggregate_params.
  apply catchable_rbind.
  - destruct (Py.truthy body && Py.truthy flag).
    + apply catchable_rbind; [apply Hruntime | intros; apply catchable_Return].
    + destruct (Py.truthy body); [apply Hruntime | apply catchable_Return].
  - intros body'. apply catchable_rbind; [apply catchable_mapping_items|].
    intros q'. apply catchable_rbind; [apply catchable_mapping_items|].
    intros b'. apply catchable_Return.
Qed.

Lemma catchable_RequestInfo_init path method q body headers flag aggregate identity :
  catchable (RequestInfo.init path method q body headers flag aggregate identity).
Proof.
  unfold RequestInfo.init.
  apply catchable_rbind; [|intros; apply catchable_Return].
  destruct aggregate; [apply catchable_aggregate_params | apply catchable_Return].
Qed.

Ltac catchable_step :=
  first [ apply catchable_RequestInfo_init
        | apply catchable_getitem
        | apply catchable_get
        | apply catchable_Return
        | apply catchable_rbind; [|intro]
        | match goal with
          | |- catchable (if ?b then _ else _) => destruct b
          end ].

Lemma catchable_process_event event type :
  catchable (utills.process_event event type).
Proof.
  unfold utills.process_event.
  destruct (String.eqb type "function_url").
  - unfold utills._process_function_url_event. repeat catchable_step.
  - destruct (String.eqb type "api_gateway_proxy").
    + unfold utills._process_api_url_event. repeat catchable_step.
    + intros e [= <-]. reflexivity.
Qed.

Lemma run_catchable chain : forall pos (func : callable) p s s' e,
  callable_catchable func ->
  Forall callable_catchable chain ->
  MethodHandler.run pos chain func p s = (s', Raise e) ->
  exn_is_Exception e = true.
Proof.
  induction chain as [|m chain IH]; intros pos func p s s' e Hfunc Hchain; simpl.
  - unfold invoke. specialize (Hfunc p (world s)).
    destruct (func p (world s)) as [w r]. intros [= _ ->]. now apply Hfunc.
  - inversion Hchain as [|? ? Hm Hrest]; subst.
    unfold bind at 1. unfold invoke at 1. specialize (Hm p (world s)).
    destruct (m p (world s)) as [w [p1|e']]; simpl in Hm.
    + destruct p1; try (intros Hrun; exact (IH _ _ _ _ _ _ Hfunc Hrest Hrun)).
      unfold lift. intros [= _ H]. now apply catchable_json in H.
    + intros [= _ ->]. now apply Hm.
Qed.

(** When the library and the user code of the configuration raise only
    exceptions deriving from [Exception], so does the [try] statement: the
    interpreter's own errors ([KeyError], [TypeError], [AttributeError],
    [ValueError]) all derive from it. *)
Lemma try_body_catchable (app : LambdaFlask.t) event s s1 e :
  user_code_catchable app ->
  LambdaFlask.try_body app event s = (s1, Raise e) ->
  exn_is_Exception e = true.
Proof.
  intros Huser.
  unfold LambdaFlask.try_body, Route.handle_request, bind, lift.
  destruct (utills.process_event event (LambdaFlask.source app)) as [ri|e0] eqn:Hev.
  2:{ intros [= _ ->]. now apply catchable_process_event in Hev. }
  destruct (Py.find (RequestInfo.route ri) (LambdaFlask.routes app))
    as [[l|]|e0] eqn:Hroute.
  3:{ intros [= _ ->]. now apply catchable_find in Hroute. }
  2:{ intros [= _ H]. now apply catchable_json in H. }
  destruct (Py.find (RequestInfo.method ri)
                    (Route.methods (LambdaFlask.deref app l)))
    as [[handler|]|e0] eqn:Hmethod.
  3:{ intros [= _ ->]. now apply catchable_find in Hmethod. }
  2:{ intros H. apply (f_equal snd) in H. cbn [snd] in H.
      now apply catchable_json in H. }
  unfold Py.find in Hmethod.
  destruct (Py.hashable (RequestInfo.method ri)); [|discriminate].
  destruct (RequestInfo.method ri); try discriminate.
  injection Hmethod as Hmethod.
  destruct (Huser _ _ _ Hmethod) as [Hfunc Hchain].
  now apply run_catchable.
Qed.

(** With such a library and such user code, and handlers that return
    mappings, the [try] statement always ends in a way the rest of
    [process_request] can encode. *)
Lemma try_body_encodable (app : LambdaFlask.t) event s s1 outcome :
  user_code_catchable app ->
  handlers_return_mappings app ->
  LambdaFlask.try_body app event s = (s1, outcome) ->
  encodable outcome = true.
Proof.
  intros Huser Hmappings Htry. destruct outcome as [v|e]; simpl.
  - eapply try_body_returns_mapping; eauto.
  - eapply try_body_catchable; eauto.
Qed.

End Catchable.

(** ** The reference runtime raises only what [except Exception] catches *)

Section RefFacts.

Variable P : pyval -> Prop.
Hypothesis HNone : P VNone.
Hypothesis HBool : forall b, P (VBool b).
Hypothesis HInt : forall z, P (VInt z).
Hypothesis HStr : forall s, P (VStr s).
Hypothesis HBytes : forall bs, P (VBytes bs).
Hypothesis HList : forall l, Forall P l -> P (VList l).
Hypothesis HDict : forall d, Forall (fun kv => P (snd kv)) d -> P (VDict d).
Hypothesis HResponse : forall r, P (VResponse r).

(** Induction on values that reaches the elements of lists and the values
    of dictionaries. *)
Lemma pyval_nested_ind : forall v : pyval, P v.
Proof.
  exact
    (fix ind (v : pyval) : P v :=
       match v with
       | VNone => HNone
       | VBool b => HBool b
       | VInt z => HInt z
       | VStr s => HStr s
       | VBytes bs => HBytes bs
       | VList l =>
           HList l ((fix each (l : list pyval) : Forall P l :=
                       match l with
                       | [] => Forall_nil _
                       | x :: rest => Forall_cons x (ind x) (each rest)
                       end) l)
       | VDict d =>
           HDict d ((fix each (d : list (string * pyval))
                     : Forall (fun kv => P (snd kv)) d :=
                       match d with
                       | [] => Forall_nil _
                       | kv :: rest => Forall_cons kv (ind (snd kv)) (each rest)
                       end) d)
       | VResponse r => HResponse r
       end).
Qed.

End RefFacts.

Lemma ref_json_dumps_catchable (v : pyval) : catchable (Ref.json_dumps v).
Proof.
  induction v using pyval_nested_ind;
    try (intros e; simpl; try destruct b; intros [= <-]; reflexivity).
  - simpl. apply catchable_rbind; [|intros; apply catchable_Return].
    induction H as [|x l Hx Hl IH]; [apply catchable_Return|].
    apply catchable_rbind; [exact Hx|]. intros p.
    apply catchable_rbind; [exact IH | intros; apply catchable_Return].
  - simpl. apply catchable_rbind; [|intros; apply catchable_Return].
    induction H as [|[k x] d Hx Hd IH]; [apply catchable_Return|].
    apply catchable_rbind; [exact Hx|]. intros p.
    apply catchable_rbind; [exact IH | intros; apply catchable_Return].
Qed.

Lemma ref_json_loads_catchable (v : pyval) : catchable (Ref.json_loads v).
Proof.
  assert (Hparse : forall s e,
    match Ref.scan_value (2 * String.length s + 2) s with
    | Some (x, tail) =>
        match Ref.skip_ws tail with
        | EmptyString => Return x
        | String _ _ => Raise (Ref.JSONDecodeError "Extra data")
        end
    | None => Raise (Ref.JSONDecodeError "Expecting value")
    end = Raise e -> exn_is_Exception e = true).
  { intros s e.
    destruct (Ref.scan_value (2 * String.length s + 2) s) as [[x tail]|];
      [destruct (Ref.skip_ws tail)|]; intros [= <-]; reflexivity. }
  intros e. unfold Ref.json_loads.
  destruct v; try (intros [= <-]; reflexivity); apply Hparse.
Qed.

Lemma ref_a2b_loop_catchable (s : string) : forall quad_pos leftchar pads out,
  catchable (Ref.a2b_loop s quad_pos leftchar pads out).
Proof.
  induction s as [|c s IH]; intros quad_pos leftchar pads out e;
    cbn [Ref.a2b_loop].
  - destruct quad_pos as [|[|n]]; intros [= <-]; reflexivity.
  - repeat match goal with
           | |- (if ?b then _ else _) = _ -> _ => destruct b
           | |- match ?x with _ => _ end = _ -> _ => destruct x
           end;
      solve [intros [=] | apply IH].
Qed.

Lemma ref_b64decode_catchable (v : pyval) : catchable (Ref.b64decode v).
Proof.
  intros e. unfold Ref.b64decode.
  destruct v; try (intros [= <-]; reflexivity).
  - destruct (forallb _ _); [apply ref_a2b_loop_catchable|].
    intros [= <-]. reflexivity.
  - apply ref_a2b_loop_catchable.
Qed.

Lemma ref_runtime_catchable : runtime_catchable (rt := Ref.runtime).
Proof.
  split; [|split].
  - exact ref_json_dumps_catchable.
  - exact ref_json_loads_catchable.
  - exact ref_b64decode_catchable.
Qed.

(** ** Registration *)

Section Registration.
Context {rt : Runtime}.
Implicit Types (app : LambdaFlask.t) (r : Route.t).

Lemma existsb_eqb_In (k : string) (ms : list string) :
  existsb (String.eqb k) ms = true <-> In k ms.
Proof.
  rewrite existsb_exists. split.
  - intros (x & Hin & Heq). apply String.eqb_eq in Heq. now subst.
  - intros Hin. exists k. split; [assumption | apply String.eqb_refl].
Qed.

Lemma bound_route r m func k :
  bound (Route.route r m func) k
  = if String.eqb k m then Some func else bound r k.
Proof.
  unfold bound, Route.route. simpl. rewrite lookup_setitem.
  now destruct (String.eqb k m).
Qed.

Lemma bound_use_middleware r m mw r' k :
  Route.use_middleware r m mw = Return r' -> bound r' k = bound r k.
Proof.
  unfold Route.use_middleware, bound.
  destruct (Py.lookup m (Route.methods r)) as [h|] eqn:Hm; [|discriminate].
  destruct mw; simpl; try discriminate.
  intros [= <-]. simpl. rewrite lookup_setitem.
  destruct (String.eqb k m) eqn:E; [|reflexivity].
  apply String.eqb_eq in E. subst. now rewrite Hm.
Qed.

Lemma bound_attach_all mws : forall r m r' outcome k,
  LambdaFlask.attach_all r m mws = (r', outcome) -> bound r' k = bound r k.
Proof.
  induction mws as [|mw mws IH]; intros r m r' outcome k; simpl.
  - now intros [= <- _].
  - destruct (Route.use_middleware r m mw) as [r1|e] eqn:E.
    + intros H. rewrite (IH _ _ _ _ _ H). eapply bound_use_middleware; eauto.
    + now intros [= <- _].
Qed.

(** After the binding loop has run through, every listed method is bound
    to [func] and every other key is bound as before. *)
Lemma bound_bind_all ms : forall r mws func r' k,
  LambdaFlask.bind_all r ms mws func = (r', Return tt) ->
  bound r' k = if existsb (String.eqb k) ms then Some func else bound r k.
Proof.
  induction ms as [|m ms IH]; intros r mws func r' k; simpl.
  - now intros [= <-].
  - destruct (LambdaFlask.attach_all (Route.route r m func) m mws)
      as [r1 [u|e]] eqn:E; [|discriminate].
    intros H. rewrite (IH _ _ _ _ _ H).
    rewrite (bound_attach_all _ _ _ _ _ k E), bound_route.
    destruct (String.eqb k m); simpl; [|reflexivity].
    now destruct (existsb (String.eqb k) ms).
Qed.

Lemma nth_assign_nth {A} (xs : list A) : forall l x d,
  l < List.length xs -> nth l (LambdaFlask.assign_nth l x xs) d = x.
Proof.
  induction xs as [|y xs IH]; intros l x d Hl; destruct l; simpl in *;
    try lia; [reflexivity|]. apply IH. lia.
Qed.

Lemma length_assign_nth {A} (xs : list A) : forall l x,
  List.length (LambdaFlask.assign_nth l x xs) = List.length xs.
Proof.
  induction xs as [|y xs IH]; intros l x; destruct l; simpl; auto.
Qed.

(** [route] on a known path returns the stored address and changes
    nothing. *)
Lemma route_known app path http_methods l :
  Py.lookup path (LambdaFlask.routes app) = Some l ->
  LambdaFlask.route app path http_methods = (app, l).
Proof. intros H. unfold LambdaFlask.route. now rewrite H. Qed.

(** What [route] leaves behind: the path is bound to the address it
    returns, the address is allocated, and the table stays well-formed. *)
Lemma route_post app path http_methods app' l :
  LambdaFlask.wf app ->
  LambdaFlask.route app path http_methods = (app', l) ->
  Py.lookup path (LambdaFlask.routes app') = Some l
  /\ l < List.length (LambdaFlask.heap app')
  /\ LambdaFlask.wf app'
  /\ (Py.lookup path (LambdaFlask.routes app) = None ->
      LambdaFlask.deref app' l = Route.init path http_methods).
Proof.
  intros Hwf. unfold LambdaFlask.route.
  destruct (Py.lookup path (LambdaFlask.routes app)) as [l0|] eqn:E.
  - intros [= <- <-]. repeat split; eauto. discriminate.
  - intros [= <- <-]. simpl. repeat split.
    + apply lookup_setitem_eq.
    + rewrite length_app. simpl. lia.
    + intros p l'. simpl. rewrite lookup_setitem, length_app. simpl.
      destruct (String.eqb p path).
      * intros [= <-]. lia.
      * intros H. apply Hwf in H. lia.
    + intros _. unfold LambdaFlask.deref. simpl.
      rewrite app_nth2 by lia. now rewrite Nat.sub_diag.
Qed.

Lemma wf_init source a b c app :
  LambdaFlask.init source a b c = Return app -> LambdaFlask.wf app.
Proof.
  unfold LambdaFlask.init. destruct (negb _); [discriminate|].
  intros [= <-] p l. discriminate.
Qed.

(** One registration through [route_decorator] that runs through. *)
Lemma route_decorator_post app path ms mws func app' :
  LambdaFlask.wf app ->
  LambdaFlask.route_decorator path (Some ms) mws func app = (app', Return tt) ->
  let l := snd (LambdaFlask.route app path (Some ms)) in
  let before := fst (LambdaFlask.route app path (Some ms)) in
  LambdaFlask.routes app' = LambdaFlask.routes before
  /\ List.length (LambdaFlask.heap app') = List.length (LambdaFlask.heap before)
  /\ Py.lookup path (LambdaFlask.routes app') = Some l
  /\ LambdaFlask.wf app'
  /\ forall k,
      bound (LambdaFlask.deref app' l) k
      = if existsb (String.eqb k) ms then Some func
        else bound (LambdaFlask.deref before l) k.
Proof.
  intros Hwf. unfold LambdaFlask.route_decorator.
  destruct (LambdaFlask.route app path (Some ms)) as [app1 l] eqn:Hroute.
  destruct (route_post _ _ _ _ _ Hwf Hroute) as (Hl & Hlt & Hwf1 & _).
  destruct (LambdaFlask.bind_all (LambdaFlask.deref app1 l) ms mws func)
    as [r outcome] eqn:Hbind.
  intros [= <- ->]. simpl. repeat split.
  - apply length_assign_nth.
  - exact Hl.
  - intros p l'. simpl. rewrite length_assign_nth. apply Hwf1.
  - intros k. unfold LambdaFlask.deref at 1. simpl.
    rewrite nth_assign_nth by assumption.
    eapply bound_bind_all; eauto.
Qed.

(** C6.  Registering a path a second time, with other methods, returns
    the address of the Route object stored by the first registration and
    leaves the route table and the heap as they were: no Route is created.
    Once both registrations have bound their handlers, that one Route
    serves every method of either registration, the second registration's
    function where both name a method; and if the path was new before the
    first registration, it serves no other method. *)
Theorem reregistration_accumulates_methods :
  forall app0 path ms1 ms2 mws1 mws2 f1 f2 app1 app2,
    LambdaFlask.wf app0 ->
    LambdaFlask.route_decorator path (Some ms1) mws1 f1 app0 = (app1, Return tt) ->
    LambdaFlask.route_decorator path (Some ms2) mws2 f2 app1 = (app2, Return tt) ->
    exists l,
      snd (LambdaFlask.route app0 path (Some ms1)) = l
      /\ LambdaFlask.route app1 path (Some ms2) = (app1, l)
      /\ LambdaFlask.routes app2 = LambdaFlask.routes app1
      /\ List.length (LambdaFlask.heap app2) = List.length (LambdaFlask.heap app1)
      /\ Py.lookup path (LambdaFlask.routes app2) = Some l
      /\ (forall m, In m ms1 \/ In m ms2 ->
            exists handler,
              Py.lookup m (Route.methods (LambdaFlask.deref app2 l)) = Some handler
              /\ MethodHandler.func handler
                 = (if existsb (String.eqb m) ms2 then f2 else f1)
              /\ forall req_params s,
                  Route.handle_request (LambdaFlask.deref app2 l) (VStr m)
                                       req_params s
                  = MethodHandler.execute handler req_params s)
      /\ (Py.lookup path (LambdaFlask.routes app0) = None ->
          forall m, In m (Py.keys (Route.methods (LambdaFlask.deref app2 l))) ->
                    In m ms1 \/ In m ms2).
Proof.
  intros app0 path ms1 ms2 mws1 mws2 f1 f2 app1 app2 Hwf H1 H2.
  destruct (route_decorator_post _ _ _ _ _ _ Hwf H1)
    as (Hroutes1 & _ & Hl1 & Hwf1 & Hbound1).
  destruct (route_decorator_post _ _ _ _ _ _ Hwf1 H2)
    as (Hroutes2 & Hlen2 & Hl2 & _ & Hbound2).
  set (l := snd (LambdaFlask.route app0 path (Some ms1))) in *.
  rewrite (route_known _ _ (Some ms2) _ Hl1) in Hroutes2, Hlen2, Hl2, Hbound2.
  cbn [fst snd] in *.
  exists l. repeat split; try assumption.
  - now apply route_known.
  - intros m Hm.
    assert (Hb : bound (LambdaFlask.deref app2 l) m
                 = Some (if existsb (String.eqb m) ms2 then f2 else f1)).
    { rewrite Hbound2. destruct (existsb (String.eqb m) ms2) eqn:E2;
        [reflexivity|].
      rewrite Hbound1.
      destruct (existsb (String.eqb m) ms1) eqn:E1; [reflexivity|].
      exfalso. destruct Hm as [Hm|Hm]; apply existsb_eqb_In in Hm; congruence. }
    unfold bound in Hb.
    destruct (Py.lookup m (Route.methods (LambdaFlask.deref app2 l)))
      as [handler|] eqn:Hlook; [|discriminate].
    exists handler. injection Hb as Hb. repeat split; [assumption|].
    intros req_params s.
    unfold Route.handle_request, bind, lift, Py.find. cbn [Py.hashable].
    now rewrite Hlook.
  - intros Hnew m Hin.
    apply in_keys_lookup in Hin. destruct Hin as [handler Hlook].
    assert (Hb : bound (LambdaFlask.deref app2 l) m <> None)
      by (unfold bound; now rewrite Hlook).
    rewrite Hbound2 in Hb.
    destruct (existsb (String.eqb m) ms2) eqn:E2;
      [right; now apply existsb_eqb_In|].
    rewrite Hbound1 in Hb.
    destruct (existsb (String.eqb m) ms1) eqn:E1;
      [left; now apply existsb_eqb_In|].
    exfalso. apply Hb.
    destruct (LambdaFlask.route app0 path (Some ms1)) as [before l'] eqn:Hroute.
    destruct (route_post _ _ _ _ _ Hwf Hroute) as (_ & _ & _ & Hinit).
    subst l. cbn [fst snd]. now rewrite (Hinit Hnew).
Qed.

End Registration.

(** ** The properties at work on the example configuration *)

Section Examples.
Import Example.

#[local] Existing Instance Ref.runtime.

(** [configure] runs through for both source variants: the example
    configurations hold the nine routes, and differ in the source variant. *)
Lemma configured :
  LambdaFlask.routes direct
  = [("/hello", 0); ("/admin", 1); ("/hi", 2); ("/bare", 3); ("/status", 4);
     ("/boom", 5); ("/quit", 6); ("/binary", 7); ("/blob", 8)]
  /\ LambdaFlask.routes gateway = LambdaFlask.routes direct
  /\ LambdaFlask.isApiGatewayEvent direct = false
  /\ LambdaFlask.isApiGatewayEvent gateway = true.
Proof. repeat split. Qed.

(** Direct invocation, POST /admin: [tag] passes, [deny] answers, the
    second [tag] and the handler are never called.  And GET /vault: the
    one middleware answers with a tagged [Response] whose body [json.dumps]
    refuses; it is called once, the handler is not, and the answer is the
    500 envelope. *)
Lemma short_circuit_on_admin :
  LambdaFlask.process_request direct (function_url_event "/admin" "POST" []) start
  = (after 2 [CallMiddleware 0 headers_only; CallMiddleware 1 tagged],
     Return (Response.envelope (VInt 401)
                               (VDict [("error", VStr "unauthorized")])))
  /\ LambdaFlask.process_request vault (function_url_event "/vault" "GET" []) start
     = (after 1 [CallMiddleware 0 headers_only],
        Return (Response.envelope (VInt 500)
                  (VDict [("error", VStr not_serializable)]))).
Proof.
  split.
  - refine (proj1 (proj1 (proj2 (proj2 (proj2 (proj2
              (short_circuit_is_terminal (rt := Ref.runtime)
                 direct _
                 (RequestInfo.mk (VStr "/admin") (VStr "POST") headers_only VNone)
                 1 (MethodHandler.mk echo [tag; deny; tag])
                 [tag] deny [tag] [tagged] 1 2 unauthorized start
                 _ _ _ _ _ _))))) _ _)); reflexivity.
  - refine (proj2 (proj2 (proj2 (proj2 (proj2
              (short_circuit_is_terminal (rt := Ref.runtime)
                 vault _
                 (RequestInfo.mk (VStr "/vault") (VStr "GET") headers_only VNone)
                 0 (MethodHandler.mk echo [deny_tagged_blob])
                 [] deny_tagged_blob [] [] 0 1 tagged_blob start
                 _ _ _ _ _ _)))))
              (Py.TypeError not_serializable) _); reflexivity.
Defined.

(** Gateway-proxy, GET /admin: the envelope's body is the JSON text of
    the [Response]'s body, a string, and not that body, a mapping.  And
    GET /blob: the middleware's [Response] carries a [bytes] body, which
    [json.dumps] refuses, so that no envelope is returned at all.  And,
    under direct invocation, GET /vault: the middleware's [Response] has
    status code 403, a [bytes] body and the gateway-proxy tag; [json.dumps]
    raises inside the [try] statement and the envelope carries status code
    500 and the error's message, neither of them the [Response]'s. *)
Lemma gateway_serialises_short_circuit_body :
  LambdaFlask.process_request gateway (gateway_event "/admin" "GET" []) start
  = (after 2 [CallMiddleware 0 headers_only; CallMiddleware 1 tagged],
     Return (Response.envelope (VInt 401) (VStr (error_text "unauthorized"))))
  /\ Response.body unauthorized = VDict [("error", VStr "unauthorized")]
  /\ VStr (error_text "unauthorized") <> Response.body unauthorized
  /\ LambdaFlask.process_request gateway (gateway_event "/blob" "GET" []) start
     = (after 1 [CallMiddleware 0 headers_only],
        Raise (Py.TypeError "Object of type bytes is not JSON serializable"))
  /\ LambdaFlask.process_request vault (function_url_event "/vault" "GET" []) start
     = (after 1 [CallMiddleware 0 headers_only],
        Return (Response.envelope (VInt 500)
                  (VDict [("error", VStr not_serializable)])))
  /\ Response.statusCode tagged_blob = VInt 403
  /\ VInt 500 <> Response.statusCode tagged_blob.
Proof.
  split; [reflexivity|]. split; [reflexivity|]. split; [discriminate|].
  split; [reflexivity|]. split; [reflexivity|]. split; [reflexivity|].
  discriminate.
Qed.

(** GET /boom: the handler raises [ValueError("boom")] after [tag] ran,
    and is answered.  GET /quit: the handler raises [SystemExit], which
    leaves [process_request]. *)
Lemma boom_is_answered_with_500 :
  LambdaFlask.process_request direct (function_url_event "/boom" "GET" []) start
  = (after 2 [CallMiddleware 0 headers_only; CallHandler tagged],
     Return (Response.envelope (VInt 500) (VDict [("error", VStr "boom")])))
  /\ LambdaFlask.process_request direct (function_url_event "/quit" "GET" []) start
     = (after 1 [CallHandler headers_only],
        Raise (MkExn "SystemExit" "1" false)).
Proof.
  split.
  - refine (proj1 (proj1 (exception_is_caught_once (rt := Ref.runtime)
                            direct _ start _ (MkExn "ValueError" "boom" true) _)
                         _ _ _)); reflexivity.
  - refine (proj1 (proj2 (exception_is_caught_once (rt := Ref.runtime)
                            direct _ start _ (MkExn "SystemExit" "1" false) _))
                  _); reflexivity.
Defined.

(** GET /quit: the handler raises [SystemExit], which does not derive from
    [Exception]; it leaves [process_request] uncaught.  And under
    gateway-proxy the body answering GET /boom is the JSON text of the error
    mapping, a string, not that mapping. *)
Lemma exit_propagates_and_gateway_error_is_text :
  LambdaFlask.process_request direct (function_url_event "/quit" "GET" []) start
  = (after 1 [CallHandler headers_only],
     Raise (MkExn "SystemExit" "1" false))
  /\ LambdaFlask.process_request gateway (gateway_event "/boom" "GET" []) start
     = (after 2 [CallMiddleware 0 headers_only; CallHandler tagged],
        Return (Response.envelope (VInt 500) (VStr (error_text "boom"))))
  /\ VStr (error_text "boom") <> VDict [("error", VStr "boom")].
Proof. split; [reflexivity | split; [reflexivity | discriminate]]. Qed.

(** A path nobody registered, under gateway-proxy. *)
Lemma envelope_for_unknown_path :
  LambdaFlask.process_request gateway (gateway_event "/nope" "GET" []) start
  = (start, Return (Response.envelope (VInt 404) (VStr "Route Not Found"))).
Proof.
  refine (process_request_returns_envelope (rt := Ref.runtime)
            gateway _ start start
            (Return (Response.envelope (VInt 404) (VStr "Route Not Found")))
            _ _ _ _); reflexivity.
Defined.

(** GET /hi: the handler returns the string [hi]; the [return] statement
    calls [get] on it and the [AttributeError] leaves [process_request].
    And under gateway-proxy, GET /binary: the handler's mapping carries a
    [bytes] body, which [json.dumps] refuses in the [return] statement. *)
Lemma string_result_raises :
  LambdaFlask.process_request direct (function_url_event "/hi" "GET" []) start
  = (after 1 [CallHandler headers_only],
     Raise (Py.AttributeError "'str' object has no attribute 'get'"))
  /\ LambdaFlask.process_request gateway (gateway_event "/binary" "GET" []) start
     = (after 1 [CallHandler headers_only],
        Raise (Py.TypeError "Object of type bytes is not JSON serializable")).
Proof. split; reflexivity. Qed.

(** A response that has a status code and no body. *)
Lemma default_body_is_empty_mapping :
  LambdaFlask.final_envelope direct (VDict [("statusCode", VInt 200)])
  = Return (Response.envelope (VInt 200) (VDict [])).
Proof.
  refine (proj1 (final_envelope_defaults (rt := Ref.runtime)
                   direct [("statusCode", VInt 200)] _ _)); reflexivity.
Defined.

(** GET /status: the handler's mapping has no body; the envelope's body
    is the empty mapping, which is no string at all. *)
Lemma missing_body_is_not_a_message :
  LambdaFlask.process_request direct (function_url_event "/status" "GET" []) start
  = (after 1 [CallHandler headers_only],
     Return (Response.envelope (VInt 200) (VDict [])))
  /\ Py.is_str (VDict []) = false.
Proof. split; reflexivity. Qed.

(** Query [a=1&b=q] with the body [body_text]. *)
Lemma merge_of_query_and_body :
  exists params,
    utills.process_event (rt := Ref.runtime) (VDict merge_event) "function_url"
    = Return (RequestInfo.mk (VStr "/hello") (VStr "GET") (VDict params) VNone)
    /\ forall k,
        Py.lookup k params
        = if String.eqb k "headers"
          then Some (Py.get_or merge_event "headers" (VDict []))
          else match Py.lookup k [("b", VInt 2); ("c", VBool true)] with
               | Some v => Some v
               | None => Py.lookup k query
               end.
Proof.
  apply (function_url_params_merge (rt := Ref.runtime) merge_event
           [("http", VDict [("path", VStr "/hello"); ("method", VStr "GET")])]
           [("path", VStr "/hello"); ("method", VStr "GET")]
           query [("b", VInt 2); ("c", VBool true)]
           (VStr "/hello") (VStr "GET") body_text);
    try reflexivity; try discriminate;
    repeat constructor; simpl; intuition discriminate.
Defined.

(** The params of that request are not the union of query and body: they
    have the entry [headers], which neither has. *)
Lemma params_gain_a_headers_entry :
  utills.process_event (rt := Ref.runtime) (VDict merge_event) "function_url"
  = Return (RequestInfo.mk (VStr "/hello") (VStr "GET")
              (VDict [("a", VStr "1"); ("b", VInt 2); ("c", VBool true);
                      ("headers", host)])
              VNone)
  /\ Py.update (Py.update [] query) [("b", VInt 2); ("c", VBool true)]
     = [("a", VStr "1"); ("b", VInt 2); ("c", VBool true)]
  /\ Py.lookup "headers" [("a", VStr "1"); ("b", VInt 2); ("c", VBool true);
                          ("headers", host)] = Some host
  /\ Py.lookup "headers" [("a", VStr "1"); ("b", VInt 2); ("c", VBool true)]
     = None.
Proof. repeat split; reflexivity. Qed.

(** [/item] registered for GET and then for POST and PUT. *)
Lemma item_registered_twice :
  exists l,
    snd (LambdaFlask.route unconfigured "/item" (Some ["GET"])) = l
    /\ LambdaFlask.route registered_once "/item" (Some ["POST"; "PUT"])
       = (registered_once, l)
    /\ LambdaFlask.routes registered_twice = LambdaFlask.routes registered_once
    /\ List.length (LambdaFlask.heap registered_twice)
       = List.length (LambdaFlask.heap registered_once)
    /\ Py.lookup "/item" (LambdaFlask.routes registered_twice) = Some l
    /\ (forall m, In m ["GET"] \/ In m ["POST"; "PUT"] ->
          exists handler,
            Py.lookup m (Route.methods (LambdaFlask.deref registered_twice l))
            = Some handler
            /\ MethodHandler.func handler
               = (if existsb (String.eqb m) ["POST"; "PUT"] then bare else echo)
            /\ forall req_params s,
                Route.handle_request (LambdaFlask.deref registered_twice l)
                                     (VStr m) req_params s
                = MethodHandler.execute handler req_params s)
    /\ (Py.lookup "/item" (LambdaFlask.routes unconfigured) = None ->
        forall m,
          In m (Py.keys (Route.methods (LambdaFlask.deref registered_twice l))) ->
          In m ["GET"] \/ In m ["POST"; "PUT"]).
Proof.
  apply (reregistration_accumulates_methods (rt := Ref.runtime)
           unconfigured "/item" ["GET"] ["POST"; "PUT"]
           [MethodHandler.IsMiddleware tag] [] echo bare
           registered_once registered_twice);
    [intros p l; simpl; discriminate | reflexivity | reflexivity].
Defined.

(** Direct invocation of a path nobody registered. *)
Lemma nope_is_404 :
  LambdaFlask.process_request direct (function_url_event "/nope" "GET" []) start
  = (start, Return (Response.envelope (VInt 404) (VStr "Route Not Found"))).
Proof.
  refine (unknown_path_is_404 (rt := Ref.runtime) direct _
            (RequestInfo.mk (VStr "/nope") (VStr "GET") headers_only VNone)
            start _ _); reflexivity.
Defined.

(** [/hello] has a handler under GET; a request with method [get] is not
    served by it. *)
Lemma lowercase_get_is_405 :
  LambdaFlask.process_request direct (function_url_event "/hello" "get" []) start
  = (start, Return (Response.envelope (VInt 405) (VStr "Method Not Allowed"))).
Proof.
  refine (proj2 (method_match_is_exact (rt := Ref.runtime) direct _
                   (RequestInfo.mk (VStr "/hello") (VStr "get") headers_only VNone)
                   0 "get" start _ _ _) _);
    [reflexivity | reflexivity | reflexivity | ].
  vm_compute. intros [H|[]]. discriminate H.
Defined.

Lemma case_variant_is_not_served :
  Py.keys (Route.methods (LambdaFlask.deref direct 0)) = ["GET"]
  /\ LambdaFlask.process_request direct
       (function_url_event "/hello" "get" []) start
     = (start, Return (Response.envelope (VInt 405) (VStr "Method Not Allowed"))).
Proof. split; reflexivity. Qed.

(** Direct invocation, GET /bare: the handler's mapping has neither key. *)
Lemma bare_mapping_is_discarded :
  LambdaFlask.process_request direct (function_url_event "/bare" "GET" []) start
  = (after 1 [CallHandler headers_only],
     Return (Response.envelope (VInt 500) (VDict []))).
Proof.
  refine (proj1 (handler_mapping_is_re_enveloped (rt := Ref.runtime)
                   direct _
                   (RequestInfo.mk (VStr "/bare") (VStr "GET") headers_only VNone)
                   3 (MethodHandler.mk bare []) [] 0 1
                   [("data", VInt 1)] _ start _ _ _ _ _ _)); reflexivity.
Defined.

(** Gateway-proxy, GET /bare: the body is the two-character string that
    serialises the empty mapping, not the empty mapping.  And GET /binary:
    the handler's mapping carries a [bytes] body, which [json.dumps]
    refuses, so that no envelope is built. *)
Lemma gateway_bare_body_is_a_string :
  LambdaFlask.process_request gateway (gateway_event "/bare" "GET" []) start
  = (after 1 [CallHandler headers_only],
     Return (Response.envelope (VInt 500) (VStr "{}")))
  /\ Response.envelope (VInt 500) (VStr "{}")
     <> Response.envelope (VInt 500) (VDict [])
  /\ LambdaFlask.process_request gateway (gateway_event "/binary" "GET" []) start
     = (after 1 [CallHandler headers_only],
        Raise (Py.TypeError "Object of type bytes is not JSON serializable")).
Proof. split; [reflexivity | split; [discriminate | reflexivity]]. Qed.

(** [draft] lists GET and DELETE and binds PATCH: PATCH is served and
    DELETE is not. *)
Lemma draft_serves_what_is_bound :
  Route.handle_request draft (VStr "PATCH") headers_only start
  = MethodHandler.execute (MethodHandler.init echo) headers_only start
  /\ Route.handle_request draft (VStr "DELETE") headers_only start
     = (start, Return (Response.envelope (VInt 405) (VStr "Method Not Allowed"))).
Proof.
  destruct (http_methods_never_gate_dispatch (rt := Ref.runtime)
              draft [] headers_only start) as (_ & Hbound & Hunbound).
  split.
  - apply Hbound; [|reflexivity].
    vm_compute. intros [H|[H|[]]]; discriminate H.
  - apply Hunbound; [|reflexivity].
    vm_compute. tauto.
Defined.

End Examples.

(** * Further properties *)

(** ** Normalisation: bodies, defaults and failures *)

Section FurtherNormalisation.
Context {rt : Runtime}.

Lemma rbind_Return_inv {A B} (r : result A) (k : A -> result B) (b : B) :
  rbind r k = Return b -> exists a, r = Return a /\ k a = Return b.
Proof. destruct r as [a|e]; simpl; [eauto | discriminate]. Qed.

(** X1.  A body marked base64 is decoded and wrapped: with a non-empty body,
    a true [isBase64Encoded] and a successful [b64decode], the params are
    the query-string parameters overridden by the two entries [base64]
    (true) and [file] (the decoded bytes), plus [headers]; [json.loads]
    plays no part. *)
Theorem base64_body_is_wrapped :
  forall (q : dict) (body headers flag : pyval) (file : list byte),
    Py.truthy body = true ->
    Py.truthy flag = true ->
    b64decode body = Return file ->
    NoDup (Py.keys q) ->
    exists params,
      RequestInfo._aggregate_params (VDict q) body headers flag
      = Return (VDict params)
      /\ forall k,
          Py.lookup k params
          = if String.eqb k "headers" then Some headers
            else if String.eqb k "base64" then Some (VBool true)
            else if String.eqb k "file" then Some (VBytes file)
            else Py.lookup k q.
Proof.
  intros q body headers flag file Hbody Hflag Hdecode Hnd.
  eexists. split.
  - unfold RequestInfo._aggregate_params.
    rewrite Hbody, Hflag. simpl. rewrite Hdecode. simpl. reflexivity.
  - intros k. rewrite !lookup_setitem.
    destruct (String.eqb k "headers"); [reflexivity|].
    destruct (String.eqb k "file") eqn:Efile.
    + apply String.eqb_eq in Efile. subst k. reflexivity.
    + destruct (String.eqb k "base64"); [reflexivity|].
      rewrite lookup_update by assumption. simpl.
      now destruct (Py.lookup k q).
Qed.

(** X2.  Under gateway-proxy a missing, null or empty query string and a
    missing, null or empty body are both replaced by the empty mapping: the
    event normalises without error, whatever [isBase64Encoded] says, to
    params that hold the [headers] entry only, and the identity is the
    [identity] entry of the request context (the empty mapping when either
    is missing). *)
Theorem gateway_null_query_and_body :
  forall (e rc : dict) (path method : pyval),
    Py.lookup "path" e = Some path ->
    Py.lookup "httpMethod" e = Some method ->
    Py.truthy (Py.get_or e "queryStringParameters" VNone) = false ->
    Py.truthy (Py.get_or e "body" VNone) = false ->
    Py.get_or e "requestContext" (VDict []) = VDict rc ->
    utills.process_event (VDict e) "api_gateway_proxy"
    = Return (RequestInfo.mk path method
                (VDict [("headers", Py.get_or e "headers" (VDict []))])
                (Py.get_or rc "identity" (VDict []))).
Proof.
  intros e rc path method Hpath Hmethod Hq Hbody Hrc.
  unfold utills.process_event, utills._process_api_url_event. simpl.
  rewrite Hpath, Hmethod. simpl. rewrite Hq, Hbody. simpl.
  rewrite Hrc. simpl. reflexivity.
Qed.

(** X3.  What is merged into the params must be a mapping.  A body that is
    empty without being a mapping (the empty string, [None], 0) reaches the
    merge as it is, and a body that parses to JSON other than an object
    reaches it as the parsed value; either way the merge raises the
    [TypeError] that names the value's type. *)
Theorem body_must_be_a_mapping :
  forall (q : dict) (body headers flag : pyval),
    (Py.truthy body = false -> Py.is_dict body = false ->
     RequestInfo._aggregate_params (VDict q) body headers flag
     = Raise (not_a_mapping body))
    /\ (forall v,
          Py.truthy body = true -> Py.truthy flag = false ->
          json_loads body = Return v -> Py.is_dict v = false ->
          RequestInfo._aggregate_params (VDict q) body headers flag
          = Raise (not_a_mapping v)).
Proof.
  intros q body headers flag. split.
  - intros Hfalsy Hdict. unfold RequestInfo._aggregate_params.
    rewrite Hfalsy. simpl. destruct body; try reflexivity. discriminate.
  - intros v Htruthy Hflag Hjson Hdict. unfold RequestInfo._aggregate_params.
    rewrite Htruthy, Hflag. simpl. rewrite Hjson. simpl.
    destruct v; try reflexivity. discriminate.
Qed.

Lemma aggregate_params_carries_headers q body headers flag v :
  RequestInfo._aggregate_params q body headers flag = Return v ->
  exists d, v = VDict d /\ Py.lookup "headers" d = Some headers.
Proof.
  unfold RequestInfo._aggregate_params. intros H.
  apply rbind_Return_inv in H. destruct H as (body' & _ & H).
  apply rbind_Return_inv in H. destruct H as (q' & _ & H).
  apply rbind_Return_inv in H. destruct H as (b' & _ & H).
  injection H as <-. eexists. split; [reflexivity | apply lookup_setitem_eq].
Qed.

(** X4.  Whenever normalisation succeeds, under either source variant, the
    event was a mapping and the params are a mapping whose [headers] entry
    is the event's [headers] (the empty mapping when the event has none):
    a query or body field called [headers] never survives. *)
Theorem params_always_carry_headers :
  forall (event : pyval) (type : string) (req_info : RequestInfo.t),
    utills.process_event event type = Return req_info ->
    exists e d,
      event = VDict e
      /\ RequestInfo.params req_info = VDict d
      /\ Py.lookup "headers" d = Some (Py.get_or e "headers" (VDict [])).
Proof.
  intros event type req_info. unfold utills.process_event.
  assert (Hinit : forall e path method q body flag identity,
    RequestInfo.init path method q body (Py.get_or e "headers" (VDict []))
                     flag true identity = Return req_info ->
    exists d, RequestInfo.params req_info = VDict d
              /\ Py.lookup "headers" d = Some (Py.get_or e "headers" (VDict []))).
  { intros e path method q body flag identity H. unfold RequestInfo.init in H.
    apply rbind_Return_inv in H. destruct H as (v & Hagg & H).
    injection H as <-. simpl.
    now apply aggregate_params_carries_headers in Hagg. }
  destruct (String.eqb type "function_url").
  - unfold utills._process_function_url_event. intros H.
    destruct event; try discriminate. exists d.
    do 5 (apply rbind_Return_inv in H; destruct H as (? & _ & H)).
    apply rbind_Return_inv in H. destruct H as (headers & Hheaders & H).
    injection Hheaders as <-.
    destruct (Hinit _ _ _ _ _ _ _ H) as (d' & ? & ?). eauto.
  - destruct (String.eqb type "api_gateway_proxy"); [|discriminate].
    unfold utills._process_api_url_event. intros H.
    destruct event; try discriminate. exists d.
    do 5 (apply rbind_Return_inv in H; destruct H as (? & _ & H)).
    apply rbind_Return_inv in H. destruct H as (headers & Hheaders & H).
    injection Hheaders as <-.
    apply rbind_Return_inv in H. destruct H as (? & _ & H).
    destruct (Hinit _ _ _ _ _ _ _ H) as (d' & ? & ?). eauto.
Qed.

End FurtherNormalisation.

(** ** Dispatch: failures before routing, logging, encoding *)

Section FurtherDispatch.
Context {rt : Runtime}.
Implicit Types (app : LambdaFlask.t) (event : pyval) (s : machine).

Lemma error_is_answered app event s e body' :
  LambdaFlask.try_body app event s = (s, Raise e) ->
  exn_is_Exception e = true ->
  emitted_body (LambdaFlask.isApiGatewayEvent app) (error_body (exn_str e))
  = Return body' ->
  LambdaFlask.process_request app event s
  = (s, Return (Response.envelope (VInt 500) body')).
Proof.
  intros Htry Hexn Hbody.
  rewrite (process_request_after_try _ _ _ _ _ Htry). f_equal.
  rewrite Hexn. unfold LambdaFlask.server_error. rewrite json_init.
  unfold error_body in Hbody. rewrite Hbody.
  cbn [rbind]. rewrite final_envelope_envelope.
  now rewrite (emitted_body_idempotent _ _ _ Hbody).
Qed.

(** X5.  An event that cannot be normalised never reaches user code: when
    [process_event] raises (a missing routing key, an event that is not a
    mapping, a body that is not valid JSON, ...), the answer is the 500
    envelope carrying the error's message, and the world and the record of
    calls are as before the request. *)
Theorem malformed_event_is_500_without_calls :
  forall app event s e body',
    utills.process_event event (LambdaFlask.source app) = Raise e ->
    exn_is_Exception e = true ->
    emitted_body (LambdaFlask.isApiGatewayEvent app) (error_body (exn_str e))
    = Return body' ->
    LambdaFlask.process_request app event s
    = (s, Return (Response.envelope (VInt 500) body')).
Proof.
  intros app event s e body' Hev Hexn Hbody.
  apply (error_is_answered _ _ _ e); try assumption.
  now apply normalisation_raise.
Qed.

(** X6.  A path or a method that cannot be hashed (a list or a mapping in
    the event where a string belongs) makes the table lookup raise
    [TypeError]; the request is answered 500 with the message naming the
    type, and no user code runs. *)
Theorem unhashable_path_or_method_is_500 :
  forall app event req_info s culprit body',
    utills.process_event event (LambdaFlask.source app) = Return req_info ->
    Py.hashable culprit = false ->
    culprit = RequestInfo.route req_info
    \/ (culprit = RequestInfo.method req_info
        /\ exists l, Py.find (RequestInfo.route req_info) (LambdaFlask.routes app)
                     = Return (Some l)) ->
    emitted_body (LambdaFlask.isApiGatewayEvent app)
                 (error_body (exn_str (Py.unhashable culprit)))
    = Return body' ->
    LambdaFlask.process_request app event s
    = (s, Return (Response.envelope (VInt 500) body')).
Proof.
  intros app event req_info s culprit body' Hev Hhash Hwhere Hbody.
  apply (error_is_answered _ _ _ (Py.unhashable culprit));
    [|reflexivity|assumption].
  unfold LambdaFlask.try_body, Route.handle_request, bind, lift.
  rewrite Hev. destruct Hwhere as [->|[-> [l Hroute]]].
  - unfold Py.find. now rewrite Hhash.
  - rewrite Hroute. unfold Py.find. now rewrite Hhash.
Qed.

(** X7.  Logging is transparent: whatever the three logging settings
    (request logging, response logging, the logger's level), a request gets
    the same result and leaves the same machine; in particular, a response
    that cannot be logged fails in the same way without logging. *)
Theorem logging_never_changes_the_answer :
  forall app (request_logging response_logging logger_INFO : bool) event s,
    LambdaFlask.process_request
      (with_logging app request_logging response_logging logger_INFO) event s
    = LambdaFlask.process_request app event s.
Proof.
  intros app a b c event s.
  destruct (LambdaFlask.try_body app event s) as [s1 outcome] eqn:Htry.
  rewrite (process_request_after_try _ _ _ _ _ Htry).
  assert (Htry' : LambdaFlask.try_body (with_logging app a b c) event s
                  = (s1, outcome)) by exact Htry.
  rewrite (process_request_after_try _ _ _ _ _ Htry'). reflexivity.
Qed.

(** X8.  Every request is a single pass over the chain, whatever its
    outcome (an envelope or an exception): the calls it adds to the record
    are middlewares 0, 1, 2, ... in this order, each at most once, followed
    by at most one call of the handler; the [except] clause and the final
    encoding call no user code. *)
Theorem every_request_is_a_single_pass :
  forall app event s,
    exists calls,
      trace (fst (LambdaFlask.process_request app event s)) = trace s ++ calls
      /\ single_pass 0 calls = true.
Proof.
  intros app event s.
  destruct (LambdaFlask.try_body app event s) as [s1 outcome] eqn:Htry.
  rewrite (process_request_after_try _ _ _ _ _ Htry). cbn [fst].
  eapply try_body_single_pass; eauto.
Qed.

(** X9.  [execute] threads the params through the whole chain: when every
    middleware returns something that is not a [Response], each is called
    once, in order, on what the previous one returned, the handler function
    is then called once on what the last one returned, and the result of
    [execute] is whatever the handler did (a value or an exception). *)
Theorem execute_threads_params_to_handler :
  forall (handler : MethodHandler.t) (req_params : pyval) s ps w1 w2 outcome,
    thread (MethodHandler.middlewares handler) req_params (world s) = Some (ps, w1) ->
    MethodHandler.func handler (last ps req_params) w1 = (w2, outcome) ->
    MethodHandler.execute handler req_params s
    = (MkMachine w2
         (trace s ++ calls_from 0 (removelast (req_params :: ps))
            ++ [CallHandler (last ps req_params)]),
       outcome).
Proof.
  intros handler req_params [w tr] ps w1 w2 outcome Hthread Hfunc.
  exact (run_complete _ _ _ _ _ _ _ _ _ _ Hthread Hfunc).
Qed.

(** X10.  [execute] catches nothing: when the k-th middleware raises, the
    middlewares after it and the handler function are not called, and the
    exception leaves [execute] as it is. *)
Theorem execute_stops_at_raising_middleware :
  forall (handler : MethodHandler.t) before mk after req_params s ps w1 w2 e,
    MethodHandler.middlewares handler = before ++ mk :: after ->
    thread before req_params (world s) = Some (ps, w1) ->
    mk (last ps req_params) w1 = (w2, Raise e) ->
    MethodHandler.execute handler req_params s
    = (MkMachine w2 (trace s ++ calls_from 0 (req_params :: ps)), Raise e)
    /\ List.length (calls_from 0 (req_params :: ps)) = S (List.length before).
Proof.
  intros handler before mk after req_params [w tr] ps w1 w2 e
         Hchain Hthread Hmk. split.
  - unfold MethodHandler.execute. rewrite Hchain.
    exact (run_middleware_raise _ _ _ _ _ _ _ _ _ _ _ _ Hthread Hmk).
  - rewrite length_calls_from. simpl. f_equal.
    eapply thread_length; eauto.
Qed.

Lemma emitted_gateway_body_is_str body b :
  emitted_body true body = Return b -> exists text, b = VStr text.
Proof.
  unfold emitted_body. destruct body; simpl;
    try (destruct (json_dumps _); simpl; [intros [= <-]; eauto | discriminate]).
  intros [= <-]. eauto.
Qed.

Lemma final_envelope_Return_inv app response v :
  LambdaFlask.final_envelope app response = Return v ->
  exists d b,
    response = VDict d
    /\ emitted_body (LambdaFlask.isApiGatewayEvent app)
                    (Py.get_or d "body" (VDict [])) = Return b
    /\ v = Response.envelope (Py.get_or d "statusCode" (VInt 500)) b.
Proof.
  destruct response; try discriminate.
  rewrite final_envelope_dict. intros H.
  apply rbind_Return_inv in H. destruct H as (b & Hb & [= <-]). eauto.
Qed.

(** X11.  Under gateway-proxy, whatever [process_request] returns has a
    string as its body: the body a handler, a middleware or an error path
    supplied is passed on if it is a string and replaced by its
    [json.dumps] text otherwise. *)
Theorem gateway_body_is_always_a_string :
  forall app event s s1 v,
    LambdaFlask.isApiGatewayEvent app = true ->
    LambdaFlask.process_request app event s = (s1, Return v) ->
    exists statusCode text, v = Response.envelope statusCode (VStr text).
Proof.
  intros app event s s1 v Hgateway.
  destruct (LambdaFlask.try_body app event s) as [s' outcome] eqn:Htry.
  rewrite (process_request_after_try _ _ _ _ _ Htry). intros [= _ H].
  apply rbind_Return_inv in H. destruct H as (response & _ & H).
  apply final_envelope_Return_inv in H. destruct H as (d & b & _ & Hb & ->).
  rewrite Hgateway in Hb. apply emitted_gateway_body_is_str in Hb.
  destruct Hb as [text ->]. eauto.
Qed.

(** X12.  Only [statusCode] and [body] of a response mapping reach the
    envelope: two mappings that agree on these two entries (after the
    defaults) are encoded alike, so that [headers], [isBase64Encoded] and
    any other entry a handler returns are dropped. *)
Theorem only_status_and_body_are_encoded :
  forall app (d1 d2 : dict),
    Py.get_or d1 "statusCode" (VInt 500) = Py.get_or d2 "statusCode" (VInt 500) ->
    Py.get_or d1 "body" (VDict []) = Py.get_or d2 "body" (VDict []) ->
    LambdaFlask.final_envelope app (VDict d1)
    = LambdaFlask.final_envelope app (VDict d2).
Proof.
  intros app d1 d2 Hstatus Hbody.
  rewrite !final_envelope_dict. now rewrite Hstatus, Hbody.
Qed.

(** X13.  Encoding is idempotent: what the [return] statement produced is
    left unchanged when it goes through the [return] statement again (a
    body that has become a string is not serialised a second time).  This
    is what lets [execute] hand an already encoded [Response] to
    [process_request]. *)
Theorem encoding_twice_is_encoding_once :
  forall app (response envelope : pyval),
    LambdaFlask.final_envelope app response = Return envelope ->
    LambdaFlask.final_envelope app envelope = Return envelope.
Proof.
  intros app response envelope H.
  apply final_envelope_Return_inv in H. destruct H as (d & b & _ & Hb & ->).
  rewrite final_envelope_envelope.
  now rewrite (emitted_body_idempotent _ _ _ Hb).
Qed.

End FurtherDispatch.

(** ** Registration: the constructor, invariants and partial failures *)

Section FurtherRegistration.
Context {rt : Runtime}.
Implicit Types (app : LambdaFlask.t) (r : Route.t).

Lemma init_Return_inv source a b c app :
  LambdaFlask.init source a b c = Return app ->
  In source ALLOWED_SOURCES
  /\ LambdaFlask.source app = source
  /\ LambdaFlask.routes app = []
  /\ LambdaFlask.isApiGatewayEvent app = String.eqb source "api_gateway_proxy".
Proof.
  unfold LambdaFlask.init.
  destruct (existsb (String.eqb source) ALLOWED_SOURCES) eqn:E; cbn [negb];
    [|discriminate].
  intros [= <-]. apply existsb_eqb_In in E. repeat split. exact E.
Qed.

(** X14.  The source is checked once, by the constructor: a source other
    than [function_url] and [api_gateway_proxy] is refused with
    [ValueError], and an accepted one yields a configuration without routes
    whose gateway flag is set exactly for [api_gateway_proxy]. *)
Theorem constructor_checks_the_source :
  forall (source : string) (request_logging response_logging logger_INFO : bool),
    match LambdaFlask.init source request_logging response_logging logger_INFO with
    | Raise e =>
        ~ In source ALLOWED_SOURCES /\ e = Py.ValueError "Source Not Allowed"
    | Return app =>
        In source ALLOWED_SOURCES
        /\ LambdaFlask.source app = source
        /\ LambdaFlask.routes app = []
        /\ LambdaFlask.isApiGatewayEvent app
           = String.eqb source "api_gateway_proxy"
    end.
Proof.
  intros source a b c.
  destruct (LambdaFlask.init source a b c) as [app|e] eqn:Hinit.
  - now apply init_Return_inv in Hinit.
  - unfold LambdaFlask.init in Hinit.
    destruct (existsb (String.eqb source) ALLOWED_SOURCES) eqn:E;
      cbn [negb] in Hinit; [discriminate|].
    injection Hinit as <-. split; [|reflexivity].
    intros Hin. apply existsb_eqb_In in Hin. congruence.
Qed.

Lemma nth_assign_nth_other {A} (xs : list A) : forall l l' x d,
  l <> l' -> nth l' (LambdaFlask.assign_nth l x xs) d = nth l' xs d.
Proof.
  induction xs as [|y xs IH]; intros l l' x d Hne; destruct l; simpl;
    try reflexivity.
  - destruct l'; [congruence | reflexivity].
  - destruct l'; [reflexivity|]. apply IH. congruence.
Qed.

Lemma path_use_middleware r m mw r' :
  Route.use_middleware r m mw = Return r' ->
  Route.path r' = Route.path r /\ Route.http_methods r' = Route.http_methods r.
Proof.
  unfold Route.use_middleware.
  destruct (Py.lookup m (Route.methods r)); [|discriminate].
  destruct (MethodHandler.use_middleware t mw); simpl; [|discriminate].
  intros [= <-]. now split.
Qed.

Lemma path_attach_all mws : forall r m,
  Route.path (fst (LambdaFlask.attach_all r m mws)) = Route.path r
  /\ Route.http_methods (fst (LambdaFlask.attach_all r m mws))
     = Route.http_methods r.
Proof.
  induction mws as [|mw mws IH]; intros r m; simpl; [now split|].
  destruct (Route.use_middleware r m mw) as [r1|e] eqn:E; [|now split].
  destruct (path_use_middleware _ _ _ _ E) as [<- <-]. apply IH.
Qed.

Lemma path_bind_all ms : forall r mws func,
  Route.path (fst (LambdaFlask.bind_all r ms mws func)) = Route.path r
  /\ Route.http_methods (fst (LambdaFlask.bind_all r ms mws func))
     = Route.http_methods r.
Proof.
  induction ms as [|m ms IH]; intros r mws func; simpl; [now split|].
  pose proof (path_attach_all mws (Route.route r m func) m) as Hattach.
  destruct (LambdaFlask.attach_all (Route.route r m func) m mws)
    as [r1 [u|e]]; simpl in Hattach.
  - destruct (IH r1 mws func) as [-> ->]. exact Hattach.
  - exact Hattach.
Qed.

Lemma consistent_route app path http_methods :
  consistent app -> consistent (fst (LambdaFlask.route app path http_methods)).
Proof.
  intros Hc. unfold LambdaFlask.route.
  destruct (Py.lookup path (LambdaFlask.routes app)) as [l|] eqn:E;
    [exact Hc|].
  intros p l'. unfold LambdaFlask.deref. simpl.
  rewrite lookup_setitem, length_app. simpl.
  destruct (String.eqb p path) eqn:Ep.
  - apply String.eqb_eq in Ep. subst p. intros [= <-]. split; [lia|].
    rewrite app_nth2 by lia. now rewrite Nat.sub_diag.
  - intros H. destruct (Hc _ _ H) as [Hlt Hpath]. split; [lia|].
    rewrite app_nth1 by assumption. exact Hpath.
Qed.

Lemma consistent_mutate app path l r :
  consistent app ->
  Py.lookup path (LambdaFlask.routes app) = Some l ->
  Route.path r = Route.path (LambdaFlask.deref app l) ->
  consistent (LambdaFlask.mutate app l r).
Proof.
  intros Hc Hl Hpath p l' H. simpl in H.
  destruct (Hc _ _ H) as [Hlt Hp]. unfold LambdaFlask.deref. simpl.
  rewrite length_assign_nth. split; [assumption|].
  destruct (Nat.eq_dec l l') as [<-|Hne].
  - rewrite nth_assign_nth by assumption. now rewrite Hpath.
  - rewrite nth_assign_nth_other by assumption. exact Hp.
Qed.

Lemma route_binds_path app path http_methods :
  consistent app ->
  Py.lookup path (LambdaFlask.routes (fst (LambdaFlask.route app path http_methods)))
  = Some (snd (LambdaFlask.route app path http_methods)).
Proof.
  intros Hc. unfold LambdaFlask.route.
  destruct (Py.lookup path (LambdaFlask.routes app)) as [l|] eqn:E; simpl;
    [exact E | apply lookup_setitem_eq].
Qed.

Lemma consistent_route_decorator app path http_methods mws func :
  consistent app ->
  consistent (fst (LambdaFlask.route_decorator path http_methods mws func app)).
Proof.
  intros Hc. unfold LambdaFlask.route_decorator.
  pose proof (consistent_route app path http_methods Hc) as Hc1.
  pose proof (route_binds_path app path http_methods Hc) as Hl.
  destruct (LambdaFlask.route app path http_methods) as [app1 l].
  cbn [fst snd] in *. destruct http_methods as [ms|]; [|exact Hc1].
  pose proof (path_bind_all ms (LambdaFlask.deref app1 l) mws func) as [Hp _].
  destruct (LambdaFlask.bind_all (LambdaFlask.deref app1 l) ms mws func)
    as [r outcome]. cbn [fst] in *.
  eapply consistent_mutate; eauto.
Qed.

Lemma source_route app path http_methods :
  LambdaFlask.source (fst (LambdaFlask.route app path http_methods))
  = LambdaFlask.source app
  /\ LambdaFlask.isApiGatewayEvent (fst (LambdaFlask.route app path http_methods))
     = LambdaFlask.isApiGatewayEvent app.
Proof.
  unfold LambdaFlask.route.
  now destruct (Py.lookup path (LambdaFlask.routes app)).
Qed.

Lemma source_route_decorator app path http_methods mws func :
  LambdaFlask.source (fst (LambdaFlask.route_decorator path http_methods mws func app))
  = LambdaFlask.source app
  /\ LambdaFlask.isApiGatewayEvent
       (fst (LambdaFlask.route_decorator path http_methods mws func app))
     = LambdaFlask.isApiGatewayEvent app.
Proof.
  unfold LambdaFlask.route_decorator.
  pose proof (source_route app path http_methods) as H.
  destruct (LambdaFlask.route app path http_methods) as [app1 l].
  cbn [fst] in H. destruct http_methods as [ms|]; [|exact H].
  now destruct (LambdaFlask.bind_all (LambdaFlask.deref app1 l) ms mws func).
Qed.

(** X15.  Every configuration a program can reach keeps what the
    constructor set up: the source is an allowed one and the gateway flag
    matches it, so that [process_event] always runs the normaliser of the
    configured variant and never ends in its [Invalid Type] branch; and the
    route table stays consistent (each address allocated, each Route stored
    under its own path), also after a registration that raised. *)
Theorem reachable_configurations_are_sound :
  forall app,
    built app ->
    source_ok app
    /\ consistent app
    /\ forall event,
        utills.process_event event (LambdaFlask.source app)
        = if LambdaFlask.isApiGatewayEvent app
          then utills._process_api_url_event event
          else utills._process_function_url_event event.
Proof.
  intros app Hbuilt.
  assert (H : source_ok app /\ consistent app).
  { induction Hbuilt as [source a b c app Hinit
                        | app path ms _ [Hs Hc]
                        | app path ms mws func _ [Hs Hc]
                        | app path l m func _ [Hs Hc] Hl
                        | app path l m mw r _ [Hs Hc] Hl Hattach].
    - destruct (init_Return_inv _ _ _ _ _ Hinit) as (Hin & Hsrc & Hroutes & Hflag).
      split.
      + unfold source_ok. now rewrite Hsrc.
      + intros p l. rewrite Hroutes. discriminate.
    - split; [|now apply consistent_route].
      unfold source_ok.
      destruct (source_route app path ms) as [-> ->]. exact Hs.
    - split; [|now apply consistent_route_decorator].
      unfold source_ok.
      destruct (source_route_decorator app path ms mws func) as [-> ->].
      exact Hs.
    - split; [exact Hs|]. eapply consistent_mutate; eauto.
    - split; [exact Hs|]. eapply consistent_mutate; eauto.
      now apply path_use_middleware in Hattach. }
  destruct H as [Hs Hc]. split; [exact Hs | split; [exact Hc|]].
  intros event. destruct Hs as [Hin Hflag]. rewrite Hflag.
  unfold utills.process_event.
  destruct Hin as [<-|[<-|[]]]; reflexivity.
Qed.

Lemma route_frame app path http_methods other l' :
  consistent app ->
  other <> path ->
  Py.lookup other (LambdaFlask.routes app) = Some l' ->
  Py.lookup other (LambdaFlask.routes (fst (LambdaFlask.route app path http_methods)))
  = Some l'
  /\ LambdaFlask.deref (fst (LambdaFlask.route app path http_methods)) l'
     = LambdaFlask.deref app l'
  /\ snd (LambdaFlask.route app path http_methods) <> l'.
Proof.
  intros Hc Hne Hother. destruct (Hc _ _ Hother) as [Hlt Hpath].
  unfold LambdaFlask.route.
  destruct (Py.lookup path (LambdaFlask.routes app)) as [l|] eqn:E; cbn [fst snd].
  - repeat split; try assumption.
    intros ->. destruct (Hc _ _ E) as [_ Hpath']. congruence.
  - unfold LambdaFlask.deref. simpl. repeat split.
    + now rewrite lookup_setitem_neq.
    + now rewrite app_nth1.
    + lia.
Qed.

(** X16.  Registering on one path never changes another: whatever a
    [route_decorator] call on [path] does (bind, attach, or raise half-way),
    every other path of a consistent table keeps its Route object and that
    object keeps its state. *)
Theorem registration_leaves_other_paths_alone :
  forall app path http_methods mws func other l',
    consistent app ->
    other <> path ->
    Py.lookup other (LambdaFlask.routes app) = Some l' ->
    Py.lookup other
      (LambdaFlask.routes
         (fst (LambdaFlask.route_decorator path http_methods mws func app)))
    = Some l'
    /\ LambdaFlask.deref
         (fst (LambdaFlask.route_decorator path http_methods mws func app)) l'
       = LambdaFlask.deref app l'.
Proof.
  intros app path http_methods mws func other l' Hc Hne Hother.
  destruct (route_frame app path http_methods other l' Hc Hne Hother)
    as (Hroutes & Hderef & Hl).
  unfold LambdaFlask.route_decorator.
  destruct (LambdaFlask.route app path http_methods) as [app1 l].
  cbn [fst snd] in *. destruct http_methods as [ms|]; [|now split].
  destruct (LambdaFlask.bind_all (LambdaFlask.deref app1 l) ms mws func)
    as [r outcome]. cbn [fst]. split; [exact Hroutes|].
  unfold LambdaFlask.deref in *. simpl.
  now rewrite nth_assign_nth_other.
Qed.

Lemma attach_all_valid (mws : list callable) : forall r m func chain,
  Py.lookup m (Route.methods r) = Some (MethodHandler.mk func chain) ->
  exists r',
    LambdaFlask.attach_all r m (map MethodHandler.IsMiddleware mws)
    = (r', Return tt)
    /\ Py.lookup m (Route.methods r') = Some (MethodHandler.mk func (chain ++ mws))
    /\ forall k, k <> m ->
                 Py.lookup k (Route.methods r') = Py.lookup k (Route.methods r).
Proof.
  induction mws as [|mw mws IH]; intros r m func chain Hm; simpl.
  - exists r. rewrite app_nil_r. auto.
  - unfold Route.use_middleware. rewrite Hm. simpl.
    destruct (IH (Route.mk (Route.path r) (Route.http_methods r)
                    (Py.setitem m (MethodHandler.mk func (chain ++ [mw]))
                                (Route.methods r)))
                 m func (chain ++ [mw])) as (r' & Hrun & Hm' & Hother).
    { simpl. apply lookup_setitem_eq. }
    exists r'. split; [exact Hrun|]. split.
    + rewrite Hm'. now rewrite <- app_assoc.
    + intros k Hk. rewrite (Hother k Hk). simpl. now apply lookup_setitem_neq.
Qed.

Lemma bind_all_valid (mws : list callable) ms : forall r func,
  exists r',
    LambdaFlask.bind_all r ms (map MethodHandler.IsMiddleware mws) func
    = (r', Return tt)
    /\ forall k,
        Py.lookup k (Route.methods r')
        = if existsb (String.eqb k) ms then Some (MethodHandler.mk func mws)
          else Py.lookup k (Route.methods r).
Proof.
  induction ms as [|m ms IH]; intros r func; simpl.
  - exists r. auto.
  - destruct (attach_all_valid mws (Route.route r m func) m func [])
      as (r1 & Hattach & Hm & Hother).
    { simpl. apply lookup_setitem_eq. }
    rewrite Hattach. destruct (IH r1 func) as (r' & Hbind & Hkeys).
    exists r'. split; [exact Hbind|]. intros k. rewrite Hkeys.
    destruct (String.eqb k m) eqn:E; simpl.
    + apply String.eqb_eq in E. subst k.
      destruct (existsb (String.eqb m) ms); [reflexivity | exact Hm].
    + destruct (existsb (String.eqb k) ms); [reflexivity|].
      apply String.eqb_neq in E. rewrite (Hother k E). simpl.
      now apply lookup_setitem_neq.
Qed.

(** X17.  A [route_decorator] call whose middlewares are all valid always
    runs through, and afterwards every listed method is bound to a handler
    made of the decorated function and exactly the listed middlewares, in
    the listed order: whatever handler and chain a method had before is
    replaced, not extended. *)
Theorem decorator_binds_function_with_exactly_its_chain :
  forall app path ms (mws : list callable) func,
    LambdaFlask.wf app ->
    exists app' l,
      LambdaFlask.route_decorator path (Some ms)
        (map MethodHandler.IsMiddleware mws) func app = (app', Return tt)
      /\ Py.lookup path (LambdaFlask.routes app') = Some l
      /\ forall m, In m ms ->
                   Py.lookup m (Route.methods (LambdaFlask.deref app' l))
                   = Some (MethodHandler.mk func mws).
Proof.
  intros app path ms mws func Hwf. unfold LambdaFlask.route_decorator.
  destruct (LambdaFlask.route app path (Some ms)) as [app1 l] eqn:Hroute.
  destruct (route_post _ _ _ _ _ Hwf Hroute) as (Hl & Hlt & _ & _).
  destruct (bind_all_valid mws ms (LambdaFlask.deref app1 l) func)
    as (r & Hbind & Hkeys).
  rewrite Hbind. do 2 eexists. split; [reflexivity|]. split; [exact Hl|].
  intros m Hm. unfold LambdaFlask.deref at 1. simpl.
  rewrite nth_assign_nth by assumption. rewrite Hkeys.
  apply existsb_eqb_In in Hm. now rewrite Hm.
Qed.

(** X18.  [route_decorator] used without [http_methods] raises [TypeError]
    when the function is decorated, after the path has been registered: a
    path that was new is left in the table with the default method list
    [GET] and no handler, and from then on a request for it is answered 405
    [Method Not Allowed], not 404. *)
Theorem decorator_without_methods_leaves_a_dead_route :
  forall app path mws func,
    LambdaFlask.wf app ->
    Py.lookup path (LambdaFlask.routes app) = None ->
    exists app' l,
      LambdaFlask.route_decorator path None mws func app
      = (app', Raise (Py.TypeError "'NoneType' object is not iterable"))
      /\ Py.lookup path (LambdaFlask.routes app') = Some l
      /\ Route.http_methods (LambdaFlask.deref app' l) = ["GET"]
      /\ Route.methods (LambdaFlask.deref app' l) = []
      /\ forall event req_info s,
          utills.process_event event (LambdaFlask.source app') = Return req_info ->
          RequestInfo.route req_info = VStr path ->
          Py.hashable (RequestInfo.method req_info) = true ->
          LambdaFlask.process_request app' event s
          = (s, Return (Response.envelope (VInt 405) (VStr "Method Not Allowed"))).
Proof.
  intros app path mws func Hwf Hnew. unfold LambdaFlask.route_decorator.
  destruct (LambdaFlask.route app path None) as [app1 l] eqn:Hroute.
  destruct (route_post _ _ _ _ _ Hwf Hroute) as (Hl & _ & _ & Hinit).
  specialize (Hinit Hnew).
  exists app1, l. split; [reflexivity|]. split; [exact Hl|].
  rewrite Hinit. split; [reflexivity|]. split; [reflexivity|].
  intros event req_info s Hev Hpath Hhash.
  apply (unbound_method_is_405 app1 event req_info l s Hev).
  - rewrite Hpath. unfold Py.find. cbn [Py.hashable]. now rewrite Hl.
  - rewrite Hinit. unfold Py.find. rewrite Hhash.
    now destruct (RequestInfo.method req_info).
Qed.

Lemma attach_all_rejected (valid : list callable) bad rest e :
  (forall handler, MethodHandler.use_middleware handler bad = Raise e) ->
  forall r m func chain,
    Route.methods r = [(m, MethodHandler.mk func chain)] ->
    exists r',
      LambdaFlask.attach_all r m
        (map MethodHandler.IsMiddleware valid ++ bad :: rest)
      = (r', Raise e)
      /\ Route.methods r' = [(m, MethodHandler.mk func (chain ++ valid))].
Proof.
  intros Hbad. induction valid as [|mw valid IH]; intros r m func chain Hm; simpl.
  - unfold Route.use_middleware. rewrite Hm. simpl. rewrite String.eqb_refl.
    rewrite Hbad. simpl. exists r. now rewrite app_nil_r.
  - unfold Route.use_middleware. rewrite Hm. simpl. rewrite String.eqb_refl.
    cbn.
    destruct (IH (Route.mk (Route.path r) (Route.http_methods r)
                    [(m, MethodHandler.mk func (chain ++ [mw]))])
                 m func (chain ++ [mw]) eq_refl) as (r' & Hrun & Hm').
    exists r'. split; [exact Hrun|]. rewrite Hm'. now rewrite <- app_assoc.
Qed.

(** X19.  A middleware that [use_middleware] rejects stops
    [route_decorator] half-way and the exception leaves it, but what was
    done stays: on a path that was new, the first listed method is bound to
    the function with only the middlewares listed before the rejected one,
    and the remaining methods are not bound at all. *)
Theorem rejected_middleware_leaves_a_partial_route :
  forall app path m ms (valid : list callable) bad rest func e,
    LambdaFlask.wf app ->
    Py.lookup path (LambdaFlask.routes app) = None ->
    (forall handler, MethodHandler.use_middleware handler bad = Raise e) ->
    exists app' l,
      LambdaFlask.route_decorator path (Some (m :: ms))
        (map MethodHandler.IsMiddleware valid ++ bad :: rest) func app
      = (app', Raise e)
      /\ Py.lookup path (LambdaFlask.routes app') = Some l
      /\ Route.methods (LambdaFlask.deref app' l)
         = [(m, MethodHandler.mk func valid)].
Proof.
  intros app path m ms valid bad rest func e Hwf Hnew Hbad.
  unfold LambdaFlask.route_decorator.
  destruct (LambdaFlask.route app path (Some (m :: ms))) as [app1 l] eqn:Hroute.
  destruct (route_post _ _ _ _ _ Hwf Hroute) as (Hl & Hlt & _ & Hinit).
  specialize (Hinit Hnew). rewrite Hinit. cbn [LambdaFlask.bind_all].
  destruct (attach_all_rejected valid bad rest e Hbad
              (Route.route (Route.init path (Some (m :: ms))) m func) m func [])
    as (r' & Hattach & Hmethods); [reflexivity|].
  rewrite Hattach. do 2 eexists. split; [reflexivity|]. split; [exact Hl|].
  unfold LambdaFlask.deref. simpl. now rewrite nth_assign_nth.
Qed.

End FurtherRegistration.

(** ** The documentation generator *)

Section FurtherSwagger.
Context {rt : Runtime}.
Variable reflect : swagger_generator.reflection.
Implicit Types (self : swagger_generator.t) (app : LambdaFlask.t).

Import swagger_generator.

Lemma build_app (a b : list (string * annotation)) :
  build_swagger_parameters (ADict (a ++ b))
  = let* x := build_swagger_parameters (ADict a) in
    let* y := build_swagger_parameters (ADict b) in
    Return (x ++ y).
Proof.
  induction a as [|[n t] a IH].
  - change (build_swagger_parameters (ADict ([] ++ b)))
      with (build_swagger_parameters (ADict b)).
    change (build_swagger_parameters (ADict [])) with (@Return (list pyval) []).
    cbn [rbind]. now destruct (build_swagger_parameters (ADict b)).
  - change (build_swagger_parameters (ADict (((n, t) :: a) ++ b)))
      with (let* here :=
              match t with
              | ADict _ => build_swagger_parameters t
              | AClass name => Return [parameter n name]
              | AObject cls =>
                  Raise (Py.AttributeError
                           ("'" ++ cls ++ "' object has no attribute '__name__'")%string)
              end in
            let* there := build_swagger_parameters (ADict (a ++ b)) in
            Return (here ++ there)).
    change (build_swagger_parameters (ADict ((n, t) :: a)))
      with (let* here :=
              match t with
              | ADict _ => build_swagger_parameters t
              | AClass name => Return [parameter n name]
              | AObject cls =>
                  Raise (Py.AttributeError
                           ("'" ++ cls ++ "' object has no attribute '__name__'")%string)
              end in
            let* there := build_swagger_parameters (ADict a) in
            Return (here ++ there)).
    rewrite IH.
    destruct (match t with
              | ADict _ => build_swagger_parameters t
              | AClass name => Return [parameter n name]
              | AObject cls => Raise _
              end) as [here|e]; [|reflexivity].
    cbn [rbind].
    destruct (build_swagger_parameters (ADict a)) as [x|e]; [|reflexivity].
    cbn [rbind].
    destruct (build_swagger_parameters (ADict b)) as [y|e]; [|reflexivity].
    cbn [rbind]. now rewrite app_assoc.
Qed.

(** X20.  Nested parameter groups are flattened: a group inside the
    [req_params] annotation contributes exactly the parameters of its
    members, at its place in the order.  The result (a list of parameters
    or an exception) is that of the sequence of items in which the group is
    replaced by its members, so that the group's own name appears nowhere,
    and a member that shares its name with a parameter outside the group is
    listed besides it. *)
Theorem nested_parameters_are_flattened :
  forall (before inner after : list (string * annotation)) (group : string),
    build_swagger_parameters (ADict (before ++ (group, ADict inner) :: after))
    = build_swagger_parameters (ADict (before ++ inner ++ after)).
Proof.
  intros before inner after group.
  rewrite !build_app.
  change (build_swagger_parameters (ADict ((group, ADict inner) :: after)))
    with (let* here := build_swagger_parameters (ADict inner) in
          let* there := build_swagger_parameters (ADict after) in
          Return (here ++ there)).
  reflexivity.
Qed.

Lemma in_keys_setitem {A} (k k' : string) (v : A) (d : list (string * A)) :
  In k (Py.keys (Py.setitem k' v d)) <-> k = k' \/ In k (Py.keys d).
Proof.
  induction d as [|[k'' v''] d IH]; simpl.
  - intuition congruence.
  - destruct (String.eqb k' k'') eqn:E; simpl.
    + apply String.eqb_eq in E. subst k''. intuition congruence.
    + unfold Py.keys in IH. rewrite IH. intuition congruence.
Qed.

Lemma lookup_Some_in_keys {A} (k : string) (d : list (string * A)) :
  Py.lookup k d <> None -> In k (Py.keys d).
Proof.
  intros H. destruct (in_dec string_dec k (Py.keys d)) as [Hin|Hout]; [exact Hin|].
  now apply not_key_lookup_None in Hout.
Qed.

Lemma in_keys_lookup_Some {A} (k : string) (d : list (string * A)) :
  In k (Py.keys d) -> Py.lookup k d <> None.
Proof.
  intros Hin. destruct (in_keys_lookup _ _ Hin) as [v Hv]. congruence.
Qed.

(** What one call of [add_route] does to the document, whether it returns
    or raises. *)
Lemma add_route_effect self app p self' out :
  add_route reflect self app p = (self', out) ->
  (forall q entry,
      Py.lookup q (paths self) = Some entry ->
      Py.lookup q (paths self') = Some entry)
  /\ (In p (Py.keys (LambdaFlask.routes app)) -> In p (Py.keys (paths self')))
  /\ title self' = title self
  /\ version self' = version self
  /\ description self' = description self.
Proof.
  unfold add_route. intros H.
  destruct (Py.lookup p (LambdaFlask.routes app)) as [l|] eqn:Hr.
  - destruct (Py.lookup p (paths self)) as [old|] eqn:Hp.
    + injection H as <- _. repeat split; auto.
      intros _. apply lookup_Some_in_keys. congruence.
    + destruct (document_methods reflect p
                  (Route.methods (LambdaFlask.deref app l)) [])
        as [entry outcome].
      injection H as <- _. cbn [paths title version description].
      repeat split; auto.
      * intros q old Hq. rewrite lookup_setitem.
        destruct (String.eqb q p) eqn:E; [|exact Hq].
        apply String.eqb_eq in E. subst q. congruence.
      * intros _. apply in_keys_setitem. now left.
  - injection H as <- _. repeat split; auto.
    intros Hin. apply in_keys_lookup_Some in Hin. congruence.
Qed.

Lemma add_routes_effect ps : forall self app self' out,
  add_routes reflect self app ps = (self', out) ->
  (forall q entry,
      Py.lookup q (paths self) = Some entry ->
      Py.lookup q (paths self') = Some entry)
  /\ (out = Return tt ->
      forall p, In p ps -> In p (Py.keys (LambdaFlask.routes app)) ->
                In p (Py.keys (paths self')))
  /\ title self' = title self
  /\ version self' = version self
  /\ description self' = description self.
Proof.
  induction ps as [|p ps IH]; intros self app self' out H; simpl in H.
  - injection H as <- <-. repeat split; auto. intros _ p [].
  - destruct (add_route reflect self app p) as [mid [u|e]] eqn:Hadd.
    + destruct (add_route_effect _ _ _ _ _ Hadd) as (Hkeep & Hp & Ht & Hv & Hd).
      destruct (IH _ _ _ _ H) as (Hkeep' & Hall & Ht' & Hv' & Hd').
      repeat split; try congruence.
      * intros q entry Hq. apply Hkeep', Hkeep, Hq.
      * intros Hout q [<-|Hin] Hreg.
        -- destruct (in_keys_lookup _ _ (Hp Hreg)) as [entry Hentry].
           apply lookup_Some_in_keys. rewrite (Hkeep' _ _ Hentry). discriminate.
        -- now apply Hall.
    + injection H as <- <-.
      destruct (add_route_effect _ _ _ _ _ Hadd) as (Hkeep & Hp & Ht & Hv & Hd).
      repeat split; auto. discriminate.
Qed.

(** Once every route to visit is documented, the loop changes nothing. *)
Lemma add_routes_documented ps : forall self app,
  (forall p, In p ps -> In p (Py.keys (paths self))) ->
  add_routes reflect self app ps = (self, Return tt).
Proof.
  induction ps as [|p ps IH]; intros self app Hdoc; simpl; [reflexivity|].
  assert (Hadd : add_route reflect self app p = (self, Return tt)).
  { unfold add_route.
    destruct (Py.lookup p (LambdaFlask.routes app)); [|reflexivity].
    destruct (in_keys_lookup _ _ (Hdoc p (or_introl eq_refl))) as [entry ->].
    reflexivity. }
  rewrite Hadd. apply IH. intros q Hq. apply Hdoc. now right.
Qed.

Lemma generate_inv self app self' out :
  generate reflect self app = (self', out) ->
  exists outcome,
    add_routes reflect self app (Py.keys (LambdaFlask.routes app))
    = (self', outcome)
    /\ out = (let* _ := outcome in Return (swagger self')).
Proof.
  unfold generate.
  destruct (add_routes reflect self app (Py.keys (LambdaFlask.routes app)))
    as [s outcome].
  intros [= <- <-]. now exists outcome.
Qed.

(** X21.  When [generate] returns, the document it returns is the
    generator's own [swagger] attribute, every path registered with the
    application has an entry under [paths], the entries that were there
    before the call are the same as before, and so are the title, the
    version and the description. *)
Theorem generate_documents_every_route :
  forall self app self' document,
    generate reflect self app = (self', Return document) ->
    document = swagger self'
    /\ (forall p, In p (Py.keys (LambdaFlask.routes app)) ->
                  In p (Py.keys (paths self')))
    /\ (forall p entry,
           Py.lookup p (paths self) = Some entry ->
           Py.lookup p (paths self') = Some entry)
    /\ (title self', version self', description self')
       = (title self, version self, description self).
Proof.
  intros self app self' document H.
  destruct (generate_inv _ _ _ _ H) as (outcome & Hloop & Hout).
  destruct outcome as [[]|e]; [|discriminate].
  injection Hout as ->.
  destruct (add_routes_effect _ _ _ _ _ Hloop) as (Hkeep & Hall & Ht & Hv & Hd).
  repeat split.
  - intros p Hin. now apply (Hall eq_refl p).
  - exact Hkeep.
  - now rewrite Ht, Hv, Hd.
Qed.

(** X22.  A generated document is never refreshed.  After [generate] has
    returned, a further call returns the same document and leaves the
    generator as it is, whatever has happened to the application in between
    (methods bound to documented paths, handlers replaced, middleware
    attached, routes removed), as long as no path has been added. *)
Theorem documentation_is_never_refreshed :
  forall self app self' document app',
    generate reflect self app = (self', Return document) ->
    (forall p, In p (Py.keys (LambdaFlask.routes app')) ->
               In p (Py.keys (LambdaFlask.routes app))) ->
    generate reflect self' app' = (self', Return document).
Proof.
  intros self app self' document app' H Hsame.
  destruct (generate_inv _ _ _ _ H) as (outcome & Hloop & Hout).
  destruct outcome as [[]|e]; [|discriminate].
  injection Hout as ->.
  destruct (add_routes_effect _ _ _ _ _ Hloop) as (_ & Hall & _).
  unfold generate.
  rewrite add_routes_documented; [reflexivity|].
  intros p Hp. apply (Hall eq_refl p); auto.
Qed.

(** X23.  When [add_route] raises (the annotations of one of the handlers
    cannot be turned into parameters), the path has been entered in the
    document all the same, and no later call of [add_route] for that path
    does anything: the entry stays as the failed call left it. *)
Theorem failed_route_is_not_retried :
  forall self app p self' e,
    add_route reflect self app p = (self', Raise e) ->
    In p (Py.keys (paths self'))
    /\ forall app', add_route reflect self' app' p = (self', Return tt).
Proof.
  intros self app p self' e H.
  assert (Hin : In p (Py.keys (paths self'))).
  { unfold add_route in H.
    destruct (Py.lookup p (LambdaFlask.routes app)) as [l|]; [|discriminate].
    destruct (Py.lookup p (paths self)); [discriminate|].
    destruct (document_methods reflect p
                (Route.methods (LambdaFlask.deref app l)) [])
      as [entry outcome].
    injection H as <- _. cbn [paths]. apply in_keys_setitem. now left. }
  split; [exact Hin|].
  intros app'. unfold add_route.
  destruct (Py.lookup p (LambdaFlask.routes app')); [|reflexivity].
  destruct (in_keys_lookup _ _ Hin) as [entry ->]. reflexivity.
Qed.

Lemma document_methods_keys path ms : forall entry0 entry out,
  document_methods reflect path ms entry0 = (entry, out) ->
  (forall k, In k (Py.keys entry) ->
             In k (Py.keys entry0)
             \/ exists m, In m (Py.keys ms) /\ k = lower m)
  /\ (forall k, In k (Py.keys entry0) -> In k (Py.keys entry))
  /\ (out = Return tt ->
      forall m, In m (Py.keys ms) -> In (lower m) (Py.keys entry)).
Proof.
  induction ms as [|[m h] ms IH]; intros entry0 entry out H; simpl in H.
  - injection H as <- <-. repeat split; auto. intros _ m [].
  - destruct (generate_method_schema reflect m path h) as [schema|e].
    + destruct (IH _ _ _ H) as (Hfrom & Hkeep & Hall).
      repeat split.
      * intros k Hk. destruct (Hfrom k Hk) as [Hk0|(m' & Hm' & ->)].
        -- apply in_keys_setitem in Hk0. destruct Hk0 as [->|Hk0]; [|now left].
           right. exists m. split; [now left|reflexivity].
        -- right. exists m'. split; [now right|reflexivity].
      * intros k Hk. apply Hkeep, in_keys_setitem. now right.
      * intros Hout m' [<-|Hm'].
        -- apply Hkeep, in_keys_setitem. now left.
        -- now apply Hall.
    + injection H as <- <-. repeat split; auto. discriminate.
Qed.

(** X24.  The entry of a newly documented path is keyed by the lower-cased
    names of the route's methods: every key of the entry is the lower-cased
    name of a bound method, and when [add_route] returns every bound method
    is there under its lower-cased name (so methods whose names differ only
    in case share one key). *)
Theorem documented_methods_are_lower_cased :
  forall self app p l self' out,
    Py.lookup p (LambdaFlask.routes app) = Some l ->
    Py.lookup p (paths self) = None ->
    add_route reflect self app p = (self', out) ->
    exists entry,
      Py.lookup p (paths self') = Some entry
      /\ (forall k, In k (Py.keys entry) ->
            exists m,
              In m (Py.keys (Route.methods (LambdaFlask.deref app l)))
              /\ k = lower m)
      /\ (out = Return tt ->
          forall m,
            In m (Py.keys (Route.methods (LambdaFlask.deref app l))) ->
            In (lower m) (Py.keys entry)).
Proof.
  intros self app p l self' out Hr Hp H.
  unfold add_route in H. rewrite Hr, Hp in H.
  destruct (document_methods reflect p
              (Route.methods (LambdaFlask.deref app l)) [])
    as [entry outcome] eqn:Hdoc.
  injection H as <- <-. exists entry. cbn [paths].
  destruct (document_methods_keys _ _ _ _ _ Hdoc) as (Hfrom & _ & Hall).
  repeat split.
  - apply lookup_setitem_eq.
  - intros k Hk. destruct (Hfrom k Hk) as [[]|Hm]. exact Hm.
  - exact Hall.
Qed.

End FurtherSwagger.

(** ** Examples of the further properties *)

Section FurtherExamples.
Import Example Scenario.

#[local] Existing Instance Ref.runtime.

(** The query [a=1&b=q] with the base64 text of [hi] as body. *)
Lemma base64_hi_is_wrapped :
  exists params,
    RequestInfo._aggregate_params (VDict query) encoded_hi host (VBool true)
    = Return (VDict params)
    /\ forall k,
        Py.lookup k params
        = if String.eqb k "headers" then Some host
          else if String.eqb k "base64" then Some (VBool true)
          else if String.eqb k "file" then Some (VBytes hi)
          else Py.lookup k query.
Proof.
  apply (base64_body_is_wrapped (rt := Ref.runtime)
           query encoded_hi host (VBool true) hi);
    try reflexivity.
  repeat constructor; simpl; intuition discriminate.
Defined.

(** A gateway-proxy event with null query string and body. *)
Lemma null_event_normalises :
  utills.process_event (VDict null_event) "api_gateway_proxy"
  = Return (RequestInfo.mk (VStr "/hello") (VStr "GET") headers_only (VDict [])).
Proof.
  apply (gateway_null_query_and_body (rt := Ref.runtime)
           null_event [] (VStr "/hello") (VStr "GET")); reflexivity.
Defined.

(** The empty string as body, and a body that is the JSON text of a list. *)
Lemma empty_or_list_body_is_refused :
  RequestInfo._aggregate_params (VDict query) (VStr "") host (VBool false)
  = Raise (not_a_mapping (VStr ""))
  /\ RequestInfo._aggregate_params (VDict query) (VStr "[1]") host (VBool false)
     = Raise (not_a_mapping (VList [VInt 1])).
Proof.
  split.
  - apply (proj1 (body_must_be_a_mapping (rt := Ref.runtime)
                    query (VStr "") host (VBool false))); reflexivity.
  - apply (proj2 (body_must_be_a_mapping (rt := Ref.runtime)
                    query (VStr "[1]") host (VBool false))
                 (VList [VInt 1])); reflexivity.
Defined.

(** The merge event of the examples. *)
Lemma merge_event_carries_headers :
  exists e d,
    VDict merge_event = VDict e
    /\ RequestInfo.params merged = VDict d
    /\ Py.lookup "headers" d = Some (Py.get_or e "headers" (VDict [])).
Proof.
  apply (params_always_carry_headers (rt := Ref.runtime)
           (VDict merge_event) "function_url" merged).
  reflexivity.
Defined.

(** The empty event has no [requestContext]. *)
Lemma empty_event_is_500 :
  LambdaFlask.process_request direct (VDict []) start
  = (start, Return (Response.envelope (VInt 500) (error_body "'requestContext'"))).
Proof.
  apply (malformed_event_is_500_without_calls (rt := Ref.runtime)
           direct (VDict []) start (Py.KeyError "'requestContext'"));
    reflexivity.
Defined.

(** An event whose path is a list. *)
Lemma list_path_is_500 :
  LambdaFlask.process_request direct list_path_event start
  = (start,
     Return (Response.envelope (VInt 500) (error_body "unhashable type: 'list'"))).
Proof.
  apply (unhashable_path_or_method_is_500 (rt := Ref.runtime)
           direct list_path_event list_path start (VList []));
    [reflexivity | reflexivity | left; reflexivity | reflexivity].
Defined.

(** Two tagging middlewares, then the echo handler. *)
Lemma two_tags_then_echo :
  MethodHandler.execute two_tags headers_only start
  = (after 3 [CallMiddleware 0 headers_only; CallMiddleware 1 tagged;
              CallHandler tagged],
     Return (VDict [("statusCode", VInt 200); ("body", tagged)])).
Proof.
  apply (execute_threads_params_to_handler (rt := Ref.runtime)
           two_tags headers_only start [tagged; tagged] 2 3
           (Return (VDict [("statusCode", VInt 200); ("body", tagged)])));
    reflexivity.
Defined.

(** A raising function in second position. *)
Lemma boom_in_the_chain :
  MethodHandler.execute failing_chain headers_only start
  = (after 2 [CallMiddleware 0 headers_only; CallMiddleware 1 tagged],
     Raise boom_error)
  /\ List.length (calls_from 0 [headers_only; tagged]) = 2.
Proof.
  apply (execute_stops_at_raising_middleware (rt := Ref.runtime)
           failing_chain [tag] boom [tag] headers_only start [tagged] 1 2
           boom_error); reflexivity.
Defined.

(** Gateway-proxy, GET /hello: the handler's body is a mapping, the
    envelope's body its JSON text. *)
Lemma gateway_hello_body_is_text :
  LambdaFlask.process_request gateway (gateway_event "/hello" "GET" []) start
  = (after 2 [CallMiddleware 0 headers_only; CallHandler tagged],
     Return (Response.envelope (VInt 200) (VStr tagged_text)))
  /\ exists statusCode text,
      Response.envelope (VInt 200) (VStr tagged_text)
      = Response.envelope statusCode (VStr text).
Proof.
  split; [reflexivity|].
  apply (gateway_body_is_always_a_string (rt := Ref.runtime)
           gateway (gateway_event "/hello" "GET" []) start
           (after 2 [CallMiddleware 0 headers_only; CallHandler tagged]));
    reflexivity.
Defined.

(** A response with [headers] and [isBase64Encoded], and one without. *)
Lemma headers_entry_is_dropped :
  LambdaFlask.final_envelope direct (VDict rich)
  = LambdaFlask.final_envelope direct (VDict lean).
Proof.
  apply (only_status_and_body_are_encoded (rt := Ref.runtime) direct rich lean);
    reflexivity.
Defined.

(** Under gateway-proxy, the envelope of a response whose body is a
    mapping. *)
Lemma encoded_object_is_stable :
  LambdaFlask.final_envelope gateway
    (Response.envelope (VInt 200) (VStr object_text))
  = Return (Response.envelope (VInt 200) (VStr object_text)).
Proof.
  apply (encoding_twice_is_encoding_once (rt := Ref.runtime)
           gateway object_response); reflexivity.
Defined.

(** The configuration after two registrations of [/item]. *)
Lemma registered_twice_is_sound :
  source_ok registered_twice
  /\ consistent registered_twice
  /\ forall event,
      utills.process_event event (LambdaFlask.source registered_twice)
      = if LambdaFlask.isApiGatewayEvent registered_twice
        then utills._process_api_url_event event
        else utills._process_function_url_event event.
Proof.
  apply (reachable_configurations_are_sound (rt := Ref.runtime)).
  unfold registered_twice, registered_once.
  apply built_decorator, built_decorator.
  apply (built_init "function_url" true true true). reflexivity.
Defined.

(** Registering [/other] after [/item]. *)
Lemma item_survives_other_registration :
  Py.lookup "/item"
    (LambdaFlask.routes
       (fst (LambdaFlask.route_decorator "/other" (Some ["GET"]) [] bare
               registered_once)))
  = Some 0
  /\ LambdaFlask.deref
       (fst (LambdaFlask.route_decorator "/other" (Some ["GET"]) [] bare
               registered_once)) 0
     = LambdaFlask.deref registered_once 0.
Proof.
  apply (registration_leaves_other_paths_alone (rt := Ref.runtime)
           registered_once "/other" (Some ["GET"]) [] bare "/item" 0).
  - unfold registered_once. apply consistent_route_decorator.
    intros p l H. discriminate H.
  - intros H. discriminate H.
  - reflexivity.
Defined.

(** [/item] decorated for GET and POST on a configuration without routes. *)
Lemma fresh_item_is_bound :
  exists app' l,
    LambdaFlask.route_decorator "/item" (Some ["GET"; "POST"])
      (map MethodHandler.IsMiddleware [tag]) echo unconfigured
    = (app', Return tt)
    /\ Py.lookup "/item" (LambdaFlask.routes app') = Some l
    /\ forall m, In m ["GET"; "POST"] ->
                 Py.lookup m (Route.methods (LambdaFlask.deref app' l))
                 = Some (MethodHandler.mk echo [tag]).
Proof.
  apply (decorator_binds_function_with_exactly_its_chain (rt := Ref.runtime)).
  intros p l H. discriminate H.
Defined.

(** [/dead] decorated without methods on a configuration without routes. *)
Lemma dead_route_answers_405 :
  exists app' l,
    LambdaFlask.route_decorator "/dead" None [] echo unconfigured
    = (app', Raise (Py.TypeError "'NoneType' object is not iterable"))
    /\ Py.lookup "/dead" (LambdaFlask.routes app') = Some l
    /\ Route.http_methods (LambdaFlask.deref app' l) = ["GET"]
    /\ Route.methods (LambdaFlask.deref app' l) = []
    /\ forall event req_info s,
        utills.process_event event (LambdaFlask.source app') = Return req_info ->
        RequestInfo.route req_info = VStr "/dead" ->
        Py.hashable (RequestInfo.method req_info) = true ->
        LambdaFlask.process_request app' event s
        = (s, Return (Response.envelope (VInt 405) (VStr "Method Not Allowed"))).
Proof.
  apply (decorator_without_methods_leaves_a_dead_route (rt := Ref.runtime)).
  - intros p l H. discriminate H.
  - reflexivity.
Defined.

(** [/item] decorated for GET and POST with [tag] and then a class that is
    no middleware. *)
Lemma partial_item_after_rejection :
  exists app' l,
    LambdaFlask.route_decorator "/item" (Some ["GET"; "POST"])
      (map MethodHandler.IsMiddleware [tag]
         ++ MethodHandler.NotMiddleware :: [MethodHandler.IsMiddleware tag])
      echo unconfigured
    = (app', Raise not_a_subclass)
    /\ Py.lookup "/item" (LambdaFlask.routes app') = Some l
    /\ Route.methods (LambdaFlask.deref app' l)
       = [("GET", MethodHandler.mk echo [tag])].
Proof.
  apply (rejected_middleware_leaves_a_partial_route (rt := Ref.runtime)).
  - intros p l H. discriminate H.
  - reflexivity.
  - intros handler. reflexivity.
Defined.

(** The document generated for the application with [/item]. *)
Lemma item_is_documented :
  swagger_generator.generate plain generator registered_twice
  = (documented, Return (swagger_generator.swagger documented))
  /\ In "/item" (Py.keys (swagger_generator.paths documented)).
Proof.
  assert (H : swagger_generator.generate plain generator registered_twice
              = (documented, Return (swagger_generator.swagger documented)))
    by reflexivity.
  split; [exact H|].
  apply (proj1 (proj2 (generate_documents_every_route (rt := Ref.runtime)
                         plain generator registered_twice documented _ H))).
  left. reflexivity.
Defined.

(** The document generated after the first registration of [/item] is what
    [generate] returns after the second one. *)
Lemma second_registration_is_not_documented :
  swagger_generator.generate plain documented_once registered_twice
  = (documented_once, Return (swagger_generator.swagger documented_once)).
Proof.
  apply (documentation_is_never_refreshed (rt := Ref.runtime)
           plain generator registered_once).
  - reflexivity.
  - intros p H. exact H.
Defined.

(** [add_route] for [/item] with handlers whose [req_params] annotation is
    the class [int]. *)
Lemma broken_item_stays_half_documented :
  swagger_generator.add_route broken generator registered_twice "/item"
  = (half_documented, Raise no_items)
  /\ In "/item" (Py.keys (swagger_generator.paths half_documented))
  /\ forall app',
      swagger_generator.add_route broken half_documented app' "/item"
      = (half_documented, Return tt).
Proof.
  assert (H : swagger_generator.add_route broken generator registered_twice "/item"
              = (half_documented, Raise no_items)) by reflexivity.
  split; [exact H|].
  exact (failed_route_is_not_retried (rt := Ref.runtime)
           broken generator registered_twice "/item" half_documented no_items H).
Defined.

(** The entry of [/item], bound under GET, POST and PUT. *)
Lemma item_entry_is_lower_cased :
  exists entry,
    Py.lookup "/item" (swagger_generator.paths documented) = Some entry
    /\ (forall k, In k (Py.keys entry) ->
          exists m,
            In m (Py.keys (Route.methods (LambdaFlask.deref registered_twice 0)))
            /\ k = swagger_generator.lower m)
    /\ (Return tt = Return tt ->
        forall m,
          In m (Py.keys (Route.methods (LambdaFlask.deref registered_twice 0))) ->
          In (swagger_generator.lower m) (Py.keys entry)).
Proof.
  apply (documented_methods_are_lower_cased (rt := Ref.runtime)
           plain generator registered_twice "/item" 0 documented (Return tt));
    reflexivity.
Defined.

End FurtherExamples.
